(** * The PAL wait multiplexer: [InternalWaitForMultipleObjectsEx]

    A shallow embedding of [src/shared/pal/src/synchmgr/wait.cpp] and the
    verification of its documented behaviour.

    The wait function talks to three collaborators that live outside the
    file: the object manager ([g_pObjectManager]), the synchronization
    manager ([g_pSynchronizationManager]) and the per-object wait
    controllers.  They are C++ interfaces in the source and type classes
    here; their private state is an abstract type [S].  Every call the
    function makes on them is recorded, with its arguments and its answer,
    in a log, so that statements such as "no controller was obtained" or
    "the controller was released before blocking" are statements about
    the log of one call.

    The development also covers [WaitForSingleObject], the caller of the
    wait function in the same file, and some inline functions and macros
    of [pal.h]: the rotations [_rotl] and [_rotr], the status macros
    ([SUCCEEDED], [MAKE_HRESULT], [HRESULT_FROM_WIN32], ...) and the bit
    scans [BitScanReverse] and [BitScanReverse64]. *)

From Stdlib Require Import ZArith List Bool Lia.
Import ListNotations.
Open Scope Z_scope.

Set Implicit Arguments.

(** ** Machine integers and compatibility types *)

(** [DWORD] is a 32-bit unsigned integer and [int] a 32-bit signed one; both
    are carried by [Z], with the conversions written out. *)
Definition DWORD := Z.
Definition PAL_ERROR := Z.
Definition HANDLE := Z.
Definition IPalObjectPtr := Z.
Definition ISynchWaitControllerPtr := Z.

Definition NULL : Z := 0.

(** [static_cast<DWORD>(i)] and the implicit int-to-DWORD conversion. *)
Definition to_DWORD (i : Z) : DWORD := i mod 2 ^ 32.

(** [(int)d], also what reading an [int] through a [DWORD *] store gives. *)
Definition to_int (d : Z) : Z :=
  let r := d mod 2 ^ 32 in if r <? 2 ^ 31 then r else r - 2 ^ 32.

(** Modelled from the spec: [pal_mstypes.h] ([BOOL], [TRUE], [FALSE]) is not
    among the sources.  The spec describes the wait-all, alertable and
    priority parameters as flags; [BOOL] is the C integer type carrying
    them, [FALSE] is zero and [TRUE] is one. *)
Definition BOOL := Z.
Definition TRUE : BOOL := 1.
Definition FALSE : BOOL := 0.

(** [(bool)b] and [if (b)] on a [BOOL]: any non-zero value is true. *)
Definition BOOL_to_bool (b : BOOL) : bool := negb (b =? 0).

(** ** Constants of [pal.h] *)

Definition MAXIMUM_WAIT_OBJECTS : Z := 64.
Definition WAIT_OBJECT_0 : DWORD := 0.
Definition WAIT_ABANDONED_0 : DWORD := 0x80.
Definition WAIT_TIMEOUT : DWORD := 258.
Definition WAIT_FAILED : DWORD := 0xFFFFFFFF.
Definition NO_ERROR : PAL_ERROR := 0.

Definition MAXIMUM_STACK_WAITOBJ_ARRAY_SIZE : Z := MAXIMUM_WAIT_OBJECTS / 4.

(** The error codes of [pal_error.h], a header that is not part of the
    sources: they are parameters of the development. *)
Class PalErrorCodes := {
  ERROR_INVALID_PARAMETER : DWORD;
  ERROR_NOT_ENOUGH_MEMORY : DWORD;
  ERROR_INVALID_HANDLE : DWORD;
  ERROR_INTERNAL_ERROR : DWORD;
  ERROR_NOT_SUPPORTED : DWORD
}.

(** Modelled from the spec: the enumerations of [synchobjects.hpp] and
    [corunix.hpp] are not among the sources.  [WaitType] has the three
    kinds the function passes to [RegisterWaitingThread];
    [ThreadWakeupReason] has the four reasons the [switch] names and, for
    its [default] branch, any other reason ("anything else -> failed");
    [PalObjectTypeId] has the object kinds of the data model (mutex-like,
    event-like, process, thread). *)
Inductive WaitType := SingleObject | MultipleObjectsWaitOne | MultipleObjectsWaitAll.

Inductive ThreadWakeupReason :=
| WaitSucceeded
| MutexAbondoned
| WaitTimeout
| WaitFailed
| OtherWakeupReason (code : Z).

Inductive PalObjectTypeId := otiMutex | otiEvent | otiProcess | otiThread.

(** [sg_rgWaitObjectsIds], the kinds [sg_aotWaitObject] allows. *)
Definition sg_rgWaitObjectsIds : list PalObjectTypeId := [otiProcess; otiThread].

(** Where a working array lives: the in-frame arrays of
    [MAXIMUM_STACK_WAITOBJ_ARRAY_SIZE] slots, a block returned by
    [InternalNewArray], or the null pointer. *)
Inductive ArrayRef := StackArray | HeapArray (addr : Z) | NullArray.

Definition of_alloc (r : option Z) : ArrayRef :=
  match r with Some a => HeapArray a | None => NullArray end.

Definition is_null (a : ArrayRef) : bool :=
  match a with NullArray => true | _ => false end.

(** ** The log of one call *)

Inductive Event :=
| EvSetLastError (code : DWORD)
| EvInternalNewArray (n : DWORD) (r : option Z)
| EvInternalDeleteArray (a : ArrayRef)
| EvReferenceMultipleObjectsByHandleArray
    (handles : list HANDLE) (n : DWORD) (err : PAL_ERROR) (objs : list IPalObjectPtr)
| EvGetSynchWaitControllersForObjects
    (objs : list IPalObjectPtr) (n : DWORD) (err : PAL_ERROR)
    (ctrls : list ISynchWaitControllerPtr)
| EvCanThreadWaitWithoutBlocking
    (i : Z) (c : ISynchWaitControllerPtr) (err : PAL_ERROR) (fValue fAbandoned : bool)
| EvReleaseWaitingThreadWithoutBlocking (i : Z) (c : ISynchWaitControllerPtr) (err : PAL_ERROR)
| EvRegisterWaitingThread
    (i : Z) (c : ISynchWaitControllerPtr) (wt : WaitType)
    (fAlertable fPrioritize : bool) (err : PAL_ERROR)
| EvReleaseController (i : Z) (c : ISynchWaitControllerPtr)
| EvBlockThread
    (ms : DWORD) (fAlertable : bool) (err : PAL_ERROR)
    (reason : ThreadWakeupReason) (idx : DWORD)
| EvReleaseReference (i : Z) (obj : IPalObjectPtr).

(** ** The collaborators *)

(** Each operation takes the collaborators' state and returns its answer
    with the new state.  Out-parameters are returned values. *)

Class IPalObjectManager (S : Type) := {
  ReferenceMultipleObjectsByHandleArray :
    list HANDLE -> DWORD -> list PalObjectTypeId -> S ->
    (PAL_ERROR * list IPalObjectPtr) * S
}.

Class IPalObject (S : Type) := {
  ReleaseReference : IPalObjectPtr -> S -> S
}.

Class IPalSynchronizationManager (S : Type) := {
  GetSynchWaitControllersForObjects :
    list IPalObjectPtr -> DWORD -> S ->
    (PAL_ERROR * list ISynchWaitControllerPtr) * S;
  (** [BlockThread ms fAlertable fIsSleep idx]: [idx] is the value
      [*pdwSignaledObject] holds on entry; the answer carries the value it
      holds on return. *)
  BlockThread :
    DWORD -> bool -> bool -> DWORD -> S ->
    (PAL_ERROR * ThreadWakeupReason * DWORD) * S
}.

Class ISynchWaitController (S : Type) := {
  CanThreadWaitWithoutBlocking :
    ISynchWaitControllerPtr -> S -> (PAL_ERROR * bool * bool) * S;
  ReleaseWaitingThreadWithoutBlocking :
    ISynchWaitControllerPtr -> S -> PAL_ERROR * S;
  RegisterWaitingThread :
    ISynchWaitControllerPtr -> WaitType -> DWORD -> bool -> bool -> S -> PAL_ERROR * S;
  ReleaseController : ISynchWaitControllerPtr -> S -> S
}.

Class PalMalloc (S : Type) := {
  InternalNewArray : DWORD -> S -> option Z * S;
  InternalDeleteArray : ArrayRef -> S -> S
}.

(** ** The state one call runs in *)

Record World (S : Type) := mkWorld {
  ext : S;                (* the collaborators *)
  lastError : DWORD;      (* the calling thread's last-error slot *)
  log : list Event        (* the calls made so far, newest first *)
}.

(** The calls in the order they were made. *)
Definition trace {S} (w : World S) : list Event := rev (log w).

Definition M (S A : Type) : Type := World S -> A * World S.

Definition ret {S A} (a : A) : M S A := fun w => (a, w).

Definition bind {S A B} (m : M S A) (k : A -> M S B) : M S B :=
  fun w => let (a, w') := m w in k a w'.

Declare Scope wait_scope.
Delimit Scope wait_scope with wait.
Notation "x <- m ;; k" := (bind m (fun x => k))
  (at level 61, m at next level, right associativity) : wait_scope.
Notation "' p <- m ;; k" := (bind m (fun x => let 'p := x in k))
  (at level 61, p pattern, m at next level, right associativity) : wait_scope.
Notation "m ;; k" := (bind m (fun _ => k))
  (at level 61, right associativity) : wait_scope.
Open Scope wait_scope.

(** A call on a collaborator: run it on the collaborators' state and log
    the event built from its answer. *)
Definition call {S A} (op : S -> A * S) (ev : A -> Event) : M S A :=
  fun w =>
    let (a, s') := op (ext w) in
    (a, {| ext := s'; lastError := lastError w; log := ev a :: log w |}).

Definition call_ {S} (op : S -> S) (ev : Event) : M S unit :=
  call (fun s => (tt, op s)) (fun _ => ev).

(** [pThread->SetLastError(code)]. *)
Definition SetLastError {S} (code : DWORD) : M S unit :=
  fun w => (tt, {| ext := ext w; lastError := code; log := EvSetLastError code :: log w |}).

(** ** The wait function *)

Section Wait.

Context {S : Type}.
Context {codes : PalErrorCodes}.
Context {objmgr : IPalObjectManager S} {palobj : IPalObject S}.
Context {synchmgr : IPalSynchronizationManager S} {waitctrl : ISynchWaitController S}.
Context {malloc : PalMalloc S}.

(** [arr[i]] on a working array: the slots the collaborator did not fill
    hold the null pointer the arrays are initialised with. *)
Definition at_index (arr : list Z) (i : Z) : Z := nth (Z.to_nat i) arr NULL.

(** The number of iterations of [for (i = lo; i < hi; i++)]. *)
Definition iterations (lo hi : Z) : nat := Z.to_nat (hi - lo).

(** *** The calls on the collaborators, each with its log entry *)

Definition do_InternalNewArray (n : DWORD) : M S ArrayRef :=
  r <- call (InternalNewArray n) (EvInternalNewArray n) ;;
  ret (of_alloc r).

Definition do_InternalDeleteArray (a : ArrayRef) : M S unit :=
  call_ (InternalDeleteArray a) (EvInternalDeleteArray a).

Definition do_ReferenceMultipleObjectsByHandleArray
    (lpHandles : list HANDLE) (nCount : DWORD) : M S (PAL_ERROR * list IPalObjectPtr) :=
  call (ReferenceMultipleObjectsByHandleArray lpHandles nCount sg_rgWaitObjectsIds)
       (fun r => EvReferenceMultipleObjectsByHandleArray lpHandles nCount (fst r) (snd r)).

Definition do_GetSynchWaitControllersForObjects
    (ppIPalObjs : list IPalObjectPtr) (nCount : DWORD)
    : M S (PAL_ERROR * list ISynchWaitControllerPtr) :=
  call (GetSynchWaitControllersForObjects ppIPalObjs nCount)
       (fun r => EvGetSynchWaitControllersForObjects ppIPalObjs nCount (fst r) (snd r)).

Definition do_CanThreadWaitWithoutBlocking (i : Z) (c : ISynchWaitControllerPtr)
    : M S (PAL_ERROR * bool * bool) :=
  call (CanThreadWaitWithoutBlocking c)
       (fun r => EvCanThreadWaitWithoutBlocking i c (fst (fst r)) (snd (fst r)) (snd r)).

Definition do_ReleaseWaitingThreadWithoutBlocking (i : Z) (c : ISynchWaitControllerPtr)
    : M S PAL_ERROR :=
  call (ReleaseWaitingThreadWithoutBlocking c)
       (EvReleaseWaitingThreadWithoutBlocking i c).

Definition do_RegisterWaitingThread (i : Z) (c : ISynchWaitControllerPtr)
    (wt : WaitType) (fAlertable fPrioritize : bool) : M S PAL_ERROR :=
  call (RegisterWaitingThread c wt (to_DWORD i) fAlertable fPrioritize)
       (EvRegisterWaitingThread i c wt fAlertable fPrioritize).

Definition do_ReleaseController (i : Z) (c : ISynchWaitControllerPtr) : M S unit :=
  call_ (ReleaseController c) (EvReleaseController i c).

Definition do_BlockThread (ms : DWORD) (fAlertable : bool) (idx : DWORD)
    : M S (PAL_ERROR * ThreadWakeupReason * DWORD) :=
  call (BlockThread ms fAlertable false idx)
       (fun r => EvBlockThread ms fAlertable (fst (fst r)) (snd (fst r)) (snd r)).

Definition do_ReleaseReference (i : Z) (o : IPalObjectPtr) : M S unit :=
  call_ (ReleaseReference o) (EvReleaseReference i o).

(** *** The loops *)

(** Lines 150-162: the duplicate check of a wait-all request,
    [for (DWORD i = 0; i < nCount - 1; ++i) for (DWORD j = i + 1; j < nCount; ++j)].
    [true] when [ppIPalObjs[j] == ppIPalObjs[i]] for some [i < j]. *)
Fixpoint duplicate_inner (n : nat) (j : Z) (ppIPalObjs : list IPalObjectPtr)
    (objectToCheck : IPalObjectPtr) : bool :=
  match n with
  | O => false
  | Datatypes.S n' =>
      if at_index ppIPalObjs j =? objectToCheck then true
      else duplicate_inner n' (j + 1) ppIPalObjs objectToCheck
  end.

Fixpoint duplicate_outer (n : nat) (i : Z) (nCount : DWORD)
    (ppIPalObjs : list IPalObjectPtr) : bool :=
  match n with
  | O => false
  | Datatypes.S n' =>
      let objectToCheck := at_index ppIPalObjs i in
      if duplicate_inner (iterations (i + 1) nCount) (i + 1) ppIPalObjs objectToCheck
      then true
      else duplicate_outer n' (i + 1) nCount ppIPalObjs
  end.

Definition has_duplicate (nCount : DWORD) (ppIPalObjs : list IPalObjectPtr) : bool :=
  duplicate_outer (iterations 0 (to_DWORD (nCount - 1))) 0 nCount ppIPalObjs.

(** What the pre-check loop leaves in the locals. *)
Record PreCheck := mkPreCheck {
  pc_palErr : PAL_ERROR;
  pc_iSignaledObjCount : Z;
  pc_iSignaledObjIndex : Z;
  pc_fAbandoned : bool
}.

(** Lines 184-206: [for (i=0;i<(int)nCount;i++)], asking each controller
    whether the thread can wait without blocking.  A failing controller sets
    the last error and leaves the loop (the [goto]); a satisfied object of a
    wait-any request leaves it too (the [break]). *)
Fixpoint precheck_loop (n : nat) (i : Z) (ppISyncWaitCtrlrs : list ISynchWaitControllerPtr)
    (fWAll : bool) (iSignaledObjCount iSignaledObjIndex : Z) (fAbandoned : bool)
    : M S PreCheck :=
  match n with
  | O => ret (mkPreCheck NO_ERROR iSignaledObjCount iSignaledObjIndex fAbandoned)
  | Datatypes.S n' =>
      '(palErr, fValue, fWaitObjectAbandoned) <-
        do_CanThreadWaitWithoutBlocking i (at_index ppISyncWaitCtrlrs i) ;;
      if negb (palErr =? NO_ERROR) then
        SetLastError ERROR_INTERNAL_ERROR ;;
        ret (mkPreCheck palErr iSignaledObjCount iSignaledObjIndex fAbandoned)
      else
        let fAbandoned := if fWaitObjectAbandoned then true else fAbandoned in
        if fValue then
          let iSignaledObjCount := iSignaledObjCount + 1 in
          let iSignaledObjIndex := i in
          if negb fWAll then
            ret (mkPreCheck NO_ERROR iSignaledObjCount iSignaledObjIndex fAbandoned)
          else
            precheck_loop n' (i + 1) ppISyncWaitCtrlrs fWAll
                          iSignaledObjCount iSignaledObjIndex fAbandoned
        else
          precheck_loop n' (i + 1) ppISyncWaitCtrlrs fWAll
                        iSignaledObjCount iSignaledObjIndex fAbandoned
  end.

(** Lines 234-245: [for (i = iStartIdx; i < iEndIdx; i++)], consuming the
    signal of each object through its controller.  The answer is the
    [palErr] the loop ends with. *)
Fixpoint unsignal_loop (n : nat) (i : Z) (ppISyncWaitCtrlrs : list ISynchWaitControllerPtr)
    : M S PAL_ERROR :=
  match n with
  | O => ret NO_ERROR
  | Datatypes.S n' =>
      palErr <- do_ReleaseWaitingThreadWithoutBlocking i (at_index ppISyncWaitCtrlrs i) ;;
      if negb (palErr =? NO_ERROR) then
        SetLastError palErr ;;
        ret palErr
      else unsignal_loop n' (i + 1) ppISyncWaitCtrlrs
  end.

(** Lines 258-272: register the thread for waiting on all objects. *)
Fixpoint register_loop (n : nat) (i : Z) (ppISyncWaitCtrlrs : list ISynchWaitControllerPtr)
    (wtWaitType : WaitType) (bAlertable bPrioritize : BOOL) : M S PAL_ERROR :=
  match n with
  | O => ret NO_ERROR
  | Datatypes.S n' =>
      palErr <- do_RegisterWaitingThread i (at_index ppISyncWaitCtrlrs i) wtWaitType
                  (TRUE =? bAlertable) (negb (bPrioritize =? FALSE)) ;;
      if negb (palErr =? NO_ERROR) then
        SetLastError palErr ;;
        ret palErr
      else register_loop n' (i + 1) ppISyncWaitCtrlrs wtWaitType bAlertable bPrioritize
  end.

(** Lines 277-281: release all controllers.  The store of [NULL] into the
    released slot is never read again and is left out. *)
Fixpoint release_controllers_loop (n : nat) (i : Z)
    (ppISyncWaitCtrlrs : list ISynchWaitControllerPtr) : M S unit :=
  match n with
  | O => ret tt
  | Datatypes.S n' =>
      do_ReleaseController i (at_index ppISyncWaitCtrlrs i) ;;
      release_controllers_loop n' (i + 1) ppISyncWaitCtrlrs
  end.

(** Lines 346-350: release the reference taken on each object. *)
Fixpoint release_references_loop (n : nat) (i : Z) (ppIPalObjs : list IPalObjectPtr)
    : M S unit :=
  match n with
  | O => ret tt
  | Datatypes.S n' =>
      do_ReleaseReference i (at_index ppIPalObjs i) ;;
      release_references_loop n' (i + 1) ppIPalObjs
  end.

(** *** The working arrays *)

(** [ppIPalObjs] and [ppISyncWaitCtrlrs]: where the array lives and what its
    slots hold.  A collaborator that fills an array answers with the
    contents the array has on return. *)
Record WorkArray := mkWorkArray {
  storage : ArrayRef;
  slots : list Z
}.

Definition stack_array : WorkArray :=
  mkWorkArray StackArray (repeat NULL (Z.to_nat MAXIMUM_STACK_WAITOBJ_ARRAY_SIZE)).

Definition null_array : WorkArray := mkWorkArray NullArray [].

Definition new_array (a : ArrayRef) : WorkArray := mkWorkArray a [].

Definition filled (arr : WorkArray) (contents : list Z) : WorkArray :=
  mkWorkArray (storage arr) contents.

(** *** The exit labels *)

(** [WFMOExIntExit:] (lines 352-359). *)
Definition WFMOExIntExit (nCount : DWORD) (ppIPalObjs ppISyncWaitCtrlrs : WorkArray)
    (dwRet : DWORD) : M S DWORD :=
  (if nCount >? MAXIMUM_STACK_WAITOBJ_ARRAY_SIZE then
     do_InternalDeleteArray (storage ppIPalObjs) ;;
     do_InternalDeleteArray (storage ppISyncWaitCtrlrs)
   else ret tt) ;;
  ret dwRet.

(** [WFMOExIntCleanup:] (lines 345-350), falling through to the exit. *)
Definition WFMOExIntCleanup (nCount : DWORD) (ppIPalObjs ppISyncWaitCtrlrs : WorkArray)
    (dwRet : DWORD) : M S DWORD :=
  release_references_loop (iterations 0 (to_int nCount)) 0 (slots ppIPalObjs) ;;
  WFMOExIntExit nCount ppIPalObjs ppISyncWaitCtrlrs dwRet.

(** The condition of the two [_ASSERT_MSG] at lines 329-334.  Assertions are
    compiled out of release builds: the function does not branch on it. *)
Definition asserted_index_in_range (nCount : DWORD) (iSignaledObjIndex : Z) : bool :=
  (0 <=? iSignaledObjIndex)
  && ((iSignaledObjIndex >=? 0) && (nCount >? to_DWORD iSignaledObjIndex)).

(** Lines 327-343: add the index of the satisfied object to the result of a
    wait-any, then fall through to the cleanup. *)
Definition add_signaled_index (nCount : DWORD) (ppIPalObjs ppISyncWaitCtrlrs : WorkArray)
    (fWAll : bool) (iSignaledObjIndex : Z) (dwRet : DWORD) : M S DWORD :=
  if negb fWAll && ((WAIT_OBJECT_0 =? dwRet) || (WAIT_ABANDONED_0 =? dwRet)) then
    if iSignaledObjIndex <? 0 then
      SetLastError ERROR_INTERNAL_ERROR ;;
      WFMOExIntCleanup nCount ppIPalObjs ppISyncWaitCtrlrs WAIT_FAILED
    else
      WFMOExIntCleanup nCount ppIPalObjs ppISyncWaitCtrlrs
                       (to_DWORD (dwRet + iSignaledObjIndex))
  else
    WFMOExIntCleanup nCount ppIPalObjs ppISyncWaitCtrlrs dwRet.

(** The [switch] on the wake-up reason (lines 308-324). *)
Definition wakeup_result (twrWakeupReason : ThreadWakeupReason) : DWORD :=
  match twrWakeupReason with
  | WaitSucceeded => WAIT_OBJECT_0
  | MutexAbondoned => WAIT_ABANDONED_0
  | WaitTimeout => WAIT_TIMEOUT
  | WaitFailed => WAIT_FAILED
  | OtherWakeupReason _ => WAIT_FAILED
  end.

(** [WFMOExIntReleaseControllers:] (lines 275-343): release the controllers,
    block if needed, map the wake-up reason. *)
Definition WFMOExIntReleaseControllers (nCount : DWORD)
    (ppIPalObjs ppISyncWaitCtrlrs : WorkArray)
    (dwMilliseconds : DWORD) (bAlertable : BOOL) (fWAll : bool)
    (palErr : PAL_ERROR) (fNeedToBlock : bool) (iSignaledObjIndex : Z)
    (dwRet : DWORD) : M S DWORD :=
  release_controllers_loop (iterations 0 (to_int nCount)) 0 (slots ppISyncWaitCtrlrs) ;;
  if negb (palErr =? NO_ERROR) then
    WFMOExIntCleanup nCount ppIPalObjs ppISyncWaitCtrlrs dwRet
  else if fNeedToBlock then
    '(palErr, twrWakeupReason, dwSignaledObject) <-
      do_BlockThread dwMilliseconds (TRUE =? bAlertable) (to_DWORD iSignaledObjIndex) ;;
    let iSignaledObjIndex := to_int dwSignaledObject in
    if negb (palErr =? NO_ERROR) then
      SetLastError palErr ;;
      WFMOExIntCleanup nCount ppIPalObjs ppISyncWaitCtrlrs dwRet
    else
      add_signaled_index nCount ppIPalObjs ppISyncWaitCtrlrs fWAll iSignaledObjIndex
                         (wakeup_result twrWakeupReason)
  else
    add_signaled_index nCount ppIPalObjs ppISyncWaitCtrlrs fWAll iSignaledObjIndex dwRet.

(** *** The body *)

(** Lines 182-273: the pre-check and its three outcomes (fast path,
    immediate timeout, registration). *)
Definition precheck_onwards (nCount : DWORD) (ppIPalObjs ppISyncWaitCtrlrs : WorkArray)
    (dwMilliseconds : DWORD) (bAlertable bPrioritize : BOOL)
    (fWAll : bool) (wtWaitType : WaitType) (dwRet : DWORD) : M S DWORD :=
  pc <- precheck_loop (iterations 0 (to_int nCount)) 0 (slots ppISyncWaitCtrlrs)
                      fWAll 0 (-1) false ;;
  let iSignaledObjCount := pc_iSignaledObjCount pc in
  let iSignaledObjIndex := pc_iSignaledObjIndex pc in
  let fAbandoned := pc_fAbandoned pc in
  if negb (pc_palErr pc =? NO_ERROR) then
    WFMOExIntReleaseControllers nCount ppIPalObjs ppISyncWaitCtrlrs dwMilliseconds
      bAlertable fWAll (pc_palErr pc) false iSignaledObjIndex dwRet
  else
    let fNeedToBlock :=
      (iSignaledObjCount =? 0) || (fWAll && (iSignaledObjCount <? to_int nCount)) in
    if negb fNeedToBlock then
      let iStartIdx := if fWAll then 0 else iSignaledObjIndex in
      let iEndIdx := if fWAll then to_int nCount else iStartIdx + 1 in
      if iStartIdx <? 0 then
        SetLastError ERROR_INTERNAL_ERROR ;;
        WFMOExIntCleanup nCount ppIPalObjs ppISyncWaitCtrlrs WAIT_FAILED
      else
        palErr <- unsignal_loop (iterations iStartIdx iEndIdx) iStartIdx
                                (slots ppISyncWaitCtrlrs) ;;
        if negb (palErr =? NO_ERROR) then
          WFMOExIntReleaseControllers nCount ppIPalObjs ppISyncWaitCtrlrs dwMilliseconds
            bAlertable fWAll palErr fNeedToBlock iSignaledObjIndex dwRet
        else
          WFMOExIntReleaseControllers nCount ppIPalObjs ppISyncWaitCtrlrs dwMilliseconds
            bAlertable fWAll palErr fNeedToBlock iSignaledObjIndex
            (if fAbandoned then WAIT_ABANDONED_0 else WAIT_OBJECT_0)
    else if 0 =? dwMilliseconds then
      WFMOExIntReleaseControllers nCount ppIPalObjs ppISyncWaitCtrlrs dwMilliseconds
        bAlertable fWAll NO_ERROR false iSignaledObjIndex WAIT_TIMEOUT
    else
      palErr <- register_loop (iterations 0 (to_int nCount)) 0 (slots ppISyncWaitCtrlrs)
                              wtWaitType bAlertable bPrioritize ;;
      WFMOExIntReleaseControllers nCount ppIPalObjs ppISyncWaitCtrlrs dwMilliseconds
        bAlertable fWAll palErr fNeedToBlock iSignaledObjIndex dwRet.

(** Lines 122-180: resolve the handles, refuse more than one object, check
    a wait-all for duplicates, obtain the controllers, refuse an alertable
    wait. *)
Definition resolve_onwards (nCount : DWORD) (lpHandles : list HANDLE)
    (ppIPalObjs ppISyncWaitCtrlrs : WorkArray)
    (dwMilliseconds : DWORD) (bAlertable bPrioritize : BOOL)
    (fWAll : bool) (wtWaitType : WaitType) (dwRet : DWORD) : M S DWORD :=
  '(palErr, objs) <- do_ReferenceMultipleObjectsByHandleArray lpHandles nCount ;;
  let ppIPalObjs := filled ppIPalObjs objs in
  if negb (palErr =? NO_ERROR) then
    (if palErr =? ERROR_INVALID_HANDLE
     then SetLastError ERROR_INVALID_HANDLE
     else SetLastError ERROR_INTERNAL_ERROR) ;;
    WFMOExIntExit nCount ppIPalObjs ppISyncWaitCtrlrs dwRet
  else if nCount >? 1 then
    SetLastError ERROR_NOT_SUPPORTED ;;
    WFMOExIntCleanup nCount ppIPalObjs ppISyncWaitCtrlrs dwRet
  else if fWAll && has_duplicate nCount (slots ppIPalObjs) then
    SetLastError ERROR_INVALID_PARAMETER ;;
    WFMOExIntCleanup nCount ppIPalObjs ppISyncWaitCtrlrs dwRet
  else
    '(palErr, ctrls) <- do_GetSynchWaitControllersForObjects (slots ppIPalObjs) nCount ;;
    let ppISyncWaitCtrlrs := filled ppISyncWaitCtrlrs ctrls in
    if negb (palErr =? NO_ERROR) then
      SetLastError ERROR_INTERNAL_ERROR ;;
      WFMOExIntCleanup nCount ppIPalObjs ppISyncWaitCtrlrs dwRet
    else if BOOL_to_bool bAlertable then
      SetLastError ERROR_INTERNAL_ERROR ;;
      WFMOExIntCleanup nCount ppIPalObjs ppISyncWaitCtrlrs WAIT_FAILED
    else
      precheck_onwards nCount ppIPalObjs ppISyncWaitCtrlrs dwMilliseconds
                       bAlertable bPrioritize fWAll wtWaitType dwRet.

(** [CorUnix::InternalWaitForMultipleObjectsEx] (lines 71-360). *)
Definition InternalWaitForMultipleObjectsEx (nCount : DWORD) (lpHandles : list HANDLE)
    (bWaitAll : BOOL) (dwMilliseconds : DWORD) (bAlertable bPrioritize : BOOL)
    : M S DWORD :=
  let dwRet := WAIT_FAILED in
  let fWAll := BOOL_to_bool bWaitAll in
  if (nCount =? 0) || (nCount >? MAXIMUM_WAIT_OBJECTS) then
    SetLastError ERROR_INVALID_PARAMETER ;;
    WFMOExIntExit nCount null_array null_array dwRet
  else if nCount =? 1 then
    resolve_onwards nCount lpHandles stack_array stack_array dwMilliseconds
                    bAlertable bPrioritize false SingleObject dwRet
  else
    let wtWaitType := if fWAll then MultipleObjectsWaitAll else MultipleObjectsWaitOne in
    if nCount >? MAXIMUM_STACK_WAITOBJ_ARRAY_SIZE then
      pObjs <- do_InternalNewArray nCount ;;
      pCtrls <- do_InternalNewArray nCount ;;
      if is_null pObjs || is_null pCtrls then
        SetLastError ERROR_NOT_ENOUGH_MEMORY ;;
        WFMOExIntExit nCount (new_array pObjs) (new_array pCtrls) dwRet
      else
        resolve_onwards nCount lpHandles (new_array pObjs) (new_array pCtrls)
                        dwMilliseconds bAlertable bPrioritize fWAll wtWaitType dwRet
    else
      resolve_onwards nCount lpHandles stack_array stack_array dwMilliseconds
                      bAlertable bPrioritize fWAll wtWaitType dwRet.

(** One call, from the collaborators' state [s] and the thread's last error
    [le], with an empty log. *)
Definition wait_call (nCount : DWORD) (lpHandles : list HANDLE)
    (bWaitAll : BOOL) (dwMilliseconds : DWORD) (bAlertable bPrioritize : BOOL)
    (s : S) (le : DWORD) : DWORD * World S :=
  InternalWaitForMultipleObjectsEx nCount lpHandles bWaitAll dwMilliseconds
    bAlertable bPrioritize (mkWorld s le []).

End Wait.

Section SingleWait.

Context {S : Type}.
Context {codes : PalErrorCodes}.
Context {objmgr : IPalObjectManager S} {palobj : IPalObject S}.
Context {synchmgr : IPalSynchronizationManager S} {waitctrl : ISynchWaitController S}.
Context {malloc : PalMalloc S}.

(** [WaitForSingleObject] (lines 50-69).  The call passes six arguments to
    [InternalWaitForMultipleObjectsEx]; the seventh, [bPrioritize], takes
    the default of its declaration, in a header that is not among the
    sources: it is the parameter [bPrioritizeDefault]. *)
Definition WaitForSingleObject (bPrioritizeDefault : BOOL)
    (hHandle : HANDLE) (dwMilliseconds : DWORD) : M S DWORD :=
  InternalWaitForMultipleObjectsEx 1 [hHandle] FALSE dwMilliseconds FALSE
    bPrioritizeDefault.

End SingleWait.

(** ** Inline functions and macros of [pal.h] *)

(** *** [_rotl] and [_rotr] *)

Definition CHAR_BIT : Z := 8.

(** [value << n] and [value >> n] on an [unsigned int], which has 32 bits.
    The left shift drops the bits that leave the word.  C gives no meaning
    to a shift whose count is negative or not less than the width of the
    word: such a shift has no result. *)
Definition shl32 (value n : Z) : option Z :=
  if (0 <=? n) && (n <? 32) then Some (Z.shiftl value n mod 2 ^ 32) else None.

Definition shr32 (value n : Z) : option Z :=
  if (0 <=? n) && (n <? 32) then Some (Z.shiftr value n) else None.

(** [_rotl]: [shift &= 0x1f], then
    [(value << shift) | (value >> (sizeof(int) * CHAR_BIT - shift))], with
    [sizeof(int)] equal to 4. *)
Definition _rotl (value shift : Z) : option Z :=
  let shift := Z.land shift 0x1f in
  match shl32 value shift, shr32 value (4 * CHAR_BIT - shift) with
  | Some l, Some r => Some (Z.lor l r)
  | _, _ => None
  end.

(** [_rotr]: [shift &= 0x1f], then
    [(value >> shift) | (value << (sizeof(int) * CHAR_BIT - shift))]. *)
Definition _rotr (value shift : Z) : option Z :=
  let shift := Z.land shift 0x1f in
  match shr32 value shift, shl32 value (4 * CHAR_BIT - shift) with
  | Some l, Some r => Some (Z.lor l r)
  | _, _ => None
  end.

(** *** Status codes *)

(** An [HRESULT] is a 32-bit signed integer: [(HRESULT)(x)] is [to_int x],
    and [(ULONG)(x)] is [to_DWORD x].  On a signed operand [&] is [Z.land]
    and [>>] is the arithmetic shift [Z.shiftr]. *)
Definition HRESULT := Z.

Definition FACILITY_WIN32 : Z := 7.
Definition SEVERITY_SUCCESS : Z := 0.
Definition SEVERITY_ERROR : Z := 1.

Definition SUCCEEDED (Status : Z) : bool := to_int Status >=? 0.

Definition FAILED (Status : Z) : bool := to_int Status <? 0.

Definition IS_ERROR (Status : Z) : bool :=
  Z.shiftr (to_DWORD Status) 31 =? SEVERITY_ERROR.

Definition HRESULT_CODE (hr : HRESULT) : Z := Z.land hr 0xFFFF.

Definition HRESULT_FACILITY (hr : HRESULT) : Z := Z.land (Z.shiftr hr 16) 0x1fff.

Definition HRESULT_SEVERITY (hr : HRESULT) : Z := Z.land (Z.shiftr hr 31) 0x1.

Definition MAKE_HRESULT (sev fac code : Z) : HRESULT :=
  to_int (Z.lor (Z.lor (to_DWORD (Z.shiftl (to_DWORD sev) 31))
                       (to_DWORD (Z.shiftl (to_DWORD fac) 16)))
                (to_DWORD code)).

Definition HRESULT_FROM_WIN32 (x : Z) : HRESULT :=
  if to_int x <=? 0 then to_int x
  else to_int (Z.lor (Z.lor (Z.land x 0x0000FFFF) (Z.shiftl FACILITY_WIN32 16))
                     0x80000000).

(** *** [BitScanReverse] and [BitScanReverse64] *)

Section BitScan.

(** The compiler intrinsics are not code of the repository: they are
    parameters.  [BitScanReverse] passes its 32-bit mask to
    [__builtin_clzl], whose argument is an [unsigned long]; the conversion
    keeps the value of the mask. *)
Variables __builtin_clzl __builtin_clzll : Z -> Z.

(** The value stored through [Index], and the value returned. *)
Definition BitScanReverse (qwMask : Z) : DWORD * Z :=
  let lzcount := __builtin_clzl qwMask in
  (to_DWORD (31 - lzcount), if negb (qwMask =? 0) then 1 else 0).

Definition BitScanReverse64 (qwMask : Z) : DWORD * Z :=
  let lzcount := __builtin_clzll qwMask in
  (to_DWORD (63 - lzcount), if negb (qwMask =? 0) then 1 else 0).

End BitScan.

(** Modelled from the spec: the comment of [pal.h] on the intrinsics says
    they return "the number of leading 0-bits in x starting at the most
    significant bit position (the result is undefined when x = 0)".  For a
    word of [bits] bits and a non-zero [x] that number is [clz bits x];
    it is used to run the two functions on concrete masks. *)
Definition clz (bits x : Z) : Z := bits - 1 - Z.log2 x.

(** ** A test double for the collaborators *)

(** Modelled from the spec: the object registry, the synchronization manager
    and the wait controllers are external collaborators whose code is not
    among the sources.  This module is a small double of them, after the
    interfaces of the spec ([resolve], [release], [getControllers],
    [checkWithoutBlocking], [consumeWithoutBlocking], [registerWaiter],
    [releaseController], [block]): objects have a kind, a signaled flag, an
    abandoned flag, a reference count, a flag telling whether a controller
    on them is held, and a count of registered waiters.  It is used to run
    the wait function on concrete requests. *)
Module Fake.

Record Obj := mkObj {
  o_handle : HANDLE;
  o_ptr : IPalObjectPtr;
  o_kind : PalObjectTypeId;
  o_signaled : bool;
  o_abandoned : bool;
  o_refs : Z;
  o_controller_held : bool;
  o_waiters : Z
}.

Record State := mkState {
  objects : list Obj;
  (* what the next allocation answers *)
  next_alloc : option Z;
  (* what the blocking primitive answers: error, reason, and the index it
     stores, if it stores one *)
  wake : PAL_ERROR * ThreadWakeupReason * option DWORD
}.

(** The Win32 values of the error codes. *)
#[export] Instance codes : PalErrorCodes := {
  ERROR_INVALID_PARAMETER := 87;
  ERROR_NOT_ENOUGH_MEMORY := 8;
  ERROR_INVALID_HANDLE := 6;
  ERROR_INTERNAL_ERROR := 1359;
  ERROR_NOT_SUPPORTED := 50
}.

Definition kind_eqb (a b : PalObjectTypeId) : bool :=
  match a, b with
  | otiMutex, otiMutex | otiEvent, otiEvent
  | otiProcess, otiProcess | otiThread, otiThread => true
  | _, _ => false
  end.

(** The controller on the object at [p] lives at [p + 0x1000]. *)
Definition controller_of (p : IPalObjectPtr) : ISynchWaitControllerPtr := p + 0x1000.

Definition update (f : Obj -> Obj) (p : IPalObjectPtr) (st : State) : State :=
  mkState (map (fun o => if o_ptr o =? p then f o else o) (objects st))
          (next_alloc st) (wake st).

Definition find_ptr (p : IPalObjectPtr) (st : State) : option Obj :=
  find (fun o => o_ptr o =? p) (objects st).

Definition find_handle (allowed : list PalObjectTypeId) (h : HANDLE) (st : State)
    : option Obj :=
  find (fun o => (o_handle o =? h) && existsb (kind_eqb (o_kind o)) allowed) (objects st).

Definition add_ref (d : Z) (o : Obj) : Obj :=
  mkObj (o_handle o) (o_ptr o) (o_kind o) (o_signaled o) (o_abandoned o)
        (o_refs o + d) (o_controller_held o) (o_waiters o).

Definition set_held (b : bool) (o : Obj) : Obj :=
  mkObj (o_handle o) (o_ptr o) (o_kind o) (o_signaled o) (o_abandoned o)
        (o_refs o) b (o_waiters o).

Definition consume (o : Obj) : Obj :=
  mkObj (o_handle o) (o_ptr o) (o_kind o) false false
        (o_refs o) (o_controller_held o) (o_waiters o).

Definition add_waiter (o : Obj) : Obj :=
  mkObj (o_handle o) (o_ptr o) (o_kind o) (o_signaled o) (o_abandoned o)
        (o_refs o) (o_controller_held o) (o_waiters o + 1).

(** Resolve the handles one by one; [None] as soon as one does not name an
    object of an allowed kind. *)
Fixpoint resolve_all (allowed : list PalObjectTypeId) (hs : list HANDLE) (st : State)
    : option (list IPalObjectPtr) :=
  match hs with
  | [] => Some []
  | h :: hs' =>
      match find_handle allowed h st, resolve_all allowed hs' st with
      | Some o, Some ps => Some (o_ptr o :: ps)
      | _, _ => None
      end
  end.

#[export] Instance objmgr : IPalObjectManager State := {
  ReferenceMultipleObjectsByHandleArray hs n allowed st :=
    match resolve_all allowed (firstn (Z.to_nat n) hs) st with
    | Some ps => ((NO_ERROR, ps), fold_left (fun s p => update (add_ref 1) p s) ps st)
    | None => ((ERROR_INVALID_HANDLE, []), st)
    end
}.

#[export] Instance palobj : IPalObject State := {
  ReleaseReference p st := update (add_ref (-1)) p st
}.

#[export] Instance synchmgr : IPalSynchronizationManager State := {
  GetSynchWaitControllersForObjects ps n st :=
    let ps := firstn (Z.to_nat n) ps in
    ((NO_ERROR, map controller_of ps),
     fold_left (fun s p => update (set_held true) p s) ps st);
  BlockThread ms fAlertable fIsSleep idx st :=
    let '(err, reason, stored) := wake st in
    ((err, reason, match stored with Some i => i | None => idx end), st)
}.

#[export] Instance waitctrl : ISynchWaitController State := {
  CanThreadWaitWithoutBlocking c st :=
    match find_ptr (c - 0x1000) st with
    | Some o => ((NO_ERROR, o_signaled o, o_abandoned o), st)
    | None => ((ERROR_INTERNAL_ERROR, false, false), st)
    end;
  ReleaseWaitingThreadWithoutBlocking c st :=
    match find_ptr (c - 0x1000) st with
    | Some o => (NO_ERROR, update consume (c - 0x1000) st)
    | None => (ERROR_INTERNAL_ERROR, st)
    end;
  RegisterWaitingThread c wt idx fAlertable fPrioritize st :=
    match find_ptr (c - 0x1000) st with
    | Some o => (NO_ERROR, update add_waiter (c - 0x1000) st)
    | None => (ERROR_INTERNAL_ERROR, st)
    end;
  ReleaseController c st := update (set_held false) (c - 0x1000) st
}.

#[export] Instance malloc : PalMalloc State := {
  InternalNewArray n st := (next_alloc st, st);
  InternalDeleteArray a st := st
}.

(** A process object behind handle [h], at address [0x100 * h], referenced
    once (by its handle). *)
Definition process (h : HANDLE) (signaled abandoned : bool) : Obj :=
  mkObj h (0x100 * h) otiProcess signaled abandoned 1 false 0.

Definition state (objs : list Obj) (w : PAL_ERROR * ThreadWakeupReason * option DWORD)
    : State :=
  mkState objs (Some 0x8000) w.

Definition no_wake : PAL_ERROR * ThreadWakeupReason * option DWORD :=
  (NO_ERROR, WaitTimeout, None).

(** One process behind the handle 7; two signaled processes behind the
    handles 7 and 8. *)
Definition one_process (signaled abandoned : bool)
    (w : PAL_ERROR * ThreadWakeupReason * option DWORD) : State :=
  state [process 7 signaled abandoned] w.

Definition two_signaled_processes : State :=
  state [process 7 true false; process 8 true false] no_wake.

End Fake.

(** ** A scripted double for the failures of the collaborators *)

(** Modelled from the spec: a second double of the same interfaces, which
    answers every call from a script and keeps no object.  The first double
    never fails to hand out a controller, to pre-check, to consume or to
    register on an object it resolved; this one answers what the script
    says, so that the wait function can be run on those failures.  The
    allocator answers the entries of [alloc_answers] one after the other,
    and null when they are used up. *)
Module Stub.

Record Answers := mkAnswers {
  resolve_answer : PAL_ERROR * list IPalObjectPtr;
  controllers_answer : PAL_ERROR * list ISynchWaitControllerPtr;
  precheck_answer : PAL_ERROR * bool * bool;
  consume_answer : PAL_ERROR;
  register_answer : PAL_ERROR;
  block_answer : PAL_ERROR * ThreadWakeupReason * DWORD;
  alloc_answers : list (option Z)
}.

#[export] Instance objmgr : IPalObjectManager Answers := {
  ReferenceMultipleObjectsByHandleArray hs n allowed st := (resolve_answer st, st)
}.

#[export] Instance palobj : IPalObject Answers := {
  ReleaseReference p st := st
}.

#[export] Instance synchmgr : IPalSynchronizationManager Answers := {
  GetSynchWaitControllersForObjects ps n st := (controllers_answer st, st);
  BlockThread ms fAlertable fIsSleep idx st := (block_answer st, st)
}.

#[export] Instance waitctrl : ISynchWaitController Answers := {
  CanThreadWaitWithoutBlocking c st := (precheck_answer st, st);
  ReleaseWaitingThreadWithoutBlocking c st := (consume_answer st, st);
  RegisterWaitingThread c wt idx fAlertable fPrioritize st := (register_answer st, st);
  ReleaseController c st := st
}.

#[export] Instance malloc : PalMalloc Answers := {
  InternalNewArray n st :=
    match alloc_answers st with
    | [] => (None, st)
    | r :: rs =>
        (r, mkAnswers (resolve_answer st) (controllers_answer st) (precheck_answer st)
              (consume_answer st) (register_answer st) (block_answer st) rs)
    end;
  InternalDeleteArray a st := st
}.

(** One object at [0x700] with its controller at [0x1700]; the pre-check
    answers [precheck], the consumption [consume], the registration
    [register], and the blocking primitive times out. *)
Definition one_object (precheck : PAL_ERROR * bool * bool)
    (consume register : PAL_ERROR) : Answers :=
  mkAnswers (NO_ERROR, [0x700]) (NO_ERROR, [0x1700]) precheck consume register
            (NO_ERROR, WaitTimeout, 0) [].

(** The object resolves and the synchronization manager answers [e]. *)
Definition no_controller (e : PAL_ERROR) : Answers :=
  mkAnswers (NO_ERROR, [0x700]) (e, []) (NO_ERROR, false, false) NO_ERROR NO_ERROR
            (NO_ERROR, WaitTimeout, 0) [].

(** The allocator answers [allocs]; the handles do not resolve. *)
Definition allocating (allocs : list (option Z)) : Answers :=
  mkAnswers (@ERROR_INVALID_HANDLE Fake.codes, []) (NO_ERROR, []) (NO_ERROR, false, false)
            NO_ERROR NO_ERROR (NO_ERROR, WaitTimeout, 0) allocs.

End Stub.

(** ** Reading a trace *)

Definition is_resolve (e : Event) : bool :=
  match e with EvReferenceMultipleObjectsByHandleArray _ _ _ _ => true | _ => false end.

Definition is_get_controllers (e : Event) : bool :=
  match e with EvGetSynchWaitControllersForObjects _ _ _ _ => true | _ => false end.

Definition is_new_array (e : Event) : bool :=
  match e with EvInternalNewArray _ _ => true | _ => false end.

Definition is_precheck (e : Event) : bool :=
  match e with EvCanThreadWaitWithoutBlocking _ _ _ _ _ => true | _ => false end.

Definition is_consume (e : Event) : bool :=
  match e with EvReleaseWaitingThreadWithoutBlocking _ _ _ => true | _ => false end.

Definition is_register (e : Event) : bool :=
  match e with EvRegisterWaitingThread _ _ _ _ _ _ => true | _ => false end.

Definition is_block (e : Event) : bool :=
  match e with EvBlockThread _ _ _ _ _ => true | _ => false end.

(** The calls that acquire something: an allocation, the resolution of the
    handles, the acquisition of the controllers. *)
Definition acquires (e : Event) : bool :=
  is_new_array e || is_resolve e || is_get_controllers e.

(** The calls of the wait proper: pre-check, consumption, registration,
    blocking. *)
Definition waits (e : Event) : bool :=
  is_precheck e || is_consume e || is_register e || is_block e.

(** A handle resolution that succeeded. *)
Definition is_resolved (e : Event) : bool :=
  match e with
  | EvReferenceMultipleObjectsByHandleArray _ _ err _ => err =? NO_ERROR
  | _ => false
  end.

(** A pre-check that failed, and one that found its object satisfied. *)
Definition is_failed_precheck (e : Event) : bool :=
  match e with
  | EvCanThreadWaitWithoutBlocking _ _ err _ _ => negb (err =? NO_ERROR)
  | _ => false
  end.

Definition is_satisfied_precheck (e : Event) : bool :=
  match e with
  | EvCanThreadWaitWithoutBlocking _ _ err fValue _ => (err =? NO_ERROR) && fValue
  | _ => false
  end.

(** A pre-check that reported abandonment. *)
Definition is_abandoned_precheck (e : Event) : bool :=
  match e with
  | EvCanThreadWaitWithoutBlocking _ _ err _ fAb => (err =? NO_ERROR) && fAb
  | _ => false
  end.

(** A consumption that failed. *)
Definition is_failed_consume (e : Event) : bool :=
  match e with
  | EvReleaseWaitingThreadWithoutBlocking _ _ err => negb (err =? NO_ERROR)
  | _ => false
  end.

(** The indices the pre-check visited and the answers it got, in order. *)
Fixpoint precheck_indices (t : list Event) : list Z :=
  match t with
  | [] => []
  | EvCanThreadWaitWithoutBlocking i _ _ _ _ :: t' => i :: precheck_indices t'
  | _ :: t' => precheck_indices t'
  end.

Fixpoint precheck_answers (t : list Event) : list bool :=
  match t with
  | [] => []
  | e :: t' =>
      if is_precheck e then is_satisfied_precheck e :: precheck_answers t'
      else precheck_answers t'
  end.

(** The consumptions asked for: index and controller, in order. *)
Fixpoint consume_calls (t : list Event) : list (Z * ISynchWaitControllerPtr) :=
  match t with
  | [] => []
  | EvReleaseWaitingThreadWithoutBlocking i c _ :: t' => (i, c) :: consume_calls t'
  | _ :: t' => consume_calls t'
  end.

(** The pre-check ran to its end without a failing controller. *)
Definition precheck_done (t : list Event) : bool :=
  existsb is_precheck t && negb (existsb is_failed_precheck t).

(** Line 208 on the logged answers: blocking is needed when no object is
    satisfied, or when a wait-all has fewer satisfied objects than
    objects. *)
Definition blocking_needed (fWAll : bool) (nCount : DWORD) (t : list Event) : bool :=
  let iSignaledObjCount := Z.of_nat (length (filter is_satisfied_precheck t)) in
  (iSignaledObjCount =? 0) || (fWAll && (iSignaledObjCount <? to_int nCount)).

(** Object [i] was consumed (its controller answered [NO_ERROR]) and its
    pre-check had reported abandonment. *)
Definition reported_abandoned (t : list Event) (i : Z) : bool :=
  existsb (fun e => match e with
                    | EvCanThreadWaitWithoutBlocking j _ err _ fAb =>
                        (j =? i) && (err =? NO_ERROR) && fAb
                    | _ => false
                    end) t.

Definition consumed_abandoned (t : list Event) : bool :=
  existsb (fun e => match e with
                    | EvReleaseWaitingThreadWithoutBlocking i _ err =>
                        (err =? NO_ERROR) && reported_abandoned t i
                    | _ => false
                    end) t.

(** The registrations asked for: index and answer, in order. *)
Fixpoint register_calls (t : list Event) : list (Z * PAL_ERROR) :=
  match t with
  | [] => []
  | EvRegisterWaitingThread i _ _ _ _ err :: t' => (i, err) :: register_calls t'
  | _ :: t' => register_calls t'
  end.

Definition is_release_reference (e : Event) : bool :=
  match e with EvReleaseReference _ _ => true | _ => false end.

Definition is_release_controller (e : Event) : bool :=
  match e with EvReleaseController _ _ => true | _ => false end.

Definition is_delete_array (e : Event) : bool :=
  match e with EvInternalDeleteArray _ => true | _ => false end.

(** The blocks the allocator handed out, and the blocks given back to it
    (deleting the null pointer gives nothing back), in order. *)
Definition allocated (t : list Event) : list Z :=
  flat_map (fun e => match e with
                     | EvInternalNewArray _ (Some a) => [a]
                     | _ => []
                     end) t.

Definition deleted (t : list Event) : list Z :=
  flat_map (fun e => match e with
                     | EvInternalDeleteArray (HeapArray a) => [a]
                     | _ => []
                     end) t.

(** The first [n] slots of a working array. *)
Fixpoint slots_from (n : nat) (i : Z) (arr : list Z) : list Z :=
  match n with
  | O => []
  | Datatypes.S n' => nth (Z.to_nat i) arr NULL :: slots_from n' (i + 1) arr
  end.

Definition first_slots (n : DWORD) (arr : list Z) : list Z :=
  slots_from (Z.to_nat (to_int n)) 0 arr.

Fixpoint remove_one (x : Z) (l : list Z) : option (list Z) :=
  match l with
  | [] => None
  | y :: l' =>
      if y =? x then Some l'
      else match remove_one x l' with
           | Some r => Some (y :: r)
           | None => None
           end
  end.

(** The object references outstanding after a trace that starts with the
    references [pinned] outstanding: a successful resolution pins the
    objects it stored, a release unpins one.  [None] when a reference is
    released that was not pinned. *)
Fixpoint pinned_after (t : list Event) (pinned : list IPalObjectPtr)
    : option (list IPalObjectPtr) :=
  match t with
  | [] => Some pinned
  | EvReferenceMultipleObjectsByHandleArray _ n err objs :: t' =>
      if err =? NO_ERROR then pinned_after t' (pinned ++ first_slots n objs)
      else pinned_after t' pinned
  | EvReleaseReference _ o :: t' =>
      match remove_one o pinned with
      | Some p => pinned_after t' p
      | None => None
      end
  | _ :: t' => pinned_after t' pinned
  end.

(** The controllers held after a trace that starts with [held] held.
    [None] when a controller is released that was not held, or when the
    thread blocks while it holds one. *)
Fixpoint held_after (t : list Event) (held : list ISynchWaitControllerPtr)
    : option (list ISynchWaitControllerPtr) :=
  match t with
  | [] => Some held
  | EvGetSynchWaitControllersForObjects _ n err ctrls :: t' =>
      if err =? NO_ERROR then held_after t' (held ++ first_slots n ctrls)
      else held_after t' held
  | EvReleaseController _ c :: t' =>
      match remove_one c held with
      | Some h => held_after t' h
      | None => None
      end
  | EvBlockThread _ _ _ _ _ :: t' =>
      match held with
      | [] => held_after t' []
      | _ :: _ => None
      end
  | _ :: t' => held_after t' held
  end.

(** The four families of result codes for a request of [nCount] objects. *)
Definition is_satisfied_code (nCount r : DWORD) : bool :=
  (WAIT_OBJECT_0 <=? r) && (r <? WAIT_OBJECT_0 + nCount).

Definition is_abandoned_code (nCount r : DWORD) : bool :=
  (WAIT_ABANDONED_0 <=? r) && (r <? WAIT_ABANDONED_0 + nCount).

Definition is_result_code (nCount r : DWORD) : bool :=
  is_satisfied_code nCount r || is_abandoned_code nCount r
  || (r =? WAIT_TIMEOUT) || (r =? WAIT_FAILED).

(** The events the two release loops log. *)
Fixpoint release_reference_events (n : nat) (i : Z) (ppIPalObjs : list IPalObjectPtr)
    : list Event :=
  match n with
  | O => []
  | Datatypes.S n' =>
      EvReleaseReference i (nth (Z.to_nat i) ppIPalObjs NULL)
      :: release_reference_events n' (i + 1) ppIPalObjs
  end.

Fixpoint release_controller_events (n : nat) (i : Z)
    (ppISyncWaitCtrlrs : list ISynchWaitControllerPtr) : list Event :=
  match n with
  | O => []
  | Datatypes.S n' =>
      EvReleaseController i (nth (Z.to_nat i) ppISyncWaitCtrlrs NULL)
      :: release_controller_events n' (i + 1) ppISyncWaitCtrlrs
  end.

(** ** The runs of a request *)

Section Runs.

Context {codes : PalErrorCodes}.

Variables (lpHandles : list HANDLE) (dwMilliseconds : DWORD).
Variables (bAlertable bPrioritize : BOOL) (le : DWORD).

(** The runs of a request for one object: the result, the last error the
    thread is left with ([le] being the one it came with) and the trace.
    [single_object_run] below shows that every call with [nCount = 1] is
    one of them. *)
Inductive SingleObjectRun : DWORD -> DWORD -> list Event -> Prop :=
| run_unresolved e1 objs :
    e1 <> NO_ERROR ->
    let code := if e1 =? ERROR_INVALID_HANDLE
                then ERROR_INVALID_HANDLE else ERROR_INTERNAL_ERROR in
    SingleObjectRun WAIT_FAILED code
      [EvReferenceMultipleObjectsByHandleArray lpHandles 1 e1 objs;
       EvSetLastError code]
| run_no_controller objs e2 ctrls :
    e2 <> NO_ERROR ->
    SingleObjectRun WAIT_FAILED ERROR_INTERNAL_ERROR
      [EvReferenceMultipleObjectsByHandleArray lpHandles 1 NO_ERROR objs;
       EvGetSynchWaitControllersForObjects objs 1 e2 ctrls;
       EvSetLastError ERROR_INTERNAL_ERROR;
       EvReleaseReference 0 (nth 0 objs NULL)]
| run_alertable objs ctrls :
    BOOL_to_bool bAlertable = true ->
    SingleObjectRun WAIT_FAILED ERROR_INTERNAL_ERROR
      [EvReferenceMultipleObjectsByHandleArray lpHandles 1 NO_ERROR objs;
       EvGetSynchWaitControllersForObjects objs 1 NO_ERROR ctrls;
       EvSetLastError ERROR_INTERNAL_ERROR;
       EvReleaseReference 0 (nth 0 objs NULL)]
| run_precheck_failed objs ctrls e3 fValue fAb :
    BOOL_to_bool bAlertable = false ->
    e3 <> NO_ERROR ->
    SingleObjectRun WAIT_FAILED ERROR_INTERNAL_ERROR
      [EvReferenceMultipleObjectsByHandleArray lpHandles 1 NO_ERROR objs;
       EvGetSynchWaitControllersForObjects objs 1 NO_ERROR ctrls;
       EvCanThreadWaitWithoutBlocking 0 (nth 0 ctrls NULL) e3 fValue fAb;
       EvSetLastError ERROR_INTERNAL_ERROR;
       EvReleaseController 0 (nth 0 ctrls NULL);
       EvReleaseReference 0 (nth 0 objs NULL)]
| run_consume_failed objs ctrls fAb e4 :
    BOOL_to_bool bAlertable = false ->
    e4 <> NO_ERROR ->
    SingleObjectRun WAIT_FAILED e4
      [EvReferenceMultipleObjectsByHandleArray lpHandles 1 NO_ERROR objs;
       EvGetSynchWaitControllersForObjects objs 1 NO_ERROR ctrls;
       EvCanThreadWaitWithoutBlocking 0 (nth 0 ctrls NULL) NO_ERROR true fAb;
       EvReleaseWaitingThreadWithoutBlocking 0 (nth 0 ctrls NULL) e4;
       EvSetLastError e4;
       EvReleaseController 0 (nth 0 ctrls NULL);
       EvReleaseReference 0 (nth 0 objs NULL)]
| run_fast objs ctrls (fAb : bool) :
    BOOL_to_bool bAlertable = false ->
    SingleObjectRun (if fAb then WAIT_ABANDONED_0 else WAIT_OBJECT_0) le
      [EvReferenceMultipleObjectsByHandleArray lpHandles 1 NO_ERROR objs;
       EvGetSynchWaitControllersForObjects objs 1 NO_ERROR ctrls;
       EvCanThreadWaitWithoutBlocking 0 (nth 0 ctrls NULL) NO_ERROR true fAb;
       EvReleaseWaitingThreadWithoutBlocking 0 (nth 0 ctrls NULL) NO_ERROR;
       EvReleaseController 0 (nth 0 ctrls NULL);
       EvReleaseReference 0 (nth 0 objs NULL)]
| run_poll objs ctrls fAb :
    BOOL_to_bool bAlertable = false ->
    dwMilliseconds = 0 ->
    SingleObjectRun WAIT_TIMEOUT le
      [EvReferenceMultipleObjectsByHandleArray lpHandles 1 NO_ERROR objs;
       EvGetSynchWaitControllersForObjects objs 1 NO_ERROR ctrls;
       EvCanThreadWaitWithoutBlocking 0 (nth 0 ctrls NULL) NO_ERROR false fAb;
       EvReleaseController 0 (nth 0 ctrls NULL);
       EvReleaseReference 0 (nth 0 objs NULL)]
| run_register_failed objs ctrls fAb e5 :
    BOOL_to_bool bAlertable = false ->
    dwMilliseconds <> 0 ->
    e5 <> NO_ERROR ->
    SingleObjectRun WAIT_FAILED e5
      [EvReferenceMultipleObjectsByHandleArray lpHandles 1 NO_ERROR objs;
       EvGetSynchWaitControllersForObjects objs 1 NO_ERROR ctrls;
       EvCanThreadWaitWithoutBlocking 0 (nth 0 ctrls NULL) NO_ERROR false fAb;
       EvRegisterWaitingThread 0 (nth 0 ctrls NULL) SingleObject
         false (negb (bPrioritize =? FALSE)) e5;
       EvSetLastError e5;
       EvReleaseController 0 (nth 0 ctrls NULL);
       EvReleaseReference 0 (nth 0 objs NULL)]
| run_block_failed objs ctrls fAb e6 reason idx :
    BOOL_to_bool bAlertable = false ->
    dwMilliseconds <> 0 ->
    e6 <> NO_ERROR ->
    SingleObjectRun WAIT_FAILED e6
      [EvReferenceMultipleObjectsByHandleArray lpHandles 1 NO_ERROR objs;
       EvGetSynchWaitControllersForObjects objs 1 NO_ERROR ctrls;
       EvCanThreadWaitWithoutBlocking 0 (nth 0 ctrls NULL) NO_ERROR false fAb;
       EvRegisterWaitingThread 0 (nth 0 ctrls NULL) SingleObject
         false (negb (bPrioritize =? FALSE)) NO_ERROR;
       EvReleaseController 0 (nth 0 ctrls NULL);
       EvBlockThread dwMilliseconds false e6 reason idx;
       EvSetLastError e6;
       EvReleaseReference 0 (nth 0 objs NULL)]
| run_woken_bad_index objs ctrls fAb reason idx :
    BOOL_to_bool bAlertable = false ->
    dwMilliseconds <> 0 ->
    reason = WaitSucceeded \/ reason = MutexAbondoned ->
    to_int idx < 0 ->
    SingleObjectRun WAIT_FAILED ERROR_INTERNAL_ERROR
      [EvReferenceMultipleObjectsByHandleArray lpHandles 1 NO_ERROR objs;
       EvGetSynchWaitControllersForObjects objs 1 NO_ERROR ctrls;
       EvCanThreadWaitWithoutBlocking 0 (nth 0 ctrls NULL) NO_ERROR false fAb;
       EvRegisterWaitingThread 0 (nth 0 ctrls NULL) SingleObject
         false (negb (bPrioritize =? FALSE)) NO_ERROR;
       EvReleaseController 0 (nth 0 ctrls NULL);
       EvBlockThread dwMilliseconds false NO_ERROR reason idx;
       EvSetLastError ERROR_INTERNAL_ERROR;
       EvReleaseReference 0 (nth 0 objs NULL)]
| run_woken_satisfied objs ctrls fAb reason idx :
    BOOL_to_bool bAlertable = false ->
    dwMilliseconds <> 0 ->
    reason = WaitSucceeded \/ reason = MutexAbondoned ->
    0 <= to_int idx ->
    SingleObjectRun (to_DWORD (wakeup_result reason + to_int idx)) le
      [EvReferenceMultipleObjectsByHandleArray lpHandles 1 NO_ERROR objs;
       EvGetSynchWaitControllersForObjects objs 1 NO_ERROR ctrls;
       EvCanThreadWaitWithoutBlocking 0 (nth 0 ctrls NULL) NO_ERROR false fAb;
       EvRegisterWaitingThread 0 (nth 0 ctrls NULL) SingleObject
         false (negb (bPrioritize =? FALSE)) NO_ERROR;
       EvReleaseController 0 (nth 0 ctrls NULL);
       EvBlockThread dwMilliseconds false NO_ERROR reason idx;
       EvReleaseReference 0 (nth 0 objs NULL)]
| run_woken_other objs ctrls fAb reason idx :
    BOOL_to_bool bAlertable = false ->
    dwMilliseconds <> 0 ->
    reason <> WaitSucceeded -> reason <> MutexAbondoned ->
    SingleObjectRun (wakeup_result reason) le
      [EvReferenceMultipleObjectsByHandleArray lpHandles 1 NO_ERROR objs;
       EvGetSynchWaitControllersForObjects objs 1 NO_ERROR ctrls;
       EvCanThreadWaitWithoutBlocking 0 (nth 0 ctrls NULL) NO_ERROR false fAb;
       EvRegisterWaitingThread 0 (nth 0 ctrls NULL) SingleObject
         false (negb (bPrioritize =? FALSE)) NO_ERROR;
       EvReleaseController 0 (nth 0 ctrls NULL);
       EvBlockThread dwMilliseconds false NO_ERROR reason idx;
       EvReleaseReference 0 (nth 0 objs NULL)].

(** The runs of a request whose count is not one: the count is refused, an
    allocation fails, the handles do not resolve, or the request is refused
    as a wait on several objects.  Requests of more than
    [MAXIMUM_STACK_WAITOBJ_ARRAY_SIZE] objects allocate their working
    arrays and delete them on exit. *)
Definition allocations (nCount : DWORD) (r1 r2 : option Z) : list Event :=
  if nCount >? MAXIMUM_STACK_WAITOBJ_ARRAY_SIZE
  then [EvInternalNewArray nCount r1; EvInternalNewArray nCount r2] else [].

Definition deletions (nCount : DWORD) (a1 a2 : ArrayRef) : list Event :=
  if nCount >? MAXIMUM_STACK_WAITOBJ_ARRAY_SIZE
  then [EvInternalDeleteArray a1; EvInternalDeleteArray a2] else [].

Definition storage_of (nCount : DWORD) (r : option Z) : ArrayRef :=
  if nCount >? MAXIMUM_STACK_WAITOBJ_ARRAY_SIZE then of_alloc r else StackArray.

Inductive RefusedRun (nCount : DWORD) : DWORD -> DWORD -> list Event -> Prop :=
| run_bad_count :
    nCount = 0 \/ nCount > MAXIMUM_WAIT_OBJECTS ->
    RefusedRun nCount WAIT_FAILED ERROR_INVALID_PARAMETER
      (EvSetLastError ERROR_INVALID_PARAMETER :: deletions nCount NullArray NullArray)
| run_out_of_memory r1 r2 :
    MAXIMUM_STACK_WAITOBJ_ARRAY_SIZE < nCount <= MAXIMUM_WAIT_OBJECTS ->
    r1 = None \/ r2 = None ->
    RefusedRun nCount WAIT_FAILED ERROR_NOT_ENOUGH_MEMORY
      [EvInternalNewArray nCount r1; EvInternalNewArray nCount r2;
       EvSetLastError ERROR_NOT_ENOUGH_MEMORY;
       EvInternalDeleteArray (of_alloc r1); EvInternalDeleteArray (of_alloc r2)]
| run_many_unresolved r1 r2 e1 objs :
    1 < nCount <= MAXIMUM_WAIT_OBJECTS ->
    e1 <> NO_ERROR ->
    let code := if e1 =? ERROR_INVALID_HANDLE
                then ERROR_INVALID_HANDLE else ERROR_INTERNAL_ERROR in
    RefusedRun nCount WAIT_FAILED code
      (allocations nCount r1 r2
       ++ [EvReferenceMultipleObjectsByHandleArray lpHandles nCount e1 objs;
           EvSetLastError code]
       ++ deletions nCount (storage_of nCount r1) (storage_of nCount r2))
| run_not_supported r1 r2 objs :
    1 < nCount <= MAXIMUM_WAIT_OBJECTS ->
    RefusedRun nCount WAIT_FAILED ERROR_NOT_SUPPORTED
      (allocations nCount r1 r2
       ++ [EvReferenceMultipleObjectsByHandleArray lpHandles nCount NO_ERROR objs;
           EvSetLastError ERROR_NOT_SUPPORTED]
       ++ release_reference_events (Z.to_nat nCount) 0 objs
       ++ deletions nCount (storage_of nCount r1) (storage_of nCount r2)).

End Runs.

(** ** The pre-check on any number of objects *)

(** The pre-checks asked for: index and controller, in order. *)
Definition precheck_calls (t : list Event) : list (Z * ISynchWaitControllerPtr) :=
  flat_map (fun e => match e with
                     | EvCanThreadWaitWithoutBlocking i c _ _ _ => [(i, c)]
                     | _ => []
                     end) t.

(** What each pre-check answered, in order: [None] for a failure, otherwise
    whether the object is satisfied. *)
Definition precheck_verdicts (t : list Event) : list (option bool) :=
  flat_map (fun e => match e with
                     | EvCanThreadWaitWithoutBlocking _ _ err fValue _ =>
                         [if err =? NO_ERROR then Some fValue else None]
                     | _ => []
                     end) t.

(** The registrations asked for, in order: index, controller, wait type and
    the two flags. *)
Definition registrations (t : list Event)
    : list (Z * ISynchWaitControllerPtr * WaitType * bool * bool) :=
  flat_map (fun e => match e with
                     | EvRegisterWaitingThread i c wt fAlertable fPrioritize _ =>
                         [(i, c, wt, fAlertable, fPrioritize)]
                     | _ => []
                     end) t.

(** The events that ask nothing of a controller about an object: setting
    the last error, releasing a controller or a reference, deleting an
    array. *)
Definition is_housekeeping (e : Event) : bool :=
  match e with
  | EvSetLastError _ | EvReleaseController _ _ | EvReleaseReference _ _
  | EvInternalDeleteArray _ => true
  | _ => false
  end.

(** Events that are housekeeping, that are neither a pre-check nor a
    consumption, and that are no pre-check. *)
Definition housekeeping (e : Event) : Prop := is_housekeeping e = true.

Definition not_asking (e : Event) : Prop :=
  is_precheck e = false /\ is_consume e = false.

Definition not_prechecking (e : Event) : Prop := is_precheck e = false.

(** A computation that only adds events satisfying [P] to the log. *)
Definition appends {S A} (P : Event -> Prop) (m : M S A) : Prop :=
  forall w, exists evs, log (snd (m w)) = rev evs ++ log w /\ Forall P evs.

Section PrecheckRuns.

Context {codes : PalErrorCodes}.

Variable ctrls : list ISynchWaitControllerPtr.
Variable fWAll : bool.

(** The runs of the pre-check loop (lines 184-206) over [n] objects from
    index [i], with the locals [iSignaledObjCount], [iSignaledObjIndex] and
    [fAbandoned] on entry: the events, and the locals on exit. *)
Inductive PrecheckRun : nat -> Z -> Z -> Z -> bool -> list Event -> PreCheck -> Prop :=
| pr_end i cnt idx fAb :
    PrecheckRun 0 i cnt idx fAb [] (mkPreCheck NO_ERROR cnt idx fAb)
| pr_failed n i cnt idx fAb e fValue fWaitObjectAbandoned :
    e <> NO_ERROR ->
    PrecheckRun (Datatypes.S n) i cnt idx fAb
      [EvCanThreadWaitWithoutBlocking i (nth (Z.to_nat i) ctrls NULL) e fValue
         fWaitObjectAbandoned;
       EvSetLastError ERROR_INTERNAL_ERROR]
      (mkPreCheck e cnt idx fAb)
| pr_break n i cnt idx fAb fWaitObjectAbandoned :
    fWAll = false ->
    PrecheckRun (Datatypes.S n) i cnt idx fAb
      [EvCanThreadWaitWithoutBlocking i (nth (Z.to_nat i) ctrls NULL) NO_ERROR true
         fWaitObjectAbandoned]
      (mkPreCheck NO_ERROR (cnt + 1) i (fWaitObjectAbandoned || fAb))
| pr_satisfied n i cnt idx fAb fWaitObjectAbandoned evs pc :
    fWAll = true ->
    PrecheckRun n (i + 1) (cnt + 1) i (fWaitObjectAbandoned || fAb) evs pc ->
    PrecheckRun (Datatypes.S n) i cnt idx fAb
      (EvCanThreadWaitWithoutBlocking i (nth (Z.to_nat i) ctrls NULL) NO_ERROR true
         fWaitObjectAbandoned :: evs)
      pc
| pr_unsatisfied n i cnt idx fAb fWaitObjectAbandoned evs pc :
    PrecheckRun n (i + 1) cnt idx (fWaitObjectAbandoned || fAb) evs pc ->
    PrecheckRun (Datatypes.S n) i cnt idx fAb
      (EvCanThreadWaitWithoutBlocking i (nth (Z.to_nat i) ctrls NULL) NO_ERROR false
         fWaitObjectAbandoned :: evs)
      pc.

End PrecheckRuns.

(** * Verification *)

Section Proofs.

Context {S : Type}.
Context {codes : PalErrorCodes}.
Context {objmgr : IPalObjectManager S} {palobj : IPalObject S}.
Context {synchmgr : IPalSynchronizationManager S} {waitctrl : ISynchWaitController S}.
Context {malloc : PalMalloc S}.

Lemma not_alertable (b : BOOL) : BOOL_to_bool b = false -> b = 0.
Proof.
  unfold BOOL_to_bool. intros H. now apply negb_false_iff, Z.eqb_eq in H.
Qed.

Ltac run_call :=
  match goal with
  | |- context [ReferenceMultipleObjectsByHandleArray ?x1 ?x2 ?x3 ?x4] =>
      destruct (ReferenceMultipleObjectsByHandleArray x1 x2 x3 x4)
        as [[?e ?objs] ?s] eqn:?
  | |- context [GetSynchWaitControllersForObjects ?x1 ?x2 ?x3] =>
      destruct (GetSynchWaitControllersForObjects x1 x2 x3)
        as [[?e ?ctrls] ?s] eqn:?
  | |- context [CanThreadWaitWithoutBlocking ?x1 ?x2] =>
      destruct (CanThreadWaitWithoutBlocking x1 x2)
        as [[[?e ?fValue] ?fAb] ?s] eqn:?
  | |- context [ReleaseWaitingThreadWithoutBlocking ?x1 ?x2] =>
      destruct (ReleaseWaitingThreadWithoutBlocking x1 x2) as [?e ?s] eqn:?
  | |- context [RegisterWaitingThread ?x1 ?x2 ?x3 ?x4 ?x5 ?x6] =>
      destruct (RegisterWaitingThread x1 x2 x3 x4 x5 x6) as [?e ?s] eqn:?
  | |- context [BlockThread ?x1 ?x2 ?x3 ?x4 ?x5] =>
      destruct (BlockThread x1 x2 x3 x4 x5) as [[[?e ?reason] ?idx] ?s] eqn:?
  | |- context [InternalNewArray ?x1 ?x2] =>
      destruct (InternalNewArray x1 x2) as [?r ?s] eqn:?
  end.

Ltac run_test :=
  match goal with
  | |- context [negb (?e =? NO_ERROR)] =>
      let H := fresh "E" in
      destruct (e =? NO_ERROR) eqn:H;
      [apply Z.eqb_eq in H; subst e |]
  end.

Ltac unfold_wait :=
  unfold wait_call, InternalWaitForMultipleObjectsEx, resolve_onwards,
    precheck_onwards, WFMOExIntReleaseControllers, add_signaled_index,
    WFMOExIntCleanup, WFMOExIntExit,
    do_ReferenceMultipleObjectsByHandleArray, do_GetSynchWaitControllersForObjects,
    do_CanThreadWaitWithoutBlocking, do_ReleaseWaitingThreadWithoutBlocking,
    do_RegisterWaitingThread, do_ReleaseController, do_BlockThread,
    do_ReleaseReference, do_InternalNewArray, do_InternalDeleteArray,
    SetLastError, call_, call, bind, ret, trace.

Ltac wsimpl :=
  repeat (progress (unfold_wait; cbn;
                    change (Pos.to_nat 1) with 1%nat;
                    repeat match goal with
                           | H : (_ =? NO_ERROR) = false |- _ => rewrite !H
                           end)).

Ltac failed := try (apply Z.eqb_neq; assumption); auto.

(** *** The release loops *)

Lemma release_references_loop_spec n i ppIPalObjs (w : World S) :
  let w' := snd (release_references_loop n i ppIPalObjs w) in
  lastError w' = lastError w /\
  log w' = rev (release_reference_events n i ppIPalObjs) ++ log w.
Proof.
  revert i w. induction n as [| n IH]; intros i w; cbn.
  - split; reflexivity.
  - unfold bind, do_ReleaseReference, call_, call. cbn.
    destruct (IH (i + 1)
                 {| ext := ReleaseReference (at_index ppIPalObjs i) (ext w);
                    lastError := lastError w;
                    log := EvReleaseReference i (at_index ppIPalObjs i) :: log w |})
      as [IHe IHl].
    cbn in IHe, IHl.
    destruct (release_references_loop n (i + 1) ppIPalObjs _) as [u w1].
    cbn in *. split; [assumption |].
    rewrite IHl, <- app_assoc. reflexivity.
Qed.

Lemma release_controllers_loop_spec n i ppISyncWaitCtrlrs (w : World S) :
  let w' := snd (release_controllers_loop n i ppISyncWaitCtrlrs w) in
  lastError w' = lastError w /\
  log w' = rev (release_controller_events n i ppISyncWaitCtrlrs) ++ log w.
Proof.
  revert i w. induction n as [| n IH]; intros i w; cbn.
  - split; reflexivity.
  - unfold bind, do_ReleaseController, call_, call. cbn.
    destruct (IH (i + 1)
                 {| ext := ReleaseController (at_index ppISyncWaitCtrlrs i) (ext w);
                    lastError := lastError w;
                    log := EvReleaseController i (at_index ppISyncWaitCtrlrs i) :: log w |})
      as [IHe IHl].
    cbn in IHe, IHl.
    destruct (release_controllers_loop n (i + 1) ppISyncWaitCtrlrs _) as [u w1].
    cbn in *. split; [assumption |].
    rewrite IHl, <- app_assoc. reflexivity.
Qed.

Lemma to_int_small n : 0 <= n < 2 ^ 31 -> to_int n = n.
Proof.
  intros H. unfold to_int.
  rewrite Z.mod_small by lia.
  destruct (Z.ltb_spec n (2 ^ 31)); lia.
Qed.

(** *** The pre-check loop of a wait-any, for any number of objects *)

(** The loop asks the controllers at [i], [i + 1], ... in that order and
    stops at the first one that fails or is satisfied.  When none fails,
    either no object is satisfied and all [n] were asked, or the last one
    asked, at [i + k], is the first satisfied one and becomes
    [iSignaledObjIndex].  [fAbandoned] collects the abandonment reported by
    every object the loop asked. *)
Lemma precheck_loop_wait_any n :
  forall i ctrls cnt idx fAb (w : World S),
    let pc := fst (precheck_loop n i ctrls false cnt idx fAb w) in
    let w' := snd (precheck_loop n i ctrls false cnt idx fAb w) in
    exists evs (m : nat),
      log w' = rev evs ++ log w /\
      (m <= n)%nat /\
      precheck_indices evs = map (fun j => i + Z.of_nat j) (seq 0 m) /\
      (pc_palErr pc = NO_ERROR ->
       pc_fAbandoned pc = fAb || existsb is_abandoned_precheck evs /\
       existsb is_failed_precheck evs = false /\
       ((m = n /\ precheck_answers evs = repeat false n /\
         pc_iSignaledObjCount pc = cnt /\ pc_iSignaledObjIndex pc = idx) \/
        (exists k, m = Datatypes.S k /\
                   precheck_answers evs = repeat false k ++ [true] /\
                   pc_iSignaledObjCount pc = cnt + 1 /\
                   pc_iSignaledObjIndex pc = i + Z.of_nat k))).
Proof.
  induction n as [| n IH]; intros i ctrls cnt idx fAb w.
  - exists [], 0%nat. cbn. repeat split; auto.
    now rewrite orb_false_r.
  - cbv zeta. cbn [precheck_loop].
    unfold bind, do_CanThreadWaitWithoutBlocking, call, SetLastError, ret.
    destruct (CanThreadWaitWithoutBlocking (at_index ctrls i) (ext w))
      as [[[e fValue] fWaitObjectAbandoned] s1] eqn:Hcall.
    cbn [fst snd].
    destruct (e =? NO_ERROR) eqn:He; cbn [negb fst snd].
    + apply Z.eqb_eq in He. subst e.
      destruct fValue.
      * exists [EvCanThreadWaitWithoutBlocking i (at_index ctrls i) NO_ERROR true
                  fWaitObjectAbandoned], 1%nat.
        cbn. rewrite Z.add_0_r. repeat split; auto; try lia.
        -- destruct fWaitObjectAbandoned, fAb; reflexivity.
        -- right. exists 0%nat. cbn. rewrite Z.add_0_r. auto.
      * match goal with
        | |- context [precheck_loop n (i + 1) ctrls false cnt idx ?fAb' ?w1] =>
            destruct (IH (i + 1) ctrls cnt idx fAb' w1)
              as (evs & m & Hlog & Hm & Hidx & Hok)
        end.
        exists (EvCanThreadWaitWithoutBlocking i (at_index ctrls i) NO_ERROR false
                  fWaitObjectAbandoned :: evs), (Datatypes.S m).
        split.
        { rewrite Hlog. cbn. now rewrite <- app_assoc. }
        split; [lia |].
        split.
        { cbn. rewrite Z.add_0_r, Hidx, <- seq_shift, map_map.
          f_equal. apply map_ext. intros j. lia. }
        intros Herr. destruct (Hok Herr) as (Hab & Hfail & Hcases).
        split.
        { rewrite Hab. cbn. destruct fWaitObjectAbandoned, fAb; reflexivity. }
        split; [exact Hfail |].
        destruct Hcases as [(Hmn & Hans & Hcnt & Hind) | (k & Hmk & Hans & Hcnt & Hind)].
        -- left. cbn. rewrite Hans. repeat split; auto.
        -- right. exists (Datatypes.S k). cbn. rewrite Hans.
           repeat split; auto; lia.
    + exists [EvCanThreadWaitWithoutBlocking i (at_index ctrls i) e fValue
                fWaitObjectAbandoned;
              EvSetLastError ERROR_INTERNAL_ERROR], 1%nat.
      cbn. rewrite Z.add_0_r. repeat split; auto; try lia;
        apply Z.eqb_neq in He; contradiction.
Qed.

(** The fast path of a wait-any consumes through one controller, that of
    [iSignaledObjIndex]. *)
Lemma unsignal_loop_wait_any i ctrls (w : World S) :
  exists e,
    log (snd (unsignal_loop (iterations i (i + 1)) i ctrls w)) =
    (if e =? NO_ERROR then [] else [EvSetLastError e])
    ++ EvReleaseWaitingThreadWithoutBlocking i (at_index ctrls i) e :: log w /\
    fst (unsignal_loop (iterations i (i + 1)) i ctrls w) = e.
Proof.
  assert (Hone : iterations i (i + 1) = 1%nat).
  { unfold iterations. replace (i + 1 - i) with 1 by lia. reflexivity. }
  rewrite Hone. cbn [unsignal_loop].
  unfold bind, do_ReleaseWaitingThreadWithoutBlocking, call, SetLastError, ret.
  destruct (ReleaseWaitingThreadWithoutBlocking (at_index ctrls i) (ext w))
    as [e s1] eqn:Hcall.
  exists e. destruct (e =? NO_ERROR) eqn:He; cbn.
  - apply Z.eqb_eq in He. auto.
  - auto.
Qed.

Lemma iterations_one : iterations 0 (to_int 1) = 1%nat.
Proof. reflexivity. Qed.

(** Every call for one object is one of the runs of [SingleObjectRun]. *)
Lemma single_object_run lpHandles bWaitAll dwMilliseconds bAlertable bPrioritize s le :
  let r := wait_call 1 lpHandles bWaitAll dwMilliseconds bAlertable bPrioritize s le in
  SingleObjectRun lpHandles dwMilliseconds bAlertable bPrioritize le
    (fst r) (lastError (snd r)) (trace (snd r)).
Proof.
  unfold_wait. rewrite !iterations_one.
  destruct (BOOL_to_bool bAlertable) eqn:Hal; wsimpl.
  - run_call. wsimpl. run_test; wsimpl.
    2:{ pose proof (@run_unresolved _ lpHandles dwMilliseconds bAlertable bPrioritize
                      le e objs) as R.
        specialize (R ltac:(failed)).
        cbv zeta in R. destruct (e =? ERROR_INVALID_HANDLE); exact R. }
    run_call. wsimpl. run_test; wsimpl.
    + apply run_alertable; assumption.
    + apply run_no_controller; failed.
  - assert (Hms : dwMilliseconds = 0 \/
                  (dwMilliseconds <> 0 /\
                   match dwMilliseconds with 0 => true | _ => false end = false)).
    { destruct dwMilliseconds; [left | right | right]; easy. }
    run_call. wsimpl. run_test; wsimpl.
    2:{ pose proof (@run_unresolved _ lpHandles dwMilliseconds bAlertable bPrioritize
                      le e objs) as R.
        specialize (R ltac:(failed)).
        cbv zeta in R. destruct (e =? ERROR_INVALID_HANDLE); exact R. }
    run_call. wsimpl. run_test; wsimpl.
    2:{ apply run_no_controller; failed. }
    run_call. wsimpl. run_test; wsimpl.
    2:{ apply run_precheck_failed; failed. }
    destruct fValue; wsimpl.
    + run_call. wsimpl. run_test; wsimpl.
      2:{ apply run_consume_failed; failed. }
      destruct fAb; wsimpl;
        [exact (@run_fast _ lpHandles dwMilliseconds bAlertable bPrioritize le
                  objs ctrls true Hal)
        |exact (@run_fast _ lpHandles dwMilliseconds bAlertable bPrioritize le
                  objs ctrls false Hal)].
    + pose proof (not_alertable _ Hal) as Hz. subst bAlertable.
      destruct Hms as [Hms | [Hms Hms']].
      { subst dwMilliseconds. wsimpl. apply run_poll; failed. }
      rewrite Hms'. wsimpl.
      run_call. wsimpl. run_test; wsimpl.
      2:{ apply run_register_failed; failed. }
      run_call. wsimpl. run_test; wsimpl.
      2:{ apply run_block_failed; failed. }
      destruct reason; wsimpl;
        try match goal with
            | |- context [EvBlockThread _ _ _ ?reason _] =>
                apply (@run_woken_other _ lpHandles dwMilliseconds 0 bPrioritize
                         le objs ctrls fAb reason idx); auto; discriminate
            end.
      * destruct (Z.ltb_spec (to_int idx) 0); wsimpl.
        -- apply run_woken_bad_index; auto.
        -- apply (@run_woken_satisfied _ lpHandles dwMilliseconds 0
                    bPrioritize le objs ctrls fAb WaitSucceeded idx); auto.
      * destruct (Z.ltb_spec (to_int idx) 0); wsimpl.
        -- apply run_woken_bad_index; auto.
        -- apply (@run_woken_satisfied _ lpHandles dwMilliseconds 0
                    bPrioritize le objs ctrls fAb MutexAbondoned idx); auto.
Qed.

Lemma iterations_from_zero n : 0 <= n < 2 ^ 31 -> iterations 0 (to_int n) = Z.to_nat n.
Proof.
  intros H. unfold iterations. rewrite to_int_small by assumption.
  now rewrite Z.sub_0_r.
Qed.

Ltac unfold_refused :=
  unfold resolve_onwards, WFMOExIntCleanup, WFMOExIntExit,
    do_ReferenceMultipleObjectsByHandleArray, do_InternalNewArray,
    do_InternalDeleteArray, SetLastError, call_, call, bind, ret, trace,
    allocations, deletions, storage_of, new_array, filled.

(** The release of the references at [WFMOExIntCleanup], from a world [w]. *)
Ltac run_release n objs w :=
  let Hle := fresh "Hle" in
  let Hlog := fresh "Hlog" in
  destruct (release_references_loop_spec n 0 objs w) as [Hle Hlog];
  destruct (release_references_loop n 0 objs w) as [? ?];
  cbn in Hle, Hlog |- *.

(** Every call whose count is not one is one of the runs of [RefusedRun]. *)
Lemma refused_run nCount lpHandles bWaitAll dwMilliseconds bAlertable bPrioritize s le :
  0 <= nCount -> nCount <> 1 ->
  let r := wait_call nCount lpHandles bWaitAll dwMilliseconds bAlertable bPrioritize s le in
  RefusedRun lpHandles nCount (fst r) (lastError (snd r)) (trace (snd r)).
Proof.
  intros H0 H1.
  unfold wait_call, InternalWaitForMultipleObjectsEx.
  destruct ((nCount =? 0) || (nCount >? MAXIMUM_WAIT_OBJECTS)) eqn:Hc.
  - assert (Hbad : nCount = 0 \/ nCount > MAXIMUM_WAIT_OBJECTS).
    { apply orb_true_iff in Hc. destruct Hc as [Hc | Hc].
      - left. now apply Z.eqb_eq.
      - right. apply Z.gtb_lt in Hc. lia. }
    pose proof (run_bad_count lpHandles Hbad) as R.
    unfold_refused. unfold deletions in R.
    destruct (nCount >? MAXIMUM_STACK_WAITOBJ_ARRAY_SIZE); cbn; exact R.
  - apply orb_false_iff in Hc. destruct Hc as [Hz Hm].
    apply Z.eqb_neq in Hz.
    assert (Hmax : nCount <= MAXIMUM_WAIT_OBJECTS).
    { destruct (Z.gtb_spec nCount MAXIMUM_WAIT_OBJECTS); [discriminate | lia]. }
    assert (Hrange : 1 < nCount <= MAXIMUM_WAIT_OBJECTS) by lia.
    assert (Hint : 0 <= nCount < 2 ^ 31) by (unfold MAXIMUM_WAIT_OBJECTS in *; lia).
    replace (nCount =? 1) with false by (symmetry; apply Z.eqb_neq; assumption).
    pose proof (@run_many_unresolved _ lpHandles nCount) as Runres.
    pose proof (@run_not_supported _ lpHandles nCount) as Rgate.
    pose proof (@run_out_of_memory _ lpHandles nCount) as Rmem.
    unfold_refused. unfold_refused.
    unfold allocations, deletions, storage_of in Runres, Rgate.
    rewrite (iterations_from_zero Hint).
    replace (nCount >? 1) with true by (symmetry; apply Z.gtb_lt; lia).
    remember (Z.to_nat nCount) as n eqn:Hn.
    destruct (nCount >? MAXIMUM_STACK_WAITOBJ_ARRAY_SIZE) eqn:Hbig; cbn.
    + run_call. cbn. run_call. cbn.
      destruct (is_null (of_alloc r) || is_null (of_alloc r0)) eqn:Hnull; cbn.
      * apply Rmem.
        -- apply Z.gtb_lt in Hbig. lia.
        -- apply orb_true_iff in Hnull.
           destruct Hnull as [Hnull | Hnull]; [left | right];
             [destruct r | destruct r0]; easy.
      * run_call. cbn. destruct (e =? NO_ERROR) eqn:He; cbn.
        -- apply Z.eqb_eq in He. subst e.
           match goal with
           | |- context [release_references_loop n 0 objs ?w] => run_release n objs w
           end.
           rewrite Hle, Hlog. cbn.
           rewrite rev_app_distr, rev_involutive. cbn.
           specialize (Rgate r r0 objs Hrange). cbn in Rgate.
           rewrite <- !app_assoc. cbn. exact Rgate.
        -- apply Z.eqb_neq in He.
           specialize (Runres r r0 e objs Hrange He). cbn in Runres.
           destruct (e =? ERROR_INVALID_HANDLE); cbn; exact Runres.
    + run_call. cbn. destruct (e =? NO_ERROR) eqn:He; cbn.
      * apply Z.eqb_eq in He. subst e.
        match goal with
        | |- context [release_references_loop n 0 objs ?w] => run_release n objs w
        end.
        rewrite Hle, Hlog. cbn.
        rewrite rev_app_distr, rev_involutive. cbn.
        specialize (Rgate None None objs Hrange). cbn in Rgate.
        rewrite app_nil_r in Rgate. exact Rgate.
      * apply Z.eqb_neq in He.
        specialize (Runres None None e objs Hrange He). cbn in Runres.
        destruct (e =? ERROR_INVALID_HANDLE); cbn; exact Runres.
Qed.

(** A call whose count is not one and one of whose allocations answered
    null: both allocations were asked for, the out-of-memory error is set,
    and both pointers are passed to the deallocator. *)
Lemma failed_allocation_run nCount lpHandles bWaitAll dwMilliseconds bAlertable
    bPrioritize s le n :
  0 <= nCount -> nCount <> 1 ->
  let r := wait_call nCount lpHandles bWaitAll dwMilliseconds bAlertable bPrioritize s le in
  In (EvInternalNewArray n None) (trace (snd r)) ->
  exists r1 r2,
    (r1 = None \/ r2 = None) /\
    MAXIMUM_STACK_WAITOBJ_ARRAY_SIZE < nCount <= MAXIMUM_WAIT_OBJECTS /\
    fst r = WAIT_FAILED /\
    lastError (snd r) = ERROR_NOT_ENOUGH_MEMORY /\
    trace (snd r) =
      [EvInternalNewArray nCount r1; EvInternalNewArray nCount r2;
       EvSetLastError ERROR_NOT_ENOUGH_MEMORY;
       EvInternalDeleteArray (of_alloc r1); EvInternalDeleteArray (of_alloc r2)].
Proof.
  intros H0 H1.
  assert (Q : forall k i objs,
             ~ In (EvInternalNewArray n None) (release_reference_events k i objs)).
  { induction k as [| k IH]; intros i objs; cbn; [tauto |].
    intros [HIn | HIn]; [discriminate | exact (IH _ _ HIn)]. }
  unfold wait_call, InternalWaitForMultipleObjectsEx.
  destruct ((nCount =? 0) || (nCount >? MAXIMUM_WAIT_OBJECTS)) eqn:Hc.
  - unfold_refused.
    destruct (nCount >? MAXIMUM_STACK_WAITOBJ_ARRAY_SIZE); cbn;
      intros HIn; repeat (destruct HIn as [HIn | HIn]; try discriminate HIn);
      contradiction.
  - apply orb_false_iff in Hc. destruct Hc as [Hz Hm].
    apply Z.eqb_neq in Hz.
    assert (Hmax : nCount <= MAXIMUM_WAIT_OBJECTS).
    { destruct (Z.gtb_spec nCount MAXIMUM_WAIT_OBJECTS); [discriminate | lia]. }
    assert (Hint : 0 <= nCount < 2 ^ 31) by (unfold MAXIMUM_WAIT_OBJECTS in *; lia).
    replace (nCount =? 1) with false by (symmetry; apply Z.eqb_neq; assumption).
    unfold_refused. unfold_refused.
    rewrite (iterations_from_zero Hint).
    replace (nCount >? 1) with true by (symmetry; apply Z.gtb_lt; lia).
    remember (Z.to_nat nCount) as k eqn:Hk.
    destruct (nCount >? MAXIMUM_STACK_WAITOBJ_ARRAY_SIZE) eqn:Hbig; cbn.
    + run_call. cbn. run_call. cbn.
      destruct (is_null (of_alloc r) || is_null (of_alloc r0)) eqn:Hnull; cbn.
      * intros _. exists r, r0.
        split.
        { apply orb_true_iff in Hnull.
          destruct Hnull as [Hnull | Hnull]; [left | right];
            [destruct r | destruct r0]; easy. }
        split; [split; [apply Z.gtb_lt; exact Hbig | exact Hmax] |].
        repeat split.
      * apply orb_false_iff in Hnull. destruct Hnull as [Hn1 Hn2].
        destruct r as [a1 |]; [| discriminate Hn1].
        destruct r0 as [a2 |]; [| discriminate Hn2].
        run_call. cbn. destruct (e =? NO_ERROR) eqn:He; cbn.
        -- match goal with
           | |- context [release_references_loop k 0 objs ?w] => run_release k objs w
           end.
           rewrite Hlog. cbn.
           rewrite rev_app_distr, rev_involutive. cbn.
           intros HIn. exfalso.
           repeat (destruct HIn as [HIn | HIn]; try discriminate HIn).
           rewrite <- !app_assoc in HIn. cbn in HIn.
           apply in_app_or in HIn. destruct HIn as [HIn | HIn];
             [exact (Q _ _ _ HIn) |].
           repeat (destruct HIn as [HIn | HIn]; try discriminate HIn).
           contradiction.
        -- destruct (e =? ERROR_INVALID_HANDLE); cbn; intros HIn; exfalso;
             repeat (destruct HIn as [HIn | HIn]; try discriminate HIn);
             contradiction.
    + run_call. cbn. destruct (e =? NO_ERROR) eqn:He; cbn.
      * match goal with
        | |- context [release_references_loop k 0 objs ?w] => run_release k objs w
        end.
        rewrite Hlog. cbn.
        rewrite rev_app_distr, rev_involutive. cbn.
        intros HIn. exfalso.
        repeat (destruct HIn as [HIn | HIn]; try discriminate HIn).
        rewrite ?app_nil_r in HIn. exact (Q _ _ _ HIn).
      * destruct (e =? ERROR_INVALID_HANDLE); cbn; intros HIn; exfalso;
          repeat (destruct HIn as [HIn | HIn]; try discriminate HIn);
          contradiction.
Qed.

(** *** Facts on traces *)

Lemma release_reference_events_quiet n i objs :
  existsb waits (release_reference_events n i objs) = false /\
  existsb acquires (release_reference_events n i objs) = false.
Proof.
  revert i. induction n as [| n IH]; intros i; cbn; [easy |].
  destruct (IH (i + 1)) as [IH1 IH2]. now rewrite IH1, IH2.
Qed.

Lemma allocations_quiet nCount r1 r2 :
  existsb waits (allocations nCount r1 r2) = false /\
  existsb is_resolved (allocations nCount r1 r2) = false.
Proof. unfold allocations. destruct (nCount >? _); easy. Qed.

Lemma deletions_quiet nCount a1 a2 :
  existsb waits (deletions nCount a1 a2) = false /\
  existsb acquires (deletions nCount a1 a2) = false /\
  existsb is_resolved (deletions nCount a1 a2) = false.
Proof. unfold deletions. destruct (nCount >? _); easy. Qed.

(** A refused run makes none of the calls of the wait proper. *)
Lemma refused_run_quiet lpHandles nCount r e t :
  RefusedRun lpHandles nCount r e t ->
  r = WAIT_FAILED /\ existsb waits t = false /\ existsb is_get_controllers t = false.
Proof.
  intros R. destruct R; (split; [reflexivity |]).
  - cbn. unfold deletions. destruct (nCount >? _); easy.
  - easy.
  - rewrite !existsb_app. cbn. unfold allocations, deletions.
    destruct (nCount >? _); easy.
  - rewrite !existsb_app. cbn. unfold allocations, deletions.
    destruct (release_reference_events_quiet (Z.to_nat nCount) 0 objs) as [Q1 Q2].
    rewrite Q1.
    assert (Q3 : existsb is_get_controllers
                   (release_reference_events (Z.to_nat nCount) 0 objs) = false).
    { clear. generalize 0. induction (Z.to_nat nCount) as [| n IH]; intros i; cbn; auto. }
    rewrite Q3.
    destruct (nCount >? _); easy.
Qed.

End Proofs.

(** Linear arithmetic on counts, with the two limits unfolded. *)
Ltac count_lia :=
  change MAXIMUM_STACK_WAITOBJ_ARRAY_SIZE with 16 in *;
  change MAXIMUM_WAIT_OBJECTS with 64 in *; lia.

(** *** The discipline of references and controllers on traces *)

Section Discipline.

Context {codes : PalErrorCodes}.

Lemma first_slots_one arr : first_slots 1 arr = [nth 0 arr NULL].
Proof. reflexivity. Qed.

Lemma remove_one_head x l : remove_one x (x :: l) = Some l.
Proof. cbn. now rewrite Z.eqb_refl. Qed.

Lemma pinned_after_app t1 t2 p :
  pinned_after (t1 ++ t2) p =
  match pinned_after t1 p with
  | Some p' => pinned_after t2 p'
  | None => None
  end.
Proof.
  revert p. induction t1 as [| e t1 IH]; intros p; cbn; [reflexivity |].
  destruct e; auto.
  - destruct (err =? NO_ERROR); auto.
  - destruct (remove_one obj p); auto.
Qed.

Lemma held_after_app t1 t2 h :
  held_after (t1 ++ t2) h =
  match held_after t1 h with
  | Some h' => held_after t2 h'
  | None => None
  end.
Proof.
  revert h. induction t1 as [| e t1 IH]; intros h; cbn; [reflexivity |].
  destruct e; auto.
  - destruct (err =? NO_ERROR); auto.
  - destruct (remove_one c h); auto.
  - destruct h; auto.
Qed.

(** The release loop unpins the slots it walks over, one reference each. *)
Lemma pinned_after_releases n i objs rest :
  pinned_after (release_reference_events n i objs) (slots_from n i objs ++ rest) =
  Some rest.
Proof.
  revert i. induction n as [| n IH]; intros i; cbn; [reflexivity |].
  rewrite Z.eqb_refl. apply IH.
Qed.

Lemma held_after_releases n i ctrls rest :
  held_after (release_controller_events n i ctrls) (slots_from n i ctrls ++ rest) =
  Some rest.
Proof.
  revert i. induction n as [| n IH]; intros i; cbn; [reflexivity |].
  rewrite Z.eqb_refl. apply IH.
Qed.

Lemma held_after_reference_releases n i objs h :
  held_after (release_reference_events n i objs) h = Some h.
Proof. revert i. induction n as [| n IH]; intros i; cbn; auto. Qed.

Lemma allocations_neutral nCount r1 r2
    (p : list IPalObjectPtr) (h : list ISynchWaitControllerPtr) :
  pinned_after (allocations nCount r1 r2) p = Some p /\
  held_after (allocations nCount r1 r2) h = Some h.
Proof. unfold allocations. destruct (nCount >? _); easy. Qed.

Lemma deletions_neutral nCount a1 a2
    (p : list IPalObjectPtr) (h : list ISynchWaitControllerPtr) :
  pinned_after (deletions nCount a1 a2) p = Some p /\
  held_after (deletions nCount a1 a2) h = Some h.
Proof. unfold deletions. destruct (nCount >? _); easy. Qed.

(** A refused run releases each reference it took once, and holds no
    controller. *)
Lemma refused_run_balanced lpHandles nCount r e t :
  RefusedRun lpHandles nCount r e t ->
  pinned_after t [] = Some [] /\ held_after t [] = Some [].
Proof.
  intros R. destruct R.
  - cbn. apply deletions_neutral.
  - easy.
  - rewrite !pinned_after_app, !held_after_app.
    destruct (allocations_neutral nCount r1 r2 [] []) as [-> ->]. cbn.
    apply Z.eqb_neq in H0. rewrite H0. apply deletions_neutral.
  - rewrite !pinned_after_app, !held_after_app.
    destruct (allocations_neutral nCount r1 r2 [] []) as [-> ->]. cbn.
    rewrite pinned_after_app, held_after_app.
    unfold first_slots. rewrite to_int_small by count_lia.
    rewrite <- (app_nil_r (slots_from _ _ _)), pinned_after_releases.
    rewrite held_after_reference_releases.
    apply deletions_neutral.
Qed.

(** A run for one object releases the reference it took once; unless the
    request is alertable it also releases the controller it obtained,
    before it blocks. *)
Lemma single_object_run_balanced lpHandles dwMilliseconds bAlertable bPrioritize le r e t :
  SingleObjectRun lpHandles dwMilliseconds bAlertable bPrioritize le r e t ->
  pinned_after t [] = Some [] /\
  (BOOL_to_bool bAlertable = false -> held_after t [] = Some []).
Proof.
  intros R.
  destruct R;
    repeat match goal with
           | H : ?x <> NO_ERROR |- _ => apply Z.eqb_neq in H
           end;
    cbn [pinned_after held_after app]; rewrite ?first_slots_one;
    cbn [pinned_after held_after app];
    repeat match goal with
           | H : (_ =? NO_ERROR) = false |- _ => rewrite !H
           end;
    change (NO_ERROR =? NO_ERROR) with true; cbv iota;
    rewrite ?first_slots_one; cbn [pinned_after held_after app];
    rewrite ?remove_one_head; cbn [pinned_after held_after app];
    rewrite ?remove_one_head; cbn [pinned_after held_after app];
    split; try reflexivity; try congruence; intros _; try reflexivity.
Qed.

End Discipline.

(** X24.  For a count within the limit a result is in at most one of the
    four families of result codes. *)
Lemma result_code_families_disjoint nCount r :
  0 <= nCount <= MAXIMUM_WAIT_OBJECTS ->
  Z.b2z (is_satisfied_code nCount r) + Z.b2z (is_abandoned_code nCount r)
  + Z.b2z (r =? WAIT_TIMEOUT) + Z.b2z (r =? WAIT_FAILED) <= 1.
Proof.
  intros H.
  unfold is_satisfied_code, is_abandoned_code, WAIT_OBJECT_0, WAIT_ABANDONED_0,
    WAIT_TIMEOUT, WAIT_FAILED, MAXIMUM_WAIT_OBJECTS in *.
  destruct (Z.leb_spec 0 r), (Z.ltb_spec r (0 + nCount)),
    (Z.leb_spec 128 r), (Z.ltb_spec r (128 + nCount)),
    (Z.eqb_spec r 258), (Z.eqb_spec r 4294967295); cbn; lia.
Qed.

Lemma no_waits t :
  existsb waits t = false ->
  existsb is_precheck t = false /\ existsb is_consume t = false /\
  existsb is_register t = false /\ existsb is_block t = false /\
  existsb is_satisfied_precheck t = false.
Proof.
  induction t as [| e t IH]; cbn; [easy |].
  intros H. apply orb_false_iff in H. destruct H as [He Ht].
  destruct (IH Ht) as (I1 & I2 & I3 & I4 & I5).
  rewrite I1, I2, I3, I4, I5.
  destruct e; cbn in *; try discriminate; easy.
Qed.

Ltac abstract_run :=
  cbv zeta in *;
  match goal with
  | R : SingleObjectRun _ _ _ _ _ (fst ?c) (lastError (snd ?c)) (trace (snd ?c)) |- _ =>
      revert R; generalize (trace (snd c)), (lastError (snd c)), (fst c); intros ? ? ? R
  | R : RefusedRun _ _ (fst ?c) (lastError (snd ?c)) (trace (snd ?c)) |- _ =>
      revert R; generalize (trace (snd c)), (lastError (snd c)), (fst c); intros ? ? ? R
  end.

(** Rewrite the tests on error codes that the hypotheses decide. *)
Ltac decide_tests :=
  repeat match goal with
         | H : ?e <> NO_ERROR |- _ => apply Z.eqb_neq in H
         end;
  repeat match goal with
         | H : (?e =? NO_ERROR) = false |- _ => rewrite !H
         end.

(** * Properties of the wait function *)

Section Properties.

Context {S : Type}.
Context {codes : PalErrorCodes}.
Context {objmgr : IPalObjectManager S} {palobj : IPalObject S}.
Context {synchmgr : IPalSynchronizationManager S} {waitctrl : ISynchWaitController S}.
Context {malloc : PalMalloc S}.

Variables (nCount : DWORD) (lpHandles : list HANDLE) (bWaitAll : BOOL).
Variables (dwMilliseconds : DWORD) (bAlertable bPrioritize : BOOL).
Variables (s : S) (le : DWORD).

Local Abbreviation the_call :=
  (wait_call nCount lpHandles bWaitAll dwMilliseconds bAlertable bPrioritize s le).
Local Abbreviation dwRet := (fst the_call).
Local Abbreviation last_error := (lastError (snd the_call)).
Local Abbreviation calls := (trace (snd the_call)).

(** C2.  A request whose count is 0 or greater than 64 fails with the
    invalid-parameter error (it returns [WAIT_FAILED] with the last error
    set to [ERROR_INVALID_PARAMETER]) and acquires nothing: its trace has no
    allocation, no handle resolution and no controller acquisition. *)
Theorem invalid_count_rejected :
  nCount = 0 \/ nCount > MAXIMUM_WAIT_OBJECTS ->
  dwRet = WAIT_FAILED /\
  last_error = ERROR_INVALID_PARAMETER /\
  existsb acquires calls = false.
Proof.
  intros Hbad.
  assert (H0 : 0 <= nCount) by (unfold MAXIMUM_WAIT_OBJECTS in Hbad; lia).
  assert (H1 : nCount <> 1) by (unfold MAXIMUM_WAIT_OBJECTS in Hbad; lia).
  pose proof (refused_run lpHandles bWaitAll dwMilliseconds bAlertable bPrioritize
                s le H0 H1) as R.
  abstract_run.
  destruct R as [_ | r1 r2 Hrange | r1 r2 e1 objs Hrange | r1 r2 objs Hrange];
    try count_lia.
  repeat split. cbn.
  destruct (deletions_quiet nCount NullArray NullArray) as (_ & Q & _). exact Q.
Qed.

(** C1.  A request for more than one object returns [WAIT_FAILED] and makes
    no pre-check, no consumption, no registration and no call to the
    blocking primitive, whatever the wait-all flag and whatever the state of
    the objects; once the handles have been resolved, the last error is
    [ERROR_NOT_SUPPORTED]. *)
Theorem multi_object_wait_not_supported :
  nCount > 1 ->
  dwRet = WAIT_FAILED /\
  existsb waits calls = false /\
  (existsb is_resolved calls = true -> last_error = ERROR_NOT_SUPPORTED).
Proof.
  intros Hmany.
  assert (H0 : 0 <= nCount) by lia.
  assert (H1 : nCount <> 1) by lia.
  pose proof (refused_run lpHandles bWaitAll dwMilliseconds bAlertable bPrioritize
                s le H0 H1) as R.
  abstract_run.
  destruct (refused_run_quiet R) as (Hr & Hw & _).
  repeat split; try assumption.
  destruct R as [Hbad | r1 r2 Hrange Hnull | r1 r2 e1 objs Hrange He | r1 r2 objs Hrange];
    intros Hres.
  - cbn in Hres. destruct (deletions_quiet nCount NullArray NullArray) as (_ & _ & Q).
    rewrite Q in Hres. discriminate.
  - discriminate.
  - rewrite !existsb_app in Hres. cbn in Hres.
    destruct (allocations_quiet nCount r1 r2) as [_ Q1].
    destruct (deletions_quiet nCount (storage_of nCount r1) (storage_of nCount r2))
      as (_ & _ & Q2).
    rewrite Q1, Q2 in Hres.
    apply Z.eqb_neq in He. rewrite He in Hres. discriminate.
  - reflexivity.
Qed.

(** C8.  For a request of one object the wait-all flag has no effect: two
    calls that differ only in the flag return the same result and leave
    the same last error, the same trace and the same collaborators. *)
Theorem wait_all_flag_ignored_for_single_object (bWaitAll' : BOOL) :
  nCount = 1 ->
  wait_call nCount lpHandles bWaitAll dwMilliseconds bAlertable bPrioritize s le =
  wait_call nCount lpHandles bWaitAll' dwMilliseconds bAlertable bPrioritize s le.
Proof.
  intros E. rewrite E.
  unfold wait_call, InternalWaitForMultipleObjectsEx.
  (* the count is in range and equal to one: [fWAll] is overwritten with
     [false] and the wait type is [SingleObject] on both sides *)
  change ((1 =? 0) || (1 >? MAXIMUM_WAIT_OBJECTS)) with false.
  change (1 =? 1) with true.
  cbv iota zeta.
  reflexivity.
Qed.

(** X18.  Every call releases each object reference it took exactly once. *)
Lemma references_released_exactly_once :
  0 <= nCount -> pinned_after calls [] = Some [].
Proof.
  intros H0.
  destruct (Z.eq_dec nCount 1) as [E | E].
  - rewrite E.
    pose proof (single_object_run lpHandles bWaitAll dwMilliseconds bAlertable
                  bPrioritize s le) as R.
    abstract_run. apply (single_object_run_balanced R).
  - pose proof (refused_run lpHandles bWaitAll dwMilliseconds bAlertable bPrioritize
                  s le H0 E) as R.
    abstract_run. apply (refused_run_balanced R).
Qed.

(** X19.  A call that is not alertable releases every controller it
    obtained, and does so before it blocks. *)
Lemma controllers_released_before_blocking :
  0 <= nCount -> BOOL_to_bool bAlertable = false -> held_after calls [] = Some [].
Proof.
  intros H0 Hal.
  destruct (Z.eq_dec nCount 1) as [E | E].
  - rewrite E.
    pose proof (single_object_run lpHandles bWaitAll dwMilliseconds bAlertable
                  bPrioritize s le) as R.
    abstract_run. apply (single_object_run_balanced R). exact Hal.
  - pose proof (refused_run lpHandles bWaitAll dwMilliseconds bAlertable bPrioritize
                  s le H0 E) as R.
    abstract_run. apply (refused_run_balanced R).
Qed.

(** X20.  An alertable call that obtained its controller returns without
    releasing it. *)
Lemma alertable_call_keeps_controller objs ctrls :
  nCount = 1 ->
  BOOL_to_bool bAlertable = true ->
  In (EvGetSynchWaitControllersForObjects objs nCount NO_ERROR ctrls) calls ->
  held_after calls [] = Some [nth 0 ctrls NULL].
Proof.
  intros E Hal. rewrite E.
  pose proof (single_object_run lpHandles bWaitAll dwMilliseconds bAlertable
                bPrioritize s le) as R.
  abstract_run.
  destruct R; intros HIn; try congruence; cbn in HIn;
    repeat (destruct HIn as [HIn | HIn]; try discriminate HIn);
    try contradiction; inversion HIn; subst.
  - congruence.
  - reflexivity.
Qed.

(** X21.  A negative index reported by the blocking primitive for a
    satisfied or abandoned wait forces the failed outcome. *)
Lemma negative_index_forces_failure ms fAlertable reason idx :
  0 <= nCount ->
  In (EvBlockThread ms fAlertable NO_ERROR reason idx) calls ->
  reason = WaitSucceeded \/ reason = MutexAbondoned ->
  to_int idx < 0 ->
  dwRet = WAIT_FAILED /\ last_error = ERROR_INTERNAL_ERROR.
Proof.
  intros H0.
  destruct (Z.eq_dec nCount 1) as [E | E].
  - rewrite E.
    pose proof (single_object_run lpHandles bWaitAll dwMilliseconds bAlertable
                  bPrioritize s le) as R.
    abstract_run.
    destruct R; intros HIn Hreason Hneg; cbn in HIn;
      repeat (destruct HIn as [HIn | HIn]; try discriminate HIn);
      try contradiction; inversion HIn; subst;
      try (split; reflexivity); try congruence; try lia.
    destruct Hreason; congruence.
  - pose proof (refused_run lpHandles bWaitAll dwMilliseconds bAlertable bPrioritize
                  s le H0 E) as R.
    abstract_run.
    destruct (refused_run_quiet R) as (_ & Hw & _).
    destruct (no_waits _ Hw) as (_ & _ & _ & Hb & _).
    intros HIn. exfalso.
    assert (Hex : existsb is_block l = true).
    { apply existsb_exists. eexists. split; [exact HIn | reflexivity]. }
    congruence.
Qed.

(** X23.  A non-negative index reported by the blocking primitive for a
    satisfied or abandoned wait is added to the result, whatever the
    count. *)
Lemma reported_index_is_added ms fAlertable reason idx :
  0 <= nCount ->
  In (EvBlockThread ms fAlertable NO_ERROR reason idx) calls ->
  reason = WaitSucceeded \/ reason = MutexAbondoned ->
  0 <= to_int idx ->
  dwRet = to_DWORD (wakeup_result reason + to_int idx).
Proof.
  intros H0.
  destruct (Z.eq_dec nCount 1) as [E | E].
  - rewrite E.
    pose proof (single_object_run lpHandles bWaitAll dwMilliseconds bAlertable
                  bPrioritize s le) as R.
    abstract_run.
    destruct R; intros HIn Hreason Hpos; cbn in HIn;
      repeat (destruct HIn as [HIn | HIn]; try discriminate HIn);
      try contradiction; inversion HIn; subst;
      try reflexivity; try congruence; try lia.
    destruct Hreason; congruence.
  - pose proof (refused_run lpHandles bWaitAll dwMilliseconds bAlertable bPrioritize
                  s le H0 E) as R.
    abstract_run.
    destruct (refused_run_quiet R) as (_ & Hw & _).
    destruct (no_waits _ Hw) as (_ & _ & _ & Hb & _).
    intros HIn. exfalso.
    assert (Hex : existsb is_block l = true).
    { apply existsb_exists. eexists. split; [exact HIn | reflexivity]. }
    congruence.
Qed.

(** X22.  When every index the blocking primitive reports is within the
    count, the result is one of the result codes of the request. *)
Lemma result_is_code_when_index_in_range :
  0 <= nCount ->
  (forall ms fAlertable err reason idx,
      In (EvBlockThread ms fAlertable err reason idx) calls ->
      0 <= to_int idx < nCount) ->
  is_result_code nCount dwRet = true.
Proof.
  intros H0.
  destruct (Z.eq_dec nCount 1) as [E | E].
  - rewrite E.
    pose proof (single_object_run lpHandles bWaitAll dwMilliseconds bAlertable
                  bPrioritize s le) as R.
    abstract_run.
    destruct R; intros Hidx; try reflexivity.
    + destruct fAb; reflexivity.
    + specialize (Hidx dwMilliseconds false NO_ERROR reason idx).
      cbn in Hidx. assert (Hz : to_int idx = 0) by (apply Z.le_antisymm; [| assumption]; intuition lia).
      rewrite Hz. destruct H2; subst reason; reflexivity.
    + destruct reason; try reflexivity; congruence.
  - pose proof (refused_run lpHandles bWaitAll dwMilliseconds bAlertable bPrioritize
                  s le H0 E) as R.
    abstract_run.
    destruct (refused_run_quiet R) as (-> & _).
    intros _. unfold is_result_code. cbn. now rewrite !orb_true_r.
Qed.

(** C4, as amended.  A request with the alertable flag set returns
    [WAIT_FAILED] and makes no pre-check, no consumption, no registration and
    no call to the blocking primitive.  The flag is tested after the
    controllers have been asked for, not before: for one object whose
    handle resolves, the controller acquisition is in the trace and the
    last error is [ERROR_INTERNAL_ERROR]. *)
Theorem alertable_wait_fails :
  0 <= nCount ->
  BOOL_to_bool bAlertable = true ->
  dwRet = WAIT_FAILED /\
  existsb waits calls = false /\
  (nCount = 1 -> existsb is_resolved calls = true ->
   last_error = ERROR_INTERNAL_ERROR /\ existsb is_get_controllers calls = true).
Proof.
  intros H0 Hal.
  destruct (Z.eq_dec nCount 1) as [E | E].
  - rewrite E.
    pose proof (single_object_run lpHandles bWaitAll dwMilliseconds bAlertable
                  bPrioritize s le) as R.
    abstract_run.
    destruct R; decide_tests; try congruence; cbn; decide_tests; cbn; auto.
    repeat split; auto; congruence.
  - pose proof (refused_run lpHandles bWaitAll dwMilliseconds bAlertable bPrioritize
                  s le H0 E) as R.
    abstract_run.
    destruct (refused_run_quiet R) as (Hr & Hw & _).
    repeat split; try assumption; contradiction.
Qed.

(** C5.  When the pre-check finds that blocking is needed and the timeout
    is zero, the call returns [WAIT_TIMEOUT], leaves the last error as it
    was, and its trace is the resolution, the controller acquisition, the
    pre-check, the release of the controller and the release of the
    reference: no registration, no call to the blocking primitive, no
    consumption. *)
Theorem zero_timeout_never_blocks :
  0 <= nCount ->
  dwMilliseconds = 0 ->
  precheck_done calls = true ->
  blocking_needed (BOOL_to_bool bWaitAll) nCount calls = true ->
  dwRet = WAIT_TIMEOUT /\
  last_error = le /\
  existsb is_register calls = false /\
  existsb is_block calls = false /\
  existsb is_consume calls = false /\
  exists objs ctrls fAb,
    calls =
      [EvReferenceMultipleObjectsByHandleArray lpHandles nCount NO_ERROR objs;
       EvGetSynchWaitControllersForObjects objs nCount NO_ERROR ctrls;
       EvCanThreadWaitWithoutBlocking 0 (nth 0 ctrls NULL) NO_ERROR false fAb;
       EvReleaseController 0 (nth 0 ctrls NULL);
       EvReleaseReference 0 (nth 0 objs NULL)].
Proof.
  intros H0 Hms.
  destruct (Z.eq_dec nCount 1) as [E | E].
  - rewrite E.
    pose proof (single_object_run lpHandles bWaitAll dwMilliseconds bAlertable
                  bPrioritize s le) as R.
    abstract_run.
    unfold precheck_done, blocking_needed.
    destruct R; decide_tests; cbn; decide_tests; cbn;
      rewrite ?andb_false_r; try discriminate; try congruence.
    intros _ _. repeat split. eauto.
  - pose proof (refused_run lpHandles bWaitAll dwMilliseconds bAlertable bPrioritize
                  s le H0 E) as R.
    abstract_run.
    destruct (refused_run_quiet R) as (_ & Hw & _).
    destruct (no_waits _ Hw) as (Hp & _).
    unfold precheck_done. rewrite Hp. discriminate.
Qed.

(** Through the entry point, which lets one object at most reach the
    pre-check: when the pre-check finds the object satisfied, it has
    visited the indices [0], ..., [k] in that order with [k = 0], the only
    consumption asked for is that of object [k], through the controller
    obtained for it, and if that consumption succeeds the result carries
    the index [k]. *)
Lemma wait_any_takes_lowest_signaled_index :
  0 <= nCount ->
  existsb is_satisfied_precheck calls = true ->
  exists (k : nat) objs ctrls,
    Z.of_nat k < nCount /\
    In (EvGetSynchWaitControllersForObjects objs nCount NO_ERROR ctrls) calls /\
    precheck_indices calls = map Z.of_nat (seq 0 (Datatypes.S k)) /\
    precheck_answers calls = repeat false k ++ [true] /\
    consume_calls calls = [(Z.of_nat k, nth k ctrls NULL)] /\
    (existsb is_failed_consume calls = false ->
     dwRet = to_DWORD (WAIT_OBJECT_0 + Z.of_nat k) \/
     dwRet = to_DWORD (WAIT_ABANDONED_0 + Z.of_nat k)).
Proof.
  intros H0.
  destruct (Z.eq_dec nCount 1) as [E | E].
  - rewrite E.
    pose proof (single_object_run lpHandles bWaitAll dwMilliseconds bAlertable
                  bPrioritize s le) as R.
    abstract_run.
    destruct R; decide_tests; cbn; decide_tests; cbn; try discriminate;
      intros _; exists 0%nat, objs, ctrls; cbn; decide_tests; cbn.
    + repeat split; auto; try lia; discriminate.
    + repeat split; auto; try lia. destruct fAb; auto.
  - pose proof (refused_run lpHandles bWaitAll dwMilliseconds bAlertable bPrioritize
                  s le H0 E) as R.
    abstract_run.
    destruct (refused_run_quiet R) as (_ & Hw & _).
    destruct (no_waits _ Hw) as (_ & _ & _ & _ & Hp).
    rewrite Hp. discriminate.
Qed.

(** Through the entry point, which lets one object at most reach the
    pre-check: on the fast path the result is in the abandoned family
    exactly when the object whose signal was consumed had reported
    abandonment during the pre-check; the one object asked is the one
    consumed. *)
Lemma fast_path_abandoned_iff_consumed_abandoned :
  0 <= nCount ->
  precheck_done calls = true ->
  blocking_needed (BOOL_to_bool bWaitAll) nCount calls = false ->
  is_abandoned_code nCount dwRet = consumed_abandoned calls.
Proof.
  intros H0.
  destruct (Z.eq_dec nCount 1) as [E | E].
  - rewrite E.
    pose proof (single_object_run lpHandles bWaitAll dwMilliseconds bAlertable
                  bPrioritize s le) as R.
    abstract_run.
    unfold precheck_done, blocking_needed, consumed_abandoned, reported_abandoned.
    destruct R; decide_tests; cbn; decide_tests; cbn;
      rewrite ?andb_false_r; try discriminate; try congruence.
    intros _ _. destruct fAb; reflexivity.
  - pose proof (refused_run lpHandles bWaitAll dwMilliseconds bAlertable bPrioritize
                  s le H0 E) as R.
    abstract_run.
    destruct (refused_run_quiet R) as (_ & Hw & _).
    destruct (no_waits _ Hw) as (Hp & _).
    unfold precheck_done. rewrite Hp. discriminate.
Qed.

End Properties.

(** * Error paths and protocol of the wait function *)

Lemma allocations_only nCount r1 r2 e :
  In e (allocations nCount r1 r2) -> is_new_array e = true.
Proof.
  unfold allocations. destruct (nCount >? _); cbn; [| contradiction].
  intros [<- | [<- | []]]; reflexivity.
Qed.

Lemma deletions_only nCount a1 a2 e :
  In e (deletions nCount a1 a2) -> is_delete_array e = true.
Proof.
  unfold deletions. destruct (nCount >? _); cbn; [| contradiction].
  intros [<- | [<- | []]]; reflexivity.
Qed.

Lemma release_reference_events_only n i objs e :
  In e (release_reference_events n i objs) -> is_release_reference e = true.
Proof.
  revert i. induction n as [| n IH]; intros i; cbn; [contradiction |].
  intros [<- | H]; [reflexivity | eauto].
Qed.

Lemma existsb_false_In (f : Event -> bool) t e :
  existsb f t = false -> In e t -> f e = false.
Proof.
  intros H HIn. destruct (f e) eqn:E; [| reflexivity].
  assert (existsb f t = true) by (apply existsb_exists; eauto). congruence.
Qed.

(** Split a membership in a refused trace into its pieces and close the
    pieces that hold only allocations, deletions or releases. *)
Ltac in_pieces H :=
  rewrite ?in_app_iff in H; cbn [In] in H;
  repeat match type of H with
         | _ \/ _ => destruct H as [H | H]
         end;
  try contradiction;
  try (apply allocations_only in H; discriminate H);
  try (apply deletions_only in H; discriminate H);
  try (apply release_reference_events_only in H; discriminate H);
  try discriminate H.

Ltac in_single H :=
  cbn [In] in H;
  repeat match type of H with
         | _ \/ _ => destruct H as [H | H]
         end;
  try contradiction; try discriminate H.

Section ErrorPaths.

Context {S : Type}.
Context {codes : PalErrorCodes}.
Context {objmgr : IPalObjectManager S} {palobj : IPalObject S}.
Context {synchmgr : IPalSynchronizationManager S} {waitctrl : ISynchWaitController S}.
Context {malloc : PalMalloc S}.

Variables (nCount : DWORD) (lpHandles : list HANDLE) (bWaitAll : BOOL).
Variables (dwMilliseconds : DWORD) (bAlertable bPrioritize : BOOL).
Variables (s : S) (le : DWORD).

Local Abbreviation the_call :=
  (wait_call nCount lpHandles bWaitAll dwMilliseconds bAlertable bPrioritize s le).
Local Abbreviation dwRet := (fst the_call).
Local Abbreviation last_error := (lastError (snd the_call)).
Local Abbreviation calls := (trace (snd the_call)).

(** The two run lemmas, for the call in the goal. *)
Ltac runs H0 :=
  let E := fresh "E" in
  let R := fresh "R" in
  match goal with
  | |- context [wait_call ?n ?h ?wa ?ms ?al ?pr ?st ?e0] =>
      destruct (Z.eq_dec n 1) as [E | E];
      [ rewrite E;
        pose proof (single_object_run h wa ms al pr st e0) as R
      | pose proof (refused_run h wa ms al pr st e0 H0 E) as R ]
  end;
  abstract_run.

(** X1.  When the handles do not resolve, the call returns [WAIT_FAILED];
    the last error is [ERROR_INVALID_HANDLE] if that is what the object
    manager answered and [ERROR_INTERNAL_ERROR] for any other answer; no
    controller is asked for, no reference is released, nothing is waited
    for. *)
Theorem unresolved_handles_fail hs n e objs :
  0 <= nCount ->
  In (EvReferenceMultipleObjectsByHandleArray hs n e objs) calls ->
  e <> NO_ERROR ->
  dwRet = WAIT_FAILED /\
  last_error = (if e =? ERROR_INVALID_HANDLE
                then ERROR_INVALID_HANDLE else ERROR_INTERNAL_ERROR) /\
  existsb is_get_controllers calls = false /\
  existsb is_release_reference calls = false /\
  existsb waits calls = false.
Proof.
  intros H0. runs H0.
  - destruct R; intros HIn He; in_single HIn; inversion HIn; subst;
      try congruence.
    subst code. cbn. decide_tests. cbn. repeat split.
  - destruct R as [Hbad | r1 r2 Hrange Hnull | r1 r2 e1 objs1 Hrange He1
                  | r1 r2 objs1 Hrange];
      intros HIn He; in_pieces HIn.
    + inversion HIn; subst. subst code.
      rewrite !existsb_app. cbn.
      unfold allocations, deletions. decide_tests.
      destruct (_ >? MAXIMUM_STACK_WAITOBJ_ARRAY_SIZE); cbn; repeat split.
    + inversion HIn; subst. congruence.
Qed.

(** X2.  When the synchronization manager fails to hand out the
    controllers, the call returns [WAIT_FAILED] with [ERROR_INTERNAL_ERROR]
    (the manager's code is not passed on), waits for nothing, and releases
    the reference it took. *)
Theorem controller_acquisition_failure objs n e ctrls :
  0 <= nCount ->
  In (EvGetSynchWaitControllersForObjects objs n e ctrls) calls ->
  e <> NO_ERROR ->
  dwRet = WAIT_FAILED /\
  last_error = ERROR_INTERNAL_ERROR /\
  existsb waits calls = false /\
  existsb is_release_controller calls = false /\
  pinned_after calls [] = Some [].
Proof.
  intros H0. runs H0.
  - pose proof (single_object_run_balanced R) as [Hpin _].
    destruct R; intros HIn He; in_single HIn; inversion HIn; subst;
      try congruence.
    cbn in *. decide_tests. repeat split. exact Hpin.
  - destruct (refused_run_quiet R) as (_ & _ & Hg).
    intros HIn. apply (existsb_false_In _ _ _ Hg) in HIn. discriminate.
Qed.

(** X3.  When the pre-check of the object fails, the call returns
    [WAIT_FAILED] with [ERROR_INTERNAL_ERROR]; it consumes nothing, does not
    register and does not block, and it releases the controller and the
    reference. *)
Theorem precheck_failure i c e fValue fAb :
  0 <= nCount ->
  In (EvCanThreadWaitWithoutBlocking i c e fValue fAb) calls ->
  e <> NO_ERROR ->
  dwRet = WAIT_FAILED /\
  last_error = ERROR_INTERNAL_ERROR /\
  existsb is_consume calls = false /\
  existsb is_register calls = false /\
  existsb is_block calls = false /\
  held_after calls [] = Some [] /\
  pinned_after calls [] = Some [].
Proof.
  intros H0. runs H0.
  - pose proof (single_object_run_balanced R) as [Hpin Hheld].
    destruct R; intros HIn He; in_single HIn; inversion HIn; subst;
      try congruence.
    repeat split; auto.
  - destruct (refused_run_quiet R) as (_ & Hw & _).
    destruct (no_waits _ Hw) as (Hp & _).
    intros HIn. apply (existsb_false_In _ _ _ Hp) in HIn. discriminate.
Qed.

(** X4.  When the consumption of the satisfied object fails, the call
    returns [WAIT_FAILED] and the last error is the code the controller
    answered; the call does not register and does not block, and it
    releases the controller and the reference. *)
Theorem consume_failure_is_propagated i c e :
  0 <= nCount ->
  In (EvReleaseWaitingThreadWithoutBlocking i c e) calls ->
  e <> NO_ERROR ->
  dwRet = WAIT_FAILED /\
  last_error = e /\
  existsb is_register calls = false /\
  existsb is_block calls = false /\
  held_after calls [] = Some [] /\
  pinned_after calls [] = Some [].
Proof.
  intros H0. runs H0.
  - pose proof (single_object_run_balanced R) as [Hpin Hheld].
    destruct R; intros HIn He; in_single HIn; inversion HIn; subst;
      try congruence.
    repeat split; auto.
  - destruct (refused_run_quiet R) as (_ & Hw & _).
    destruct (no_waits _ Hw) as (_ & Hp & _).
    intros HIn. apply (existsb_false_In _ _ _ Hp) in HIn. discriminate.
Qed.

(** X5.  When the registration of the thread fails, the call returns
    [WAIT_FAILED] and the last error is the code the controller answered;
    the blocking primitive is not called, and the controller and the
    reference are released. *)
Theorem register_failure_is_propagated i c wt fAl fPr e :
  0 <= nCount ->
  In (EvRegisterWaitingThread i c wt fAl fPr e) calls ->
  e <> NO_ERROR ->
  dwRet = WAIT_FAILED /\
  last_error = e /\
  existsb is_block calls = false /\
  held_after calls [] = Some [] /\
  pinned_after calls [] = Some [].
Proof.
  intros H0. runs H0.
  - pose proof (single_object_run_balanced R) as [Hpin Hheld].
    destruct R; intros HIn He; in_single HIn; inversion HIn; subst;
      try congruence.
    repeat split; auto.
  - destruct (refused_run_quiet R) as (_ & Hw & _).
    destruct (no_waits _ Hw) as (_ & _ & Hp & _).
    intros HIn. apply (existsb_false_In _ _ _ Hp) in HIn. discriminate.
Qed.

(** X6.  When the blocking primitive fails, the call returns
    [WAIT_FAILED] and the last error is the code the primitive answered,
    whatever wake-up reason and index came with it. *)
Theorem block_failure_is_propagated ms fAl e reason idx :
  0 <= nCount ->
  In (EvBlockThread ms fAl e reason idx) calls ->
  e <> NO_ERROR ->
  dwRet = WAIT_FAILED /\
  last_error = e /\
  pinned_after calls [] = Some [].
Proof.
  intros H0. runs H0.
  - pose proof (single_object_run_balanced R) as [Hpin Hheld].
    destruct R; intros HIn He; in_single HIn; inversion HIn; subst;
      try congruence.
    repeat split; auto.
  - destruct (refused_run_quiet R) as (_ & Hw & _).
    destruct (no_waits _ Hw) as (_ & _ & _ & Hp & _).
    intros HIn. apply (existsb_false_In _ _ _ Hp) in HIn. discriminate.
Qed.

(** X7.  A thread woken for a reason other than success or abandonment
    gets [WAIT_TIMEOUT] for a timeout and [WAIT_FAILED] for anything else,
    whatever index was reported; in both cases the last error is left as
    it was on entry. *)
Theorem woken_without_object ms fAl reason idx :
  0 <= nCount ->
  In (EvBlockThread ms fAl NO_ERROR reason idx) calls ->
  reason <> WaitSucceeded ->
  reason <> MutexAbondoned ->
  dwRet = (match reason with WaitTimeout => WAIT_TIMEOUT | _ => WAIT_FAILED end) /\
  last_error = le.
Proof.
  intros H0. runs H0.
  - destruct R; intros HIn Hs Ha; in_single HIn; inversion HIn; subst;
      try congruence;
      try match goal with
          | H : _ = WaitSucceeded \/ _ |- _ => destruct H; congruence
          end.
    destruct reason; try congruence; split; reflexivity.
  - destruct (refused_run_quiet R) as (_ & Hw & _).
    destruct (no_waits _ Hw) as (_ & _ & _ & Hp & _).
    intros HIn. apply (existsb_false_In _ _ _ Hp) in HIn. discriminate.
Qed.

(** X8.  A call that returns anything but [WAIT_FAILED] leaves the
    thread's last error as it was on entry. *)
Theorem last_error_kept_unless_failed :
  0 <= nCount ->
  dwRet <> WAIT_FAILED ->
  last_error = le.
Proof.
  intros H0. runs H0.
  - destruct R; intros Hr; try reflexivity; try congruence.
  - destruct (refused_run_quiet R) as (Hr & _). congruence.
Qed.

(** X9.  With a timeout of zero the call never registers the thread and
    never calls the blocking primitive, whatever the collaborators
    answer. *)
Theorem zero_timeout_is_a_poll :
  0 <= nCount ->
  dwMilliseconds = 0 ->
  existsb is_register calls = false /\ existsb is_block calls = false.
Proof.
  intros H0. runs H0.
  - destruct R; intros Hms; try congruence; split; reflexivity.
  - destruct (refused_run_quiet R) as (_ & Hw & _).
    destruct (no_waits _ Hw) as (_ & _ & Hr & Hb & _). auto.
Qed.

(** X10.  When the pre-check finds the object satisfied, the call neither
    registers the thread nor calls the blocking primitive, whatever the
    timeout. *)
Theorem satisfied_object_never_blocks :
  0 <= nCount ->
  existsb is_satisfied_precheck calls = true ->
  existsb is_register calls = false /\ existsb is_block calls = false.
Proof.
  intros H0. runs H0.
  - destruct R; decide_tests; cbn; decide_tests; cbn; intros Hsat;
      try discriminate; split; reflexivity.
  - destruct (refused_run_quiet R) as (_ & Hw & _).
    destruct (no_waits _ Hw) as (_ & _ & Hr & Hb & _). auto.
Qed.

(** X11.  A call that blocks has first resolved the handle, obtained the
    controller, found the object not satisfied, registered the thread once
    (as a [SingleObject] wait at index 0, not alertable, with the
    caller's priority flag) and released the controller; it blocks with
    the caller's timeout, which is not zero, and not alertably. *)
Theorem blocking_protocol :
  0 <= nCount ->
  existsb is_block calls = true ->
  dwMilliseconds <> 0 /\
  exists objs ctrls fAb e reason idx rest,
    calls =
      [EvReferenceMultipleObjectsByHandleArray lpHandles 1 NO_ERROR objs;
       EvGetSynchWaitControllersForObjects objs 1 NO_ERROR ctrls;
       EvCanThreadWaitWithoutBlocking 0 (nth 0 ctrls NULL) NO_ERROR false fAb;
       EvRegisterWaitingThread 0 (nth 0 ctrls NULL) SingleObject false
         (negb (bPrioritize =? FALSE)) NO_ERROR;
       EvReleaseController 0 (nth 0 ctrls NULL);
       EvBlockThread dwMilliseconds false e reason idx] ++ rest /\
    existsb waits rest = false.
Proof.
  intros H0. runs H0.
  - destruct R; cbn; intros Hb; try discriminate; (split; [assumption |]).
    + exists objs, ctrls, fAb, e6, reason, idx. eexists. split; [reflexivity |].
      reflexivity.
    + exists objs, ctrls, fAb, NO_ERROR, reason, idx. eexists.
      split; [reflexivity |]. reflexivity.
    + exists objs, ctrls, fAb, NO_ERROR, reason, idx. eexists.
      split; [reflexivity |]. reflexivity.
    + exists objs, ctrls, fAb, NO_ERROR, reason, idx. eexists.
      split; [reflexivity |]. reflexivity.
  - destruct (refused_run_quiet R) as (_ & Hw & _).
    destruct (no_waits _ Hw) as (_ & _ & _ & Hb & _). congruence.
Qed.

(** X13.  When an allocation of a working array answers null, the call
    returns [WAIT_FAILED] with [ERROR_NOT_ENOUGH_MEMORY].  It has asked for
    both arrays (for the second even when the first was refused), it
    resolves no handle, and it passes both pointers, the null one
    included, to the deallocator. *)
Theorem allocation_failure_is_out_of_memory n :
  0 <= nCount ->
  In (EvInternalNewArray n None) calls ->
  dwRet = WAIT_FAILED /\
  last_error = ERROR_NOT_ENOUGH_MEMORY /\
  exists r1 r2,
    (r1 = None \/ r2 = None) /\
    calls =
      [EvInternalNewArray nCount r1; EvInternalNewArray nCount r2;
       EvSetLastError ERROR_NOT_ENOUGH_MEMORY;
       EvInternalDeleteArray (of_alloc r1); EvInternalDeleteArray (of_alloc r2)].
Proof.
  intros H0.
  destruct (Z.eq_dec nCount 1) as [E | E].
  - rewrite E.
    pose proof (single_object_run lpHandles bWaitAll dwMilliseconds bAlertable
                  bPrioritize s le) as R.
    abstract_run.
    destruct R; intros HIn; in_single HIn.
  - intros HIn.
    destruct (failed_allocation_run lpHandles bWaitAll dwMilliseconds bAlertable
                bPrioritize s le n H0 E HIn)
      as (r1 & r2 & Hnull & _ & Hr & He & Ht).
    split; [exact Hr |]. split; [exact He |].
    exists r1, r2. split; [exact Hnull | exact Ht].
Qed.

Lemma allocated_release_reference_events n i objs :
  allocated (release_reference_events n i objs) = [] /\
  deleted (release_reference_events n i objs) = [].
Proof.
  revert i. induction n as [| n IH]; intros i; cbn; [easy |]. apply IH.
Qed.

(** X12.  Every working array the call allocates is deleted, once and in
    the order of allocation, before it returns; an in-frame array is never
    deleted; and a call for at most [MAXIMUM_STACK_WAITOBJ_ARRAY_SIZE]
    objects neither allocates nor deletes. *)
Theorem working_arrays_deleted_once :
  0 <= nCount ->
  deleted calls = allocated calls /\
  ~ In (EvInternalDeleteArray StackArray) calls /\
  (nCount <= MAXIMUM_STACK_WAITOBJ_ARRAY_SIZE ->
   existsb is_new_array calls = false /\ existsb is_delete_array calls = false).
Proof.
  intros H0. runs H0.
  - destruct R; (split; [reflexivity |]);
      (split; [intros HIn; in_single HIn |]); intros _; split; reflexivity.
  - assert (Q1 : forall n i objs,
               existsb is_new_array (release_reference_events n i objs) = false /\
               existsb is_delete_array (release_reference_events n i objs) = false).
    { clear. induction n as [| k IH]; intros i objs; cbn; auto. }
    destruct R as [Hbad | r1 r2 Hrange Hnull | r1 r2 e1 objs1 Hrange He1
                  | r1 r2 objs1 Hrange];
      unfold allocated, deleted; rewrite ?flat_map_app;
      try (destruct (allocated_release_reference_events (Z.to_nat nCount) 0 objs1)
             as [Hal Hdel];
           unfold allocated, deleted in Hal, Hdel; rewrite Hal, Hdel);
      rewrite ?existsb_app;
      try (destruct (Q1 (Z.to_nat nCount) 0 objs1) as [-> ->]);
      unfold allocations, deletions, storage_of;
      destruct (Z.gtb_spec nCount MAXIMUM_STACK_WAITOBJ_ARRAY_SIZE);
      (split; [try (destruct r1, r2); reflexivity |]);
      (split;
       [ intros HIn; in_pieces HIn; try (destruct r1, r2; discriminate HIn)
       | intros Hle; try lia; cbn; decide_tests; split; reflexivity ]).
Qed.

End ErrorPaths.

(** * The pre-check and what follows it, for any number of objects *)

Section Appending.

Context {S : Type}.

Lemma appends_ret (P : Event -> Prop) A (a : A) : appends P (ret (S := S) a).
Proof. intros w. exists (@nil Event). split; [reflexivity | constructor]. Qed.

Lemma appends_bind (P : Event -> Prop) A B (m : M S A) (k : A -> M S B) :
  appends P m -> (forall a, appends P (k a)) -> appends P (bind m k).
Proof.
  intros Hm Hk w. unfold bind.
  destruct (Hm w) as (e1 & H1 & F1).
  destruct (m w) as [a w1]. cbn [snd] in H1.
  destruct (Hk a w1) as (e2 & H2 & F2).
  exists (e1 ++ e2). split.
  - rewrite H2, H1, rev_app_distr, app_assoc. reflexivity.
  - apply Forall_app. split; assumption.
Qed.

Lemma appends_call (P : Event -> Prop) A (op : S -> A * S) (ev : A -> Event) :
  (forall a, P (ev a)) -> appends P (call op ev).
Proof.
  intros HP w. unfold call. destruct (op (ext w)) as [a s1].
  exists [ev a]. split; [reflexivity | constructor; [apply HP | constructor]].
Qed.

Lemma appends_SetLastError (P : Event -> Prop) code :
  P (EvSetLastError code) -> appends P (SetLastError (S := S) code).
Proof.
  intros HP w. exists [EvSetLastError code].
  split; [reflexivity | constructor; [exact HP | constructor]].
Qed.

Lemma appends_weaken (P Q : Event -> Prop) A (m : M S A) :
  (forall e, P e -> Q e) -> appends P m -> appends Q m.
Proof.
  intros HPQ Hm w. destruct (Hm w) as (evs & Hlog & F).
  exists evs. split; [exact Hlog |]. revert F. apply Forall_impl. exact HPQ.
Qed.

Lemma fst_bind A B (m : M S A) (k : A -> M S B) w :
  fst (bind m k w) = fst (k (fst (m w)) (snd (m w))).
Proof. unfold bind. destruct (m w). reflexivity. Qed.

Lemma snd_bind A B (m : M S A) (k : A -> M S B) w :
  snd (bind m k w) = snd (k (fst (m w)) (snd (m w))).
Proof. unfold bind. destruct (m w). reflexivity. Qed.

End Appending.

(** Decompose a computation into its calls. *)
Ltac appends_step :=
  match goal with
  | |- appends _ (ret _) => apply appends_ret
  | |- appends _ (SetLastError _) => apply appends_SetLastError
  | |- appends _ (call _ _) => apply appends_call; intros
  | |- appends _ (bind _ _) => apply appends_bind; [| intros]
  | |- appends _ (if ?b then _ else _) => destruct b
  | |- appends _ (let '(_, _) := ?p in _) => destruct p
  | |- appends _ (match ?p with _ => _ end) => destruct p
  end.

(** ** What the readers see of a list of events *)

Lemma housekeeping_not_asking e : housekeeping e -> not_asking e.
Proof. unfold housekeeping, not_asking. destruct e; cbn; intros H; try discriminate; auto. Qed.

Lemma not_asking_not_prechecking e : not_asking e -> not_prechecking e.
Proof. intros [H _]. exact H. Qed.

Lemma consume_calls_app t1 t2 :
  consume_calls (t1 ++ t2) = consume_calls t1 ++ consume_calls t2.
Proof.
  induction t1 as [| e t1 IH]; cbn; [reflexivity |].
  destruct e; cbn; rewrite ?IH; reflexivity.
Qed.

Lemma consume_calls_quiet evs :
  Forall (fun e => is_consume e = false) evs -> consume_calls evs = [].
Proof.
  induction 1 as [| e evs He _ IH]; cbn; [reflexivity |].
  destruct e; cbn in *; try discriminate; exact IH.
Qed.

(** The readers of the pre-check see nothing in events that are no
    pre-check. *)
Lemma not_prechecking_readers evs :
  Forall not_prechecking evs ->
  precheck_calls evs = [] /\ precheck_verdicts evs = [] /\
  existsb is_precheck evs = false /\
  existsb is_failed_precheck evs = false /\
  existsb is_abandoned_precheck evs = false /\
  existsb is_satisfied_precheck evs = false /\
  filter is_satisfied_precheck evs = [].
Proof.
  unfold not_prechecking.
  induction 1 as [| e evs He _ (I1 & I2 & I3 & I4 & I5 & I6 & I7)]; cbn; [easy |].
  unfold precheck_calls, precheck_verdicts in *. cbn.
  rewrite I1, I2, I3, I4, I5, I6, I7.
  destruct e; cbn in *; try discriminate; easy.
Qed.

Lemma not_asking_consume_calls evs : Forall not_asking evs -> consume_calls evs = [].
Proof.
  intros F. apply consume_calls_quiet. revert F. apply Forall_impl.
  intros e [_ H]. exact H.
Qed.

(** A satisfied pre-check among the events is a verdict [Some true]. *)
Lemma satisfied_verdict evs :
  existsb is_satisfied_precheck evs =
  existsb (fun v => match v with Some true => true | _ => false end)
          (precheck_verdicts evs).
Proof.
  unfold precheck_verdicts.
  induction evs as [| e evs IH]; cbn; [reflexivity |].
  rewrite existsb_app, <- IH.
  destruct e; cbn; try reflexivity.
  destruct (err =? NO_ERROR); cbn; [| reflexivity].
  destruct fValue; reflexivity.
Qed.

Lemma housekeeping_readers evs :
  Forall housekeeping evs ->
  consume_calls evs = [] /\
  existsb is_failed_consume evs = false /\
  existsb is_register evs = false /\
  existsb is_block evs = false.
Proof.
  unfold housekeeping.
  induction 1 as [| e evs He _ (I1 & I2 & I3 & I4)]; cbn; [easy |].
  rewrite I2, I3, I4.
  destruct e; cbn in *; try discriminate; easy.
Qed.

Section FromPrecheck.

Context {S : Type}.
Context {codes : PalErrorCodes}.
Context {objmgr : IPalObjectManager S} {palobj : IPalObject S}.
Context {synchmgr : IPalSynchronizationManager S} {waitctrl : ISynchWaitController S}.
Context {malloc : PalMalloc S}.

Lemma quiet_not_asking A (m : M S A) : appends housekeeping m -> appends not_asking m.
Proof. apply appends_weaken. exact housekeeping_not_asking. Qed.

Ltac unfold_calls :=
  unfold do_CanThreadWaitWithoutBlocking, do_ReleaseWaitingThreadWithoutBlocking,
    do_RegisterWaitingThread, do_ReleaseController, do_BlockThread,
    do_ReleaseReference, do_InternalDeleteArray, call_.

Ltac appends_run :=
  unfold_calls; repeat appends_step;
  unfold housekeeping, not_asking, not_prechecking; cbn; auto.

(** *** The steps after the pre-check *)

Lemma release_controllers_loop_appends n i ctrls :
  appends (S := S) housekeeping (release_controllers_loop n i ctrls).
Proof.
  revert i. induction n as [| n IH]; intros i; cbn [release_controllers_loop].
  - apply appends_ret.
  - apply appends_bind; [appends_run | intros _; apply IH].
Qed.

Lemma release_references_loop_appends n i objs :
  appends (S := S) housekeeping (release_references_loop n i objs).
Proof.
  revert i. induction n as [| n IH]; intros i; cbn [release_references_loop].
  - apply appends_ret.
  - apply appends_bind; [appends_run | intros _; apply IH].
Qed.

Lemma WFMOExIntCleanup_appends nCount ppIPalObjs ppISyncWaitCtrlrs dwRet :
  appends (S := S) housekeeping
    (WFMOExIntCleanup nCount ppIPalObjs ppISyncWaitCtrlrs dwRet).
Proof.
  unfold WFMOExIntCleanup, WFMOExIntExit.
  apply appends_bind; [apply release_references_loop_appends | intros _].
  appends_run.
Qed.

Lemma WFMOExIntCleanup_fst nCount ppIPalObjs ppISyncWaitCtrlrs dwRet (w : World S) :
  fst (WFMOExIntCleanup nCount ppIPalObjs ppISyncWaitCtrlrs dwRet w) = dwRet.
Proof.
  unfold WFMOExIntCleanup, WFMOExIntExit. rewrite !fst_bind. reflexivity.
Qed.

Lemma add_signaled_index_appends nCount ppIPalObjs ppISyncWaitCtrlrs fWAll idx dwRet :
  appends (S := S) housekeeping
    (add_signaled_index nCount ppIPalObjs ppISyncWaitCtrlrs fWAll idx dwRet).
Proof.
  unfold add_signaled_index.
  repeat match goal with
         | |- appends _ (if ?b then _ else _) => destruct b
         end;
    try apply WFMOExIntCleanup_appends.
  apply appends_bind; [appends_run | intros _; apply WFMOExIntCleanup_appends].
Qed.

Lemma add_signaled_index_fst nCount ppIPalObjs ppISyncWaitCtrlrs fWAll idx dwRet
    (w : World S) :
  fst (add_signaled_index nCount ppIPalObjs ppISyncWaitCtrlrs fWAll idx dwRet w) =
  if negb fWAll && ((WAIT_OBJECT_0 =? dwRet) || (WAIT_ABANDONED_0 =? dwRet))
  then if idx <? 0 then WAIT_FAILED else to_DWORD (dwRet + idx)
  else dwRet.
Proof.
  unfold add_signaled_index.
  destruct (negb fWAll && ((WAIT_OBJECT_0 =? dwRet) || (WAIT_ABANDONED_0 =? dwRet)));
    [destruct (idx <? 0) |];
    rewrite ?fst_bind; apply WFMOExIntCleanup_fst.
Qed.

(** The release of the controllers and what follows it, when the thread
    does not block. *)
Lemma WFMOExIntReleaseControllers_appends_housekeeping nCount ppIPalObjs ppISyncWaitCtrlrs
    dwMilliseconds bAlertable fWAll palErr fNeedToBlock idx dwRet :
  fNeedToBlock = false \/ palErr <> NO_ERROR ->
  appends (S := S) housekeeping
    (WFMOExIntReleaseControllers nCount ppIPalObjs ppISyncWaitCtrlrs dwMilliseconds
       bAlertable fWAll palErr fNeedToBlock idx dwRet).
Proof.
  intros H. unfold WFMOExIntReleaseControllers.
  apply appends_bind; [apply release_controllers_loop_appends | intros _].
  destruct (Z.eqb_spec palErr NO_ERROR) as [E | E]; cbn [negb].
  - destruct H as [-> | H]; [| contradiction].
    apply add_signaled_index_appends.
  - apply WFMOExIntCleanup_appends.
Qed.

Lemma WFMOExIntReleaseControllers_fst nCount ppIPalObjs ppISyncWaitCtrlrs
    dwMilliseconds bAlertable fWAll palErr idx dwRet (w : World S) :
  fst (WFMOExIntReleaseControllers nCount ppIPalObjs ppISyncWaitCtrlrs dwMilliseconds
         bAlertable fWAll palErr false idx dwRet w) =
  if palErr =? NO_ERROR
  then if negb fWAll && ((WAIT_OBJECT_0 =? dwRet) || (WAIT_ABANDONED_0 =? dwRet))
       then if idx <? 0 then WAIT_FAILED else to_DWORD (dwRet + idx)
       else dwRet
  else dwRet.
Proof.
  unfold WFMOExIntReleaseControllers. rewrite fst_bind.
  destruct (palErr =? NO_ERROR); cbn [negb].
  - apply add_signaled_index_fst.
  - apply WFMOExIntCleanup_fst.
Qed.

(** The same, blocking or not: no pre-check and no consumption. *)
Lemma WFMOExIntReleaseControllers_appends nCount ppIPalObjs ppISyncWaitCtrlrs
    dwMilliseconds bAlertable fWAll palErr fNeedToBlock idx dwRet :
  appends (S := S) not_asking
    (WFMOExIntReleaseControllers nCount ppIPalObjs ppISyncWaitCtrlrs dwMilliseconds
       bAlertable fWAll palErr fNeedToBlock idx dwRet).
Proof.
  unfold WFMOExIntReleaseControllers.
  apply appends_bind;
    [apply quiet_not_asking, release_controllers_loop_appends
    | intros _].
  destruct (negb (palErr =? NO_ERROR));
    [apply quiet_not_asking, WFMOExIntCleanup_appends |].
  destruct fNeedToBlock;
    [| apply quiet_not_asking, add_signaled_index_appends].
  apply appends_bind; [appends_run |].
  intros [[e reason] idx']. 
  destruct (negb (e =? NO_ERROR)).
  - apply appends_bind; [appends_run | intros _].
    apply quiet_not_asking, WFMOExIntCleanup_appends.
  - apply quiet_not_asking, add_signaled_index_appends.
Qed.

Lemma register_loop_appends n i ctrls wt al pr :
  appends (S := S) not_asking (register_loop n i ctrls wt al pr).
Proof.
  revert i. induction n as [| n IH]; intros i; cbn [register_loop].
  - apply appends_ret.
  - apply appends_bind; [appends_run | intros e].
    destruct (negb (e =? NO_ERROR)); [appends_run | apply IH].
Qed.

(** The consumption loop: it consumes through the controllers at [i],
    [i + 1], ... in that order and stops at the first failure; besides the
    consumptions its only event is the setting of the last error after a
    failed one; it answers [NO_ERROR] exactly when no consumption failed. *)
Lemma unsignal_loop_run n i ctrls (w : World S) :
  exists evs (m : nat),
    log (snd (unsignal_loop n i ctrls w)) = rev evs ++ log w /\
    Forall not_prechecking evs /\
    existsb is_register evs = false /\
    existsb is_block evs = false /\
    existsb is_failed_consume evs = negb (fst (unsignal_loop n i ctrls w) =? NO_ERROR) /\
    consume_calls evs =
      map (fun j => (i + Z.of_nat j, at_index ctrls (i + Z.of_nat j))) (seq 0 m) /\
    (m <= n)%nat /\ ((0 < n)%nat -> (0 < m)%nat) /\
    (fst (unsignal_loop n i ctrls w) = NO_ERROR -> m = n).
Proof.
  revert i w. induction n as [| n IH]; intros i w; cbn [unsignal_loop].
  - exists (@nil Event), 0%nat. cbn. repeat split; auto; lia.
  - unfold bind, do_ReleaseWaitingThreadWithoutBlocking, call, SetLastError, ret.
    destruct (ReleaseWaitingThreadWithoutBlocking (at_index ctrls i) (ext w))
      as [e s1].
    destruct (e =? NO_ERROR) eqn:He; cbn [negb fst snd].
    + match goal with
      | |- context [unsignal_loop n (i + 1) ctrls ?w1] =>
          destruct (IH (i + 1) w1)
            as (evs & m & Hlog & F & Hr & Hb & Hc & Hcalls & Hm & _ & Hall)
      end.
      exists (EvReleaseWaitingThreadWithoutBlocking i (at_index ctrls i) e :: evs),
        (Datatypes.S m).
      split; [rewrite Hlog; cbn; now rewrite <- app_assoc |].
      split; [constructor; [reflexivity | exact F] |].
      cbn [existsb is_register is_block is_failed_consume orb].
      rewrite He, Hr, Hb. cbn [negb orb].
      split; [reflexivity |]. split; [reflexivity |]. split; [exact Hc |].
      split.
      { cbn. rewrite Z.add_0_r, Hcalls, <- seq_shift, map_map.
        f_equal. apply map_ext. intros j.
        replace (i + 1 + Z.of_nat j) with (i + Z.of_nat (Datatypes.S j)) by lia.
        reflexivity. }
      split; [lia |]. split; [lia |].
      intros Hok. rewrite (Hall Hok). reflexivity.
    + exists [EvReleaseWaitingThreadWithoutBlocking i (at_index ctrls i) e;
              EvSetLastError e], 1%nat.
      cbn. rewrite He, Z.add_0_r. cbn.
      apply Z.eqb_neq in He.
      repeat split; auto; try lia; try contradiction. repeat constructor.
Qed.

(** *** The pre-check loop *)

Lemma precheck_loop_run n :
  forall i ctrls fWAll cnt idx fAb (w : World S),
    exists evs,
      PrecheckRun ctrls fWAll n i cnt idx fAb evs
        (fst (precheck_loop n i ctrls fWAll cnt idx fAb w)) /\
      log (snd (precheck_loop n i ctrls fWAll cnt idx fAb w)) = rev evs ++ log w.
Proof.
  induction n as [| n IH]; intros i ctrls fWAll cnt idx fAb w.
  - exists (@nil Event). split; [constructor | reflexivity].
  - cbn [precheck_loop].
    unfold bind, do_CanThreadWaitWithoutBlocking, call, SetLastError, ret.
    destruct (CanThreadWaitWithoutBlocking (at_index ctrls i) (ext w))
      as [[[e fValue] fWaitObjectAbandoned] s1].
    cbn [fst snd].
    destruct (e =? NO_ERROR) eqn:He; cbn [negb fst snd].
    + apply Z.eqb_eq in He. subst e.
      change (if fWaitObjectAbandoned then true else fAb)
        with (fWaitObjectAbandoned || fAb).
      destruct fValue.
      * destruct fWAll eqn:HW; cbn [negb].
        -- match goal with
           | |- context [precheck_loop n (i + 1) ctrls true ?c1 ?i1 ?a1 ?w1] =>
               destruct (IH (i + 1) ctrls true c1 i1 a1 w1) as (evs & Hrun & Hlog)
           end.
           eexists. split; [apply pr_satisfied; [reflexivity | exact Hrun] |].
           rewrite Hlog. cbn. now rewrite <- app_assoc.
        -- eexists. split; [apply pr_break; reflexivity | reflexivity].
      * match goal with
        | |- context [precheck_loop n (i + 1) ctrls fWAll ?c1 ?i1 ?a1 ?w1] =>
            destruct (IH (i + 1) ctrls fWAll c1 i1 a1 w1) as (evs & Hrun & Hlog)
        end.
        eexists. split; [apply pr_unsatisfied; exact Hrun |].
        rewrite Hlog. cbn. now rewrite <- app_assoc.
    + apply Z.eqb_neq in He.
      eexists. split; [apply pr_failed; exact He | reflexivity].
Qed.

(** The events of a pre-check run are pre-checks and, after a failed one,
    the setting of the last error. *)
Lemma PrecheckRun_events ctrls fWAll n i cnt idx fAb evs pc :
  PrecheckRun ctrls fWAll n i cnt idx fAb evs pc ->
  consume_calls evs = [] /\
  existsb is_failed_consume evs = false /\
  existsb is_register evs = false /\
  existsb is_block evs = false.
Proof. induction 1; cbn; auto. Qed.

(** The locals a pre-check run leaves, from its events. *)
Lemma PrecheckRun_locals ctrls fWAll n i cnt idx fAb evs pc :
  PrecheckRun ctrls fWAll n i cnt idx fAb evs pc ->
  (pc_palErr pc = NO_ERROR ->
   existsb is_failed_precheck evs = false /\
   pc_iSignaledObjCount pc = cnt + Z.of_nat (length (filter is_satisfied_precheck evs)) /\
   pc_fAbandoned pc = fAb || existsb is_abandoned_precheck evs) /\
  (pc_palErr pc <> NO_ERROR -> existsb is_failed_precheck evs = true).
Proof.
  induction 1 as [i cnt idx fAb | n i cnt idx fAb e fV fA He | n i cnt idx fAb fA HW
                  | n i cnt idx fAb fA evs pc HW Hrun IH | n i cnt idx fAb fA evs pc Hrun IH];
    cbn [pc_palErr pc_iSignaledObjCount pc_fAbandoned existsb filter
         is_failed_precheck is_satisfied_precheck is_abandoned_precheck].
  - split; [intros _ | congruence].
    cbn. rewrite orb_false_r. repeat split; lia.
  - apply Z.eqb_neq in He. rewrite He. cbn.
    split; [intros E; apply Z.eqb_neq in He; congruence | reflexivity].
  - split; [intros _ | congruence].
    cbn. destruct fA, fAb; repeat split; lia.
  - change (NO_ERROR =? NO_ERROR) with true. cbn [negb andb orb].
    destruct IH as [IHok IHko]. split; [| exact IHko].
    intros E. destruct (IHok E) as (I1 & I2 & I3).
    split; [exact I1 |]. split.
    + rewrite I2. cbn [length]. lia.
    + rewrite I3. destruct fA, fAb; reflexivity.
  - change (NO_ERROR =? NO_ERROR) with true. cbn [negb andb orb].
    destruct IH as [IHok IHko]. split; [| exact IHko].
    intros E. destruct (IHok E) as (I1 & I2 & I3).
    split; [exact I1 |]. split.
    + exact I2.
    + rewrite I3. destruct fA, fAb; reflexivity.
Qed.

(** The pre-check run of a wait-any over at least one object: it asks the
    controllers at [i], ..., [i + k], each through its own slot; every
    object before the last one answered "not satisfied"; the last one
    either fails, or is satisfied and becomes [iSignaledObjIndex], or is
    the last object of the request. *)
Lemma PrecheckRun_wait_any ctrls fWAll n i cnt idx fAb evs pc :
  PrecheckRun ctrls fWAll n i cnt idx fAb evs pc ->
  fWAll = false -> (0 < n)%nat ->
  exists (k : nat) (v : option bool),
    (k < n)%nat /\
    precheck_calls evs =
      map (fun j => (i + Z.of_nat j, at_index ctrls (i + Z.of_nat j)))
          (seq 0 (Datatypes.S k)) /\
    precheck_verdicts evs = repeat (Some false) k ++ [v] /\
    match v with
    | Some true =>
        pc_palErr pc = NO_ERROR /\ pc_iSignaledObjCount pc = cnt + 1 /\
        pc_iSignaledObjIndex pc = i + Z.of_nat k
    | Some false =>
        Datatypes.S k = n /\ pc_palErr pc = NO_ERROR /\
        pc_iSignaledObjCount pc = cnt /\ pc_iSignaledObjIndex pc = idx
    | None => pc_palErr pc <> NO_ERROR
    end.
Proof.
  induction 1 as [i cnt idx fAb | n i cnt idx fAb e fV fA He | n i cnt idx fAb fA HW
                  | n i cnt idx fAb fA evs pc HW Hrun IH | n i cnt idx fAb fA evs pc Hrun IH];
    intros HfW Hn.
  - lia.
  - exists 0%nat, None. unfold precheck_calls, precheck_verdicts. cbn.
    apply Z.eqb_neq in He. rewrite He, Z.add_0_r.
    repeat split; auto; try lia; try (now apply Z.eqb_neq).
  - exists 0%nat, (Some true). unfold precheck_calls, precheck_verdicts. cbn.
    rewrite Z.add_0_r. repeat split; auto; lia.
  - congruence.
  - destruct n as [| n'].
    + inversion Hrun; subst.
      exists 0%nat, (Some false). unfold precheck_calls, precheck_verdicts. cbn.
      rewrite Z.add_0_r. repeat split; auto.
    + destruct (IH HfW ltac:(lia)) as (k & v & Hk & Hcalls & Hverd & Hv).
      exists (Datatypes.S k), v.
      split; [lia |].
      split.
      { unfold precheck_calls in *. cbn [flat_map app].
        rewrite Hcalls.
        change (seq 0 (Datatypes.S (Datatypes.S k)))
          with (0%nat :: seq 1 (Datatypes.S k)).
        rewrite <- seq_shift, map_cons, map_map.
        change (Z.of_nat 0) with 0. rewrite Z.add_0_r. f_equal.
        apply map_ext. intros j.
        replace (i + 1 + Z.of_nat j) with (i + Z.of_nat (Datatypes.S j)) by lia.
        reflexivity. }
      split.
      { unfold precheck_verdicts in *. cbn [flat_map app].
        rewrite Hverd. reflexivity. }
      destruct v as [[|] |].
      * destruct Hv as (H1 & H2 & H3). repeat split; auto; lia.
      * destruct Hv as (H1 & H2 & H3 & H4). repeat split; auto; lia.
      * exact Hv.
Qed.

(** A pre-check run asks the controllers at [i], [i + 1], ..., each
    through its own slot; a wait-all that meets no failure asks all [n]. *)
Lemma PrecheckRun_calls ctrls fWAll n i cnt idx fAb evs pc :
  PrecheckRun ctrls fWAll n i cnt idx fAb evs pc ->
  exists m : nat,
    (m <= n)%nat /\
    precheck_calls evs =
      map (fun j => (i + Z.of_nat j, at_index ctrls (i + Z.of_nat j))) (seq 0 m) /\
    precheck_indices evs = map (fun j => i + Z.of_nat j) (seq 0 m) /\
    (pc_palErr pc <> NO_ERROR -> (0 < m)%nat) /\
    (fWAll = true -> pc_palErr pc = NO_ERROR -> m = n).
Proof.
  assert (Hshift : forall (A : Type) (f : Z -> A) z m,
             f z :: map (fun j => f (z + 1 + Z.of_nat j)) (seq 0 m) =
             map (fun j => f (z + Z.of_nat j)) (seq 0 (Datatypes.S m))).
  { clear. intros A f z m.
    change (seq 0 (Datatypes.S m)) with (0%nat :: seq 1 m).
    rewrite <- seq_shift, map_cons, map_map.
    change (Z.of_nat 0) with 0. rewrite Z.add_0_r. f_equal.
    apply map_ext. intros j. f_equal. lia. }
  induction 1 as [i cnt idx fAb | n i cnt idx fAb e fV fA He | n i cnt idx fAb fA HW
                  | n i cnt idx fAb fA evs pc HW Hrun IH | n i cnt idx fAb fA evs pc Hrun IH].
  - exists 0%nat. cbn. repeat split; auto; congruence.
  - exists 1%nat. unfold precheck_calls. cbn. rewrite Z.add_0_r.
    repeat split; auto; try lia; cbn; congruence.
  - exists 1%nat. unfold precheck_calls. cbn. rewrite Z.add_0_r.
    repeat split; auto; try lia; congruence.
  - destruct IH as (m & Hm & Hcalls & Hidx & Hpos & Hall).
    exists (Datatypes.S m). unfold precheck_calls in *. cbn [flat_map app precheck_indices].
    rewrite Hcalls, Hidx.
    rewrite (Hshift _ (fun z => (z, at_index ctrls z))), (Hshift _ (fun z => z)).
    repeat split; auto; try lia; intros H1 H2; rewrite (Hall H1 H2); reflexivity.
  - destruct IH as (m & Hm & Hcalls & Hidx & Hpos & Hall).
    exists (Datatypes.S m). unfold precheck_calls in *. cbn [flat_map app precheck_indices].
    rewrite Hcalls, Hidx.
    rewrite (Hshift _ (fun z => (z, at_index ctrls z))), (Hshift _ (fun z => z)).
    repeat split; auto; try lia; intros H1 H2; rewrite (Hall H1 H2); reflexivity.
Qed.

(** *** From the pre-check to the end of the function *)

Variables (nCount : DWORD) (ppIPalObjs ppISyncWaitCtrlrs : WorkArray).
Variables (dwMilliseconds : DWORD) (bAlertable bPrioritize : BOOL).
Variable wtWaitType : WaitType.
Variables (s : S) (le : DWORD).

(** Lines 182-360, entered as the function enters them: [dwRet] holds
    [WAIT_FAILED], and the log is empty. *)
Local Abbreviation from_precheck fWAll :=
  (precheck_onwards nCount ppIPalObjs ppISyncWaitCtrlrs dwMilliseconds bAlertable
     bPrioritize fWAll wtWaitType WAIT_FAILED (mkWorld s le [])).

Lemma trace_after evs (w1 : World S) (P : Event -> Prop) (T : M S DWORD) :
  log w1 = rev evs ++ [] ->
  appends P T ->
  exists rest, trace (snd (T w1)) = evs ++ rest /\ Forall P rest.
Proof.
  intros Hlog HT. destruct (HT w1) as (rest & Hrest & F).
  exists rest. split; [| exact F].
  unfold trace. rewrite Hrest, Hlog, app_nil_r, rev_app_distr, !rev_involutive.
  reflexivity.
Qed.

Lemma from_precheck_run fWAll :
  1 <= nCount <= MAXIMUM_WAIT_OBJECTS ->
  exists evs pc rest,
    PrecheckRun (slots ppISyncWaitCtrlrs) fWAll (Z.to_nat nCount) 0 0 (-1) false evs pc /\
    trace (snd (from_precheck fWAll)) = evs ++ rest /\
    Forall not_prechecking rest /\
    (pc_palErr pc <> NO_ERROR -> Forall not_asking rest) /\
    (pc_palErr pc = NO_ERROR ->
     ((pc_iSignaledObjCount pc =? 0)
      || (fWAll && (pc_iSignaledObjCount pc <? to_int nCount)) = true ->
      Forall not_asking rest) /\
     ((pc_iSignaledObjCount pc =? 0)
      || (fWAll && (pc_iSignaledObjCount pc <? to_int nCount)) = false ->
      exists cons hk (m : nat),
        rest = cons ++ hk /\
        Forall housekeeping hk /\
        existsb is_register cons = false /\
        existsb is_block cons = false /\
        consume_calls cons =
          map (fun j => ((if fWAll then 0 else pc_iSignaledObjIndex pc) + Z.of_nat j,
                         at_index (slots ppISyncWaitCtrlrs)
                           ((if fWAll then 0 else pc_iSignaledObjIndex pc) + Z.of_nat j)))
              (seq 0 m) /\
        (fWAll = false -> m = 1%nat /\ 0 <= pc_iSignaledObjIndex pc < nCount) /\
        (fWAll = true -> existsb is_failed_consume cons = false ->
         m = Z.to_nat nCount) /\
        fst (from_precheck fWAll) =
          if existsb is_failed_consume cons then WAIT_FAILED
          else if fWAll
               then (if pc_fAbandoned pc then WAIT_ABANDONED_0 else WAIT_OBJECT_0)
               else (if pc_fAbandoned pc then WAIT_ABANDONED_0 else WAIT_OBJECT_0)
                    + pc_iSignaledObjIndex pc)).
Proof.
  intros Hn.
  assert (Hint : 0 <= nCount < 2 ^ 31) by count_lia.
  assert (Hpos : (0 < Z.to_nat nCount)%nat) by lia.
  destruct (from_precheck fWAll) as [ret wf] eqn:Hr.
  cbn [fst snd].
  unfold precheck_onwards in Hr. rewrite !(iterations_from_zero Hint) in Hr.
  destruct (precheck_loop_run (Z.to_nat nCount) 0 (slots ppISyncWaitCtrlrs) fWAll 0 (-1)
              false (mkWorld s le [])) as (evs & Hrun & Hlog).
  unfold bind at 1 in Hr.
  destruct (precheck_loop (Z.to_nat nCount) 0 (slots ppISyncWaitCtrlrs) fWAll 0 (-1)
              false (mkWorld s le [])) as [pc w1].
  cbn [fst snd log] in Hrun, Hlog. cbv zeta in Hr.
  exists evs, pc.
  destruct (Z.eqb_spec (pc_palErr pc) NO_ERROR) as [Hok | Hko]; cbn [negb] in Hr.
  - (* the pre-check did not fail *)
    destruct ((pc_iSignaledObjCount pc =? 0)
              || (fWAll && (pc_iSignaledObjCount pc <? to_int nCount))) eqn:Hblock;
      cbn [negb] in Hr.
    + (* blocking is needed *)
      assert (HT : appends not_asking
                (if 0 =? dwMilliseconds
                 then WFMOExIntReleaseControllers nCount ppIPalObjs ppISyncWaitCtrlrs
                        dwMilliseconds bAlertable fWAll NO_ERROR false
                        (pc_iSignaledObjIndex pc) WAIT_TIMEOUT
                 else bind (register_loop (Z.to_nat nCount) 0 (slots ppISyncWaitCtrlrs)
                              wtWaitType bAlertable bPrioritize)
                        (fun palErr =>
                           WFMOExIntReleaseControllers nCount ppIPalObjs
                             ppISyncWaitCtrlrs dwMilliseconds bAlertable fWAll palErr
                             true (pc_iSignaledObjIndex pc) WAIT_FAILED))).
      { destruct (0 =? dwMilliseconds).
        - apply WFMOExIntReleaseControllers_appends.
        - apply appends_bind; [apply register_loop_appends | intros e].
          apply WFMOExIntReleaseControllers_appends. }
      destruct (trace_after evs w1 Hlog HT) as (rest & Htrace & F).
      rewrite Hr in Htrace. cbn [snd] in Htrace.
      exists rest. split; [exact Hrun |]. split; [exact Htrace |].
      split; [revert F; apply Forall_impl, not_asking_not_prechecking |].
      split; [intros; exact F |].
      intros _. split; [intros _; exact F | discriminate].
    + (* the fast path *)
      apply orb_false_iff in Hblock. destruct Hblock as [Hcnt Hall].
      apply Z.eqb_neq in Hcnt.
      assert (Hidx : fWAll = false -> 0 <= pc_iSignaledObjIndex pc < nCount).
      { intros HW.
        destruct (PrecheckRun_wait_any Hrun HW Hpos) as (k & v & Hk & _ & _ & Hv).
        destruct v as [[|] |].
        - destruct Hv as (_ & _ & ->). lia.
        - destruct Hv as (_ & _ & Hc & _). lia.
        - contradiction. }
      assert (Hstart : ((if fWAll then 0 else pc_iSignaledObjIndex pc) <? 0) = false).
      { destruct fWAll; [reflexivity |]. apply Z.ltb_ge. apply Hidx. reflexivity. }
      rewrite Hstart in Hr.
      set (iStartIdx := if fWAll then 0 else pc_iSignaledObjIndex pc) in *.
      set (iEndIdx := if fWAll then to_int nCount else iStartIdx + 1) in *.
      set (base := if pc_fAbandoned pc then WAIT_ABANDONED_0 else WAIT_OBJECT_0) in *.
      destruct (unsignal_loop_run (iterations iStartIdx iEndIdx) iStartIdx
                  (slots ppISyncWaitCtrlrs) w1)
        as (cons & m & Hlog2 & Fcons & Hreg & Hblk & Hfail & Hcalls & Hm & Hm0 & Hmn).
      unfold bind at 1 in Hr.
      destruct (unsignal_loop (iterations iStartIdx iEndIdx) iStartIdx
                  (slots ppISyncWaitCtrlrs) w1) as [e w2].
      cbn [fst snd] in Hlog2, Hfail, Hmn.
      assert (HT : forall d,
                 appends housekeeping
                   (WFMOExIntReleaseControllers nCount ppIPalObjs ppISyncWaitCtrlrs
                      dwMilliseconds bAlertable fWAll e false
                      (pc_iSignaledObjIndex pc) d)).
      { intros d. apply WFMOExIntReleaseControllers_appends_housekeeping. left. reflexivity. }
      assert (Hlog2' : log w2 = rev (evs ++ cons) ++ []).
      { rewrite Hlog2, Hlog, !app_nil_r, rev_app_distr. reflexivity. }
      assert (Hone : fWAll = false -> m = 1%nat).
      { intros HW. subst iEndIdx. rewrite HW in Hm, Hm0.
        assert (Hit : iterations iStartIdx (iStartIdx + 1) = 1%nat).
        { unfold iterations. replace (iStartIdx + 1 - iStartIdx) with 1 by lia.
          reflexivity. }
        rewrite Hit in Hm, Hm0. specialize (Hm0 ltac:(lia)). lia. }
      assert (Hrun2 : exists d,
                 WFMOExIntReleaseControllers nCount ppIPalObjs ppISyncWaitCtrlrs
                   dwMilliseconds bAlertable fWAll e false (pc_iSignaledObjIndex pc) d w2
                 = (ret, wf) /\
                 d = if e =? NO_ERROR then base else WAIT_FAILED).
      { destruct (e =? NO_ERROR); cbn [negb] in Hr; eauto. }
      destruct Hrun2 as (d & Hr2 & Hd). clear Hr.
      destruct (trace_after (evs ++ cons) w2 Hlog2' (HT d)) as (hk & Htrace & Fhk).
      rewrite Hr2 in Htrace. cbn [snd] in Htrace.
      exists (cons ++ hk). split; [exact Hrun |].
      split; [rewrite Htrace, app_assoc; reflexivity |].
      split.
      { apply Forall_app. split; [exact Fcons |].
        revert Fhk. apply Forall_impl. intros ev Hev.
        apply not_asking_not_prechecking, housekeeping_not_asking, Hev. }
      split; [intros; contradiction |].
      intros _. split; [discriminate |]. intros _.
      exists cons, hk, m.
      split; [reflexivity |]. split; [exact Fhk |].
      split; [exact Hreg |]. split; [exact Hblk |]. split; [exact Hcalls |].
      split; [intros HW; split; [apply Hone | apply Hidx]; exact HW |].
      split.
      { intros HW Hnofail. rewrite Hnofail in Hfail.
        symmetry in Hfail. apply negb_false_iff, Z.eqb_eq in Hfail.
        rewrite (Hmn Hfail). subst iEndIdx iStartIdx. rewrite HW.
        apply (iterations_from_zero Hint). }
      assert (Hret : ret = fst (WFMOExIntReleaseControllers nCount ppIPalObjs
                                  ppISyncWaitCtrlrs dwMilliseconds bAlertable fWAll e
                                  false (pc_iSignaledObjIndex pc) d w2))
        by (rewrite Hr2; reflexivity).
      rewrite Hret, Hfail, WFMOExIntReleaseControllers_fst, Hd.
      destruct (e =? NO_ERROR); cbn [negb]; [| reflexivity].
      destruct fWAll; cbn [negb andb]; [reflexivity |].
      assert (Hb : (WAIT_OBJECT_0 =? base) || (WAIT_ABANDONED_0 =? base) = true)
        by (subst base; destruct (pc_fAbandoned pc); reflexivity).
      rewrite Hb.
      specialize (Hidx eq_refl).
      replace (pc_iSignaledObjIndex pc <? 0) with false
        by (symmetry; apply Z.ltb_ge; lia).
      unfold to_DWORD. apply Z.mod_small.
      subst base. change (2 ^ 32) with 4294967296.
      destruct (pc_fAbandoned pc); unfold WAIT_ABANDONED_0, WAIT_OBJECT_0;
        count_lia.
  - (* the pre-check failed *)
    assert (HT : appends housekeeping
              (WFMOExIntReleaseControllers nCount ppIPalObjs ppISyncWaitCtrlrs
                 dwMilliseconds bAlertable fWAll (pc_palErr pc) false
                 (pc_iSignaledObjIndex pc) WAIT_FAILED)).
    { apply WFMOExIntReleaseControllers_appends_housekeeping. left. reflexivity. }
    destruct (trace_after evs w1 Hlog HT) as (rest & Htrace & F).
    rewrite Hr in Htrace. cbn [snd] in Htrace.
    exists rest. split; [exact Hrun |]. split; [exact Htrace |].
    split.
    { revert F. apply Forall_impl. intros ev Hev.
      apply not_asking_not_prechecking, housekeeping_not_asking, Hev. }
    split.
    { intros _. revert F. apply Forall_impl, housekeeping_not_asking. }
    intros; contradiction.
Qed.

(** C6.  The pre-check and the fast path of a wait-any on [nCount] objects
    (lines 184-247, with what follows them).  The pre-check asks the
    controllers of the objects 0, 1, ..., [k] in that order, each through
    its own slot of the controller array, and every object before [k]
    answered "not satisfied".  It stops at [k] because that object is
    satisfied, or because its controller failed, or because it is the last
    object of the request.  When object [k] is satisfied (as it is
    whenever some pre-check of the run found its object satisfied), it is
    the object of lowest index that is: the only consumption asked for is
    that of object [k], through its controller, the thread is neither
    registered nor blocked, and if the consumption succeeds the result
    carries the index [k]. *)
Theorem wait_any_scans_to_first_satisfied :
  1 <= nCount <= MAXIMUM_WAIT_OBJECTS ->
  exists (k : nat) (v : option bool),
    Z.of_nat k < nCount /\
    precheck_calls (trace (snd (from_precheck false))) =
      map (fun j => (Z.of_nat j, at_index (slots ppISyncWaitCtrlrs) (Z.of_nat j)))
          (seq 0 (Datatypes.S k)) /\
    precheck_verdicts (trace (snd (from_precheck false))) =
      repeat (Some false) k ++ [v] /\
    (existsb is_satisfied_precheck (trace (snd (from_precheck false))) = true ->
     v = Some true) /\
    (v = Some true ->
     consume_calls (trace (snd (from_precheck false))) =
       [(Z.of_nat k, at_index (slots ppISyncWaitCtrlrs) (Z.of_nat k))] /\
     existsb is_register (trace (snd (from_precheck false))) = false /\
     existsb is_block (trace (snd (from_precheck false))) = false /\
     (existsb is_failed_consume (trace (snd (from_precheck false))) = false ->
      fst (from_precheck false) = WAIT_OBJECT_0 + Z.of_nat k \/
      fst (from_precheck false) = WAIT_ABANDONED_0 + Z.of_nat k)) /\
    (v = Some false ->
     Z.of_nat (Datatypes.S k) = nCount /\
     consume_calls (trace (snd (from_precheck false))) = []) /\
    (v = None -> consume_calls (trace (snd (from_precheck false))) = []).
Proof.
  intros Hn.
  assert (Hpos : (0 < Z.to_nat nCount)%nat) by lia.
  destruct (from_precheck_run false Hn)
    as (evs & pc & rest & Hrun & Ht & Fp & Hko & Hok).
  destruct (PrecheckRun_wait_any Hrun eq_refl Hpos) as (k & v & Hk & Hcalls & Hverd & Hv).
  destruct (not_prechecking_readers Fp) as (R1 & R2 & _ & _ & _ & R3 & _).
  destruct (PrecheckRun_events Hrun) as (E1 & E2 & E3 & E4).
  exists k, v. rewrite Ht.
  split; [lia |].
  split; [unfold precheck_calls in *; rewrite flat_map_app, R1, app_nil_r; exact Hcalls |].
  split; [unfold precheck_verdicts in *; rewrite flat_map_app, R2, app_nil_r; exact Hverd |].
  split.
  { rewrite existsb_app, R3, orb_false_r, satisfied_verdict, Hverd, existsb_app.
    assert (Hrep : existsb (fun v0 => match v0 with Some true => true | _ => false end)
                     (repeat (Some false) k) = false).
    { clear. induction k as [| k IH]; cbn; auto. }
    rewrite Hrep. cbn. destruct v as [[|] |]; try discriminate. reflexivity. }
  split; [| split].
  - intros ->. destruct Hv as (Hpal & Hcnt & Hidx).
    destruct (Hok Hpal) as [_ Hfast].
    destruct Hfast as (cons & hk & m & -> & Fhk & Creg & Cblk & Ccalls & Hone & Hfull & Hret).
    { rewrite Hcnt. reflexivity. }
    destruct (Hone eq_refl) as [-> _].
    destruct (housekeeping_readers Fhk) as (K1 & K2 & K3 & K4).
    cbn [seq map] in Ccalls. rewrite Z.add_0_r, Hidx in Ccalls.
    split.
    { rewrite !consume_calls_app, E1, K1, Ccalls. reflexivity. }
    split; [rewrite !existsb_app, E3, Creg, K3; reflexivity |].
    split; [rewrite !existsb_app, E4, Cblk, K4; reflexivity |].
    rewrite !existsb_app, E2, K2, orb_false_r. cbn [orb]. intros Hc.
    rewrite Hret, Hc, Hidx.
    destruct (pc_fAbandoned pc); [right | left]; reflexivity.
  - intros ->. destruct Hv as (HS & Hpal & Hcnt & _).
    destruct (Hok Hpal) as [Hslow _].
    split; [lia |].
    rewrite consume_calls_app, E1. apply not_asking_consume_calls, Hslow.
    rewrite Hcnt. reflexivity.
  - intros ->.
    rewrite consume_calls_app, E1. apply not_asking_consume_calls, Hko, Hv.
Qed.


End FromPrecheck.

(** * The loops for any number of objects *)

Section Loops.

Context {S : Type}.
Context {codes : PalErrorCodes}.
Context {objmgr : IPalObjectManager S} {palobj : IPalObject S}.
Context {synchmgr : IPalSynchronizationManager S} {waitctrl : ISynchWaitController S}.
Context {malloc : PalMalloc S}.

Lemma duplicate_inner_spec n j ppIPalObjs objectToCheck :
  duplicate_inner n j ppIPalObjs objectToCheck = true <->
  In objectToCheck (slots_from n j ppIPalObjs).
Proof.
  revert j. induction n as [| n IH]; intros j; cbn.
  - split; [discriminate | contradiction].
  - unfold at_index.
    match goal with
    | |- context [if ?b then _ else _] => destruct b eqn:E
    end.
    + apply Z.eqb_eq in E. split; [intros _; left; exact E | reflexivity].
    + apply Z.eqb_neq in E. rewrite IH.
      split; [intros H; right; exact H | intros [H | H]; [contradiction | exact H]].
Qed.

Lemma duplicate_outer_spec n :
  forall i nCount ppIPalObjs,
    Z.of_nat n + i = nCount - 1 ->
    (duplicate_outer n i nCount ppIPalObjs = false <->
     NoDup (slots_from (Datatypes.S n) i ppIPalObjs)).
Proof.
  induction n as [| n IH]; intros i nCount ppIPalObjs Hn.
  - cbn. split; [| reflexivity].
    intros _. constructor; [intros [] | constructor].
  - cbn [duplicate_outer].
    assert (Hit : iterations (i + 1) nCount = Datatypes.S n).
    { unfold iterations. apply Nat2Z.inj. rewrite Z2Nat.id by lia. lia. }
    rewrite Hit.
    change (slots_from (Datatypes.S (Datatypes.S n)) i ppIPalObjs)
      with (nth (Z.to_nat i) ppIPalObjs NULL
            :: slots_from (Datatypes.S n) (i + 1) ppIPalObjs).
    rewrite NoDup_cons_iff.
    destruct (duplicate_inner (Datatypes.S n) (i + 1) ppIPalObjs (at_index ppIPalObjs i))
      eqn:Hin.
    + apply duplicate_inner_spec in Hin.
      split; [discriminate | intros [Hno _]; contradiction].
    + rewrite (IH (i + 1) nCount ppIPalObjs) by lia.
      split; [| tauto].
      intros Hnd. split; [| exact Hnd].
      intros HIn. apply duplicate_inner_spec in HIn.
      change (nth (Z.to_nat i) ppIPalObjs NULL) with (at_index ppIPalObjs i) in HIn.
      congruence.
Qed.

(** X14.  The duplicate check of a wait-all, on a count the function
    accepts: it finds no duplicate exactly when the first [nCount] slots of
    the object array are pairwise distinct. *)
Theorem has_duplicate_iff_not_NoDup nCount ppIPalObjs :
  1 <= nCount <= MAXIMUM_WAIT_OBJECTS ->
  (has_duplicate nCount ppIPalObjs = false <->
   NoDup (first_slots nCount ppIPalObjs)).
Proof.
  intros H. unfold has_duplicate, first_slots, iterations, to_DWORD.
  rewrite to_int_small by count_lia.
  rewrite Z.mod_small by count_lia.
  rewrite Z.sub_0_r.
  replace (Z.to_nat nCount) with (Datatypes.S (Z.to_nat (nCount - 1)))
    by (rewrite <- Z2Nat.inj_succ by lia; f_equal; lia).
  apply duplicate_outer_spec. rewrite Z2Nat.id by lia. lia.
Qed.

(** X15.  The pre-check loop of a wait-all asks the controllers at [i],
    [i + 1], ... in that order, each through its own slot of the
    controller array, and stops only at one that fails.  When none fails
    it has asked all [n] of them, [iSignaledObjCount] has grown by the
    number of satisfied objects, and [fAbandoned] holds the abandonment
    reported by any of them; when one fails it is the last one asked. *)
Theorem precheck_loop_wait_all n :
  forall i ctrls cnt idx fAb (w : World S),
    exists evs (m : nat),
      log (snd (precheck_loop n i ctrls true cnt idx fAb w)) = rev evs ++ log w /\
      (m <= n)%nat /\
      precheck_calls evs =
        map (fun j => (i + Z.of_nat j, at_index ctrls (i + Z.of_nat j))) (seq 0 m) /\
      precheck_indices evs = map (fun j => i + Z.of_nat j) (seq 0 m) /\
      (pc_palErr (fst (precheck_loop n i ctrls true cnt idx fAb w)) = NO_ERROR ->
       m = n /\
       pc_iSignaledObjCount (fst (precheck_loop n i ctrls true cnt idx fAb w)) =
         cnt + Z.of_nat (length (filter is_satisfied_precheck evs)) /\
       pc_fAbandoned (fst (precheck_loop n i ctrls true cnt idx fAb w)) =
         fAb || existsb is_abandoned_precheck evs /\
       existsb is_failed_precheck evs = false) /\
      (pc_palErr (fst (precheck_loop n i ctrls true cnt idx fAb w)) <> NO_ERROR ->
       (0 < m)%nat /\ existsb is_failed_precheck evs = true).
Proof.
  intros i ctrls cnt idx fAb w.
  destruct (precheck_loop_run n i ctrls true cnt idx fAb w) as (evs & Hrun & Hlog).
  destruct (PrecheckRun_calls Hrun) as (m & Hm & Hcalls & Hidx & Hpos & Hall).
  destruct (PrecheckRun_locals Hrun) as [Lok Lko].
  exists evs, m.
  split; [exact Hlog |]. split; [exact Hm |].
  split; [exact Hcalls |]. split; [exact Hidx |].
  split.
  - intros Hok. destruct (Lok Hok) as (L1 & L2 & L3).
    split; [apply Hall; [reflexivity | exact Hok] |].
    split; [exact L2 |]. split; [exact L3 | exact L1].
  - intros Hko. split; [apply Hpos, Hko | apply Lko, Hko].
Qed.

(** X16.  The registration loop registers the thread with the controllers
    at [i], [i + 1], ... in that order, each through its own slot of the
    controller array, with the wait type and the flags of the request, and
    stops at the first one that fails.  It answers [NO_ERROR] after [n]
    successful registrations and leaves the last error alone; otherwise it
    answers the code of the failing controller, the last one asked, and
    has stored that code as the last error. *)
Theorem register_loop_stops_at_first_failure n :
  forall i ctrls wt al pr (w : World S),
    exists evs (m : nat),
      log (snd (register_loop n i ctrls wt al pr w)) = rev evs ++ log w /\
      (m <= n)%nat /\
      registrations evs =
        map (fun j => (i + Z.of_nat j, at_index ctrls (i + Z.of_nat j), wt,
                       TRUE =? al, negb (pr =? FALSE)))
            (seq 0 m) /\
      map fst (register_calls evs) = map (fun j => i + Z.of_nat j) (seq 0 m) /\
      (fst (register_loop n i ctrls wt al pr w) = NO_ERROR ->
       m = n /\
       map snd (register_calls evs) = repeat NO_ERROR n /\
       lastError (snd (register_loop n i ctrls wt al pr w)) = lastError w) /\
      (fst (register_loop n i ctrls wt al pr w) <> NO_ERROR ->
       exists k : nat,
         m = Datatypes.S k /\
         map snd (register_calls evs) =
           repeat NO_ERROR k ++ [fst (register_loop n i ctrls wt al pr w)] /\
         lastError (snd (register_loop n i ctrls wt al pr w)) =
           fst (register_loop n i ctrls wt al pr w)).
Proof.
  induction n as [| n IH]; intros i ctrls wt al pr w.
  - exists (@nil Event), 0%nat. cbn. repeat split; auto; congruence.
  - cbn [register_loop].
    unfold bind, do_RegisterWaitingThread, call, SetLastError, ret.
    destruct (RegisterWaitingThread (at_index ctrls i) wt (to_DWORD i)
                (TRUE =? al) (negb (pr =? FALSE)) (ext w)) as [e s1] eqn:Hcall.
    cbn [fst snd].
    destruct (e =? NO_ERROR) eqn:He; cbn [negb fst snd].
    + apply Z.eqb_eq in He. subst e.
      match goal with
      | |- context [register_loop n (i + 1) ctrls wt al pr ?w1] =>
          destruct (IH (i + 1) ctrls wt al pr w1)
            as (evs & m & Hlog & Hm & Hreg & Hidx & Hok & Hko)
      end.
      exists (EvRegisterWaitingThread i (at_index ctrls i) wt (TRUE =? al)
                (negb (pr =? FALSE)) NO_ERROR :: evs), (Datatypes.S m).
      split.
      { rewrite Hlog. cbn. now rewrite <- app_assoc. }
      split; [lia |].
      split.
      { unfold registrations in *. cbn [flat_map app]. rewrite Hreg.
        change (seq 0 (Datatypes.S m)) with (0%nat :: seq 1 m).
        rewrite <- seq_shift, map_cons, map_map.
        change (Z.of_nat 0) with 0. rewrite Z.add_0_r. f_equal.
        apply map_ext. intros j.
        replace (i + 1 + Z.of_nat j) with (i + Z.of_nat (Datatypes.S j)) by lia.
        reflexivity. }
      split.
      { cbn. rewrite Z.add_0_r, Hidx, <- seq_shift, map_map.
        f_equal. apply map_ext. intros j. lia. }
      split.
      * intros Hr. destruct (Hok Hr) as (Hmn & Hs & Hle). cbn. rewrite Hs. auto.
      * intros Hr. destruct (Hko Hr) as (k & Hk & Hs & Hle).
        exists (Datatypes.S k). cbn. rewrite Hs. auto.
    + exists [EvRegisterWaitingThread i (at_index ctrls i) wt (TRUE =? al)
                (negb (pr =? FALSE)) e; EvSetLastError e], 1%nat.
      unfold registrations. cbn. rewrite Z.add_0_r. apply Z.eqb_neq in He.
      repeat split; auto; try contradiction; try lia.
      intros _. exists 0%nat. auto.
Qed.

(** X17.  [WaitForSingleObject] never leaks: whatever the collaborators
    answer, when it returns it has released the reference it took on the
    object once and holds no wait controller; and it never blocks while
    it holds one. *)
Theorem WaitForSingleObject_releases_everything bPrioritizeDefault
    (hHandle : HANDLE) (dwMilliseconds : DWORD) (s : S) (le : DWORD) :
  pinned_after
    (trace (snd (WaitForSingleObject bPrioritizeDefault hHandle dwMilliseconds
                   (mkWorld s le [])))) [] = Some [] /\
  held_after
    (trace (snd (WaitForSingleObject bPrioritizeDefault hHandle dwMilliseconds
                   (mkWorld s le [])))) [] = Some [].
Proof.
  unfold WaitForSingleObject.
  pose proof (single_object_run [hHandle] FALSE dwMilliseconds FALSE
                bPrioritizeDefault s le) as R.
  cbv zeta in R. unfold wait_call in R.
  destruct (single_object_run_balanced R) as [Hpin Hheld].
  split; [exact Hpin | apply Hheld; reflexivity].
Qed.

End Loops.

(** * Inline functions and macros of [pal.h] *)

(** ** The rotations *)

Lemma land_0x1f shift : Z.land shift 0x1f = shift mod 32.
Proof. change 0x1f with (Z.ones 5). rewrite Z.land_ones by lia. reflexivity. Qed.

Lemma u32_high_bits v i : 0 <= v < 2 ^ 32 -> 32 <= i -> Z.testbit v i = false.
Proof.
  intros Hv Hi. rewrite <- (Z.mod_small v (2 ^ 32)) by lia.
  apply Z.mod_pow2_bits_high. lia.
Qed.

(** The bits of the two rotations, for a shift [k] between 1 and 31. *)
Lemma rotl_value v k :
  0 <= v < 2 ^ 32 -> 0 < k < 32 ->
  forall i, 0 <= i ->
    Z.testbit (Z.lor (Z.shiftl v k mod 2 ^ 32) (Z.shiftr v (32 - k))) i =
    (i <? 32) && Z.testbit v ((i - k) mod 32).
Proof.
  intros Hv Hk i Hi.
  rewrite Z.lor_spec, Z.testbit_mod_pow2, Z.shiftr_spec, Z.shiftl_spec by lia.
  destruct (Z.ltb_spec i 32) as [Hlt | Hge]; cbn [andb].
  - destruct (Z.ltb_spec i k) as [Hik | Hik].
    + rewrite (Z.testbit_neg_r v (i - k)) by lia. cbn [orb].
      f_equal. apply Z.mod_unique with (q := -1); lia.
    + rewrite (@u32_high_bits v (i + (32 - k)) Hv) by lia. rewrite orb_false_r.
      f_equal. symmetry. apply Z.mod_small. lia.
  - apply u32_high_bits; [exact Hv | lia].
Qed.

Lemma rotr_value v k :
  0 <= v < 2 ^ 32 -> 0 < k < 32 ->
  forall i, 0 <= i ->
    Z.testbit (Z.lor (Z.shiftr v k) (Z.shiftl v (32 - k) mod 2 ^ 32)) i =
    (i <? 32) && Z.testbit v ((i + k) mod 32).
Proof.
  intros Hv Hk i Hi.
  rewrite Z.lor_spec, Z.testbit_mod_pow2, Z.shiftr_spec, Z.shiftl_spec by lia.
  destruct (Z.ltb_spec i 32) as [Hlt | Hge]; cbn [andb].
  - destruct (Z.ltb_spec (i + k) 32) as [Hik | Hik].
    + rewrite (Z.testbit_neg_r v (i - (32 - k))) by lia. rewrite orb_false_r.
      f_equal. symmetry. apply Z.mod_small. lia.
    + rewrite (@u32_high_bits v (i + k) Hv) by lia. cbn [orb].
      f_equal. apply Z.mod_unique with (q := 1); lia.
  - rewrite orb_false_r. apply u32_high_bits; [exact Hv | lia].
Qed.

Lemma rot_range a b : 0 <= a < 2 ^ 32 -> 0 <= b < 2 ^ 32 -> 0 <= Z.lor a b < 2 ^ 32.
Proof.
  intros Ha Hb. split; [apply Z.lor_nonneg; lia |].
  destruct (Z.eq_dec (Z.lor a b) 0) as [-> | Hnz]; [lia |].
  apply Z.log2_lt_pow2; [assert (0 <= Z.lor a b) by (apply Z.lor_nonneg; lia); lia |].
  rewrite Z.log2_lor by lia.
  apply Z.max_lub_lt.
  - destruct (Z.eq_dec a 0) as [-> | ?]; [cbn; lia | apply Z.log2_lt_pow2; lia].
  - destruct (Z.eq_dec b 0) as [-> | ?]; [cbn; lia | apply Z.log2_lt_pow2; lia].
Qed.

Lemma Some_eq {A} (x y : A) : Some x = Some y -> x = y.
Proof. congruence. Qed.

(** The two functions by the remainder of the shift. *)
Lemma rotl_eq value shift :
  _rotl value shift =
  if shift mod 32 =? 0 then None
  else Some (Z.lor (Z.shiftl value (shift mod 32) mod 2 ^ 32)
                   (Z.shiftr value (32 - shift mod 32))).
Proof.
  unfold _rotl, shl32, shr32, CHAR_BIT. rewrite land_0x1f.
  change (4 * 8) with 32.
  pose proof (Z.mod_pos_bound shift 32 eq_refl) as Hk.
  destruct (Z.eqb_spec (shift mod 32) 0) as [E | E].
  - rewrite E. reflexivity.
  - destruct (Z.leb_spec 0 (shift mod 32)), (Z.ltb_spec (shift mod 32) 32),
      (Z.leb_spec 0 (32 - shift mod 32)), (Z.ltb_spec (32 - shift mod 32) 32);
      cbn [andb]; try lia; reflexivity.
Qed.

Lemma rotr_eq value shift :
  _rotr value shift =
  if shift mod 32 =? 0 then None
  else Some (Z.lor (Z.shiftr value (shift mod 32))
                   (Z.shiftl value (32 - shift mod 32) mod 2 ^ 32)).
Proof.
  unfold _rotr, shl32, shr32, CHAR_BIT. rewrite land_0x1f.
  change (4 * 8) with 32.
  pose proof (Z.mod_pos_bound shift 32 eq_refl) as Hk.
  destruct (Z.eqb_spec (shift mod 32) 0) as [E | E].
  - rewrite E. reflexivity.
  - destruct (Z.leb_spec 0 (shift mod 32)), (Z.ltb_spec (shift mod 32) 32),
      (Z.leb_spec 0 (32 - shift mod 32)), (Z.ltb_spec (32 - shift mod 32) 32);
      cbn [andb]; try lia; reflexivity.
Qed.

Lemma shiftr_u32 v n : 0 <= v < 2 ^ 32 -> 0 <= n -> 0 <= Z.shiftr v n < 2 ^ 32.
Proof.
  intros Hv Hn. split; [apply Z.shiftr_nonneg; lia |].
  rewrite Z.shiftr_div_pow2 by lia.
  assert (HP : 0 < 2 ^ n) by (apply Z.pow_pos_nonneg; lia).
  apply Z.div_lt_upper_bound; [exact HP |].
  change (2 ^ 32) with 4294967296 in *. nia.
Qed.

Lemma rotl_u32 v k :
  0 <= v < 2 ^ 32 -> 0 < k < 32 ->
  0 <= Z.lor (Z.shiftl v k mod 2 ^ 32) (Z.shiftr v (32 - k)) < 2 ^ 32.
Proof.
  intros Hv Hk. apply rot_range.
  - apply Z.mod_pos_bound. lia.
  - apply shiftr_u32; lia.
Qed.

Lemma rotr_u32 v k :
  0 <= v < 2 ^ 32 -> 0 < k < 32 ->
  0 <= Z.lor (Z.shiftr v k) (Z.shiftl v (32 - k) mod 2 ^ 32) < 2 ^ 32.
Proof.
  intros Hv Hk. apply rot_range.
  - apply shiftr_u32; lia.
  - apply Z.mod_pos_bound. lia.
Qed.

(** X25.  [_rotl] and [_rotr] on a 32-bit value.  A shift that is a
    multiple of 32, zero included, makes the function shift by the full
    width of the word, which has no result; for any other shift the
    result is a 32-bit value whose bit [i] is bit [(i - shift) mod 32] of
    the value for [_rotl], and bit [(i + shift) mod 32] for [_rotr]. *)
Theorem rotations_spec value shift :
  0 <= value < 2 ^ 32 ->
  (_rotl value shift = None <-> shift mod 32 = 0) /\
  (_rotr value shift = None <-> shift mod 32 = 0) /\
  (forall r, _rotl value shift = Some r ->
     0 <= r < 2 ^ 32 /\
     forall i, 0 <= i < 32 -> Z.testbit r i = Z.testbit value ((i - shift) mod 32)) /\
  (forall r, _rotr value shift = Some r ->
     0 <= r < 2 ^ 32 /\
     forall i, 0 <= i < 32 -> Z.testbit r i = Z.testbit value ((i + shift) mod 32)).
Proof.
  intros Hv. rewrite rotl_eq, rotr_eq.
  pose proof (Z.mod_pos_bound shift 32 eq_refl) as Hk.
  destruct (Z.eqb_spec (shift mod 32) 0) as [E | E].
  - repeat split; try tauto; discriminate.
  - split; [split; [discriminate | contradiction] |].
    split; [split; [discriminate | contradiction] |].
    split; intros r Hr; apply Some_eq in Hr; subst r.
    + split; [apply rotl_u32; lia |].
      intros i Hi. rewrite rotl_value by lia.
      replace (i <? 32) with true by (symmetry; apply Z.ltb_lt; lia). cbn [andb].
      f_equal. apply Zminus_mod_idemp_r.
    + split; [apply rotr_u32; lia |].
      intros i Hi. rewrite rotr_value by lia.
      replace (i <? 32) with true by (symmetry; apply Z.ltb_lt; lia). cbn [andb].
      f_equal. apply Zplus_mod_idemp_r.
Qed.

(** X26.  [_rotr] undoes [_rotl] by the same shift, and [_rotl] undoes
    [_rotr]. *)
Theorem rotations_are_inverse value shift r :
  0 <= value < 2 ^ 32 ->
  (_rotl value shift = Some r -> _rotr r shift = Some value) /\
  (_rotr value shift = Some r -> _rotl r shift = Some value).
Proof.
  intros Hv. rewrite !rotl_eq, !rotr_eq.
  pose proof (Z.mod_pos_bound shift 32 eq_refl) as Hk.
  destruct (Z.eqb_spec (shift mod 32) 0) as [E | E]; [split; discriminate |].
  assert (Hk' : 0 < shift mod 32 < 32) by lia.
  split; intros Hr; apply Some_eq in Hr; f_equal.
  - pose proof (rotl_u32 Hv Hk') as Hrange. rewrite Hr in Hrange.
    apply Z.bits_inj'. intros i Hi.
    rewrite rotr_value by assumption.
    destruct (Z.ltb_spec i 32) as [Hlt | Hge]; cbn [andb].
    + rewrite <- Hr. rewrite rotl_value by (try assumption; apply Z.mod_pos_bound; lia).
      replace ((i + shift mod 32) mod 32 <? 32) with true
        by (symmetry; apply Z.ltb_lt; apply Z.mod_pos_bound; lia).
      cbn [andb]. f_equal.
      rewrite Zminus_mod_idemp_l.
      replace (i + shift mod 32 - shift mod 32) with i by lia.
      apply Z.mod_small. lia.
    + symmetry. apply u32_high_bits; [exact Hv | lia].
  - pose proof (rotr_u32 Hv Hk') as Hrange. rewrite Hr in Hrange.
    apply Z.bits_inj'. intros i Hi.
    rewrite rotl_value by assumption.
    destruct (Z.ltb_spec i 32) as [Hlt | Hge]; cbn [andb].
    + rewrite <- Hr. rewrite rotr_value by (try assumption; apply Z.mod_pos_bound; lia).
      replace ((i - shift mod 32) mod 32 <? 32) with true
        by (symmetry; apply Z.ltb_lt; apply Z.mod_pos_bound; lia).
      cbn [andb]. f_equal.
      rewrite Zplus_mod_idemp_l.
      replace (i - shift mod 32 + shift mod 32) with i by lia.
      apply Z.mod_small. lia.
    + symmetry. apply u32_high_bits; [exact Hv | lia].
Qed.

(** ** The status codes *)

Lemma lor_high a b n :
  0 <= n -> 0 <= a < 2 ^ n -> Z.lor a (b * 2 ^ n) = a + b * 2 ^ n.
Proof.
  intros Hn Ha.
  assert (Hland : Z.land a (b * 2 ^ n) = 0).
  { apply Z.bits_inj'. intros i Hi. rewrite Z.land_spec, Z.bits_0.
    destruct (Z.lt_ge_cases i n) as [Hlt | Hge].
    - rewrite Z.mul_pow2_bits_low by lia. apply andb_false_r.
    - rewrite <- (Z.mod_small a (2 ^ n)) by lia.
      rewrite Z.mod_pow2_bits_high by lia. reflexivity. }
  rewrite <- Z.lxor_lor by exact Hland.
  symmetry. apply Z.add_nocarry_lxor. exact Hland.
Qed.

(** The bit operations of the status macros as arithmetic. *)
Ltac to_arith :=
  unfold SUCCEEDED, FAILED, IS_ERROR, HRESULT_CODE, HRESULT_FACILITY, HRESULT_SEVERITY,
    SEVERITY_ERROR, SEVERITY_SUCCESS, FACILITY_WIN32 in *;
  change 0xFFFF with (Z.ones 16) in *;
  change 0x1fff with (Z.ones 13);
  repeat match goal with
         | |- context [Z.land ?a 1] => change (Z.land a 1) with (Z.land a (Z.ones 1))
         end;
  rewrite ?Z.land_ones, ?Z.shiftr_div_pow2, ?Z.shiftl_mul_pow2 by lia;
  change (2 ^ 1) with 2 in *; change (2 ^ 13) with 8192 in *;
  change (2 ^ 16) with 65536 in *; change (2 ^ 31) with 2147483648 in *;
  change (2 ^ 32) with 4294967296 in *.

Lemma to_int_cases d :
  (0 <= d mod 2 ^ 32 < 2 ^ 31 /\ to_int d = d mod 2 ^ 32) \/
  (2 ^ 31 <= d mod 2 ^ 32 < 2 ^ 32 /\ to_int d = d mod 2 ^ 32 - 2 ^ 32).
Proof.
  unfold to_int. cbv zeta.
  pose proof (Z.mod_pos_bound d (2 ^ 32) eq_refl) as Hr.
  destruct (Z.ltb_spec (d mod 2 ^ 32) (2 ^ 31)); [left | right]; split; auto; lia.
Qed.

Lemma to_int_signed v : - 2 ^ 31 <= v < 2 ^ 31 -> to_int v = v.
Proof.
  intros Hv. unfold to_int. cbv zeta.
  change (2 ^ 31) with 2147483648 in *; change (2 ^ 32) with 4294967296 in *.
  destruct (Z.ltb_spec (v mod 4294967296) 2147483648) as [H | H];
    revert H; Z.div_mod_to_equations; lia.
Qed.

(** X27.  The three tests of the sign of a status agree: [FAILED] is the
    negation of [SUCCEEDED], [IS_ERROR] (an unsigned shift) answers as
    [FAILED] (a signed comparison), and [HRESULT_SEVERITY] (an arithmetic
    shift and a mask) is [SEVERITY_ERROR] exactly on the failed ones. *)
Theorem status_tests_agree (Status : Z) :
  FAILED Status = negb (SUCCEEDED Status) /\
  IS_ERROR Status = FAILED Status /\
  HRESULT_SEVERITY (to_int Status) =
    (if FAILED Status then SEVERITY_ERROR else SEVERITY_SUCCESS).
Proof.
  split; [unfold FAILED, SUCCEEDED; rewrite Z.geb_leb; apply Z.ltb_antisym |].
  to_arith. unfold to_DWORD.
  destruct (to_int_cases Status) as [[Hr ->] | [Hr ->]];
    change (2 ^ 31) with 2147483648 in *; change (2 ^ 32) with 4294967296 in *;
    set (r := Status mod 4294967296) in *; clearbody r.
  - destruct (Z.ltb_spec r 0); [lia |].
    split; [apply Z.eqb_neq |]; Z.div_mod_to_equations; lia.
  - destruct (Z.ltb_spec (r - 4294967296) 0); [| lia].
    split; [apply Z.eqb_eq |]; Z.div_mod_to_equations; lia.
Qed.

(** X28.  The fields of a status built by [MAKE_HRESULT] from a severity
    of 0 or 1, a facility of 15 bits and a code of 16 bits: the severity
    and the code are read back as given, and the status is failed exactly
    when the severity is [SEVERITY_ERROR].  [HRESULT_FACILITY] reads back
    the low 13 bits of the facility only. *)
Theorem MAKE_HRESULT_fields sev fac code :
  0 <= sev <= 1 -> 0 <= fac < 2 ^ 15 -> 0 <= code < 2 ^ 16 ->
  HRESULT_SEVERITY (MAKE_HRESULT sev fac code) = sev /\
  HRESULT_FACILITY (MAKE_HRESULT sev fac code) = fac mod 2 ^ 13 /\
  HRESULT_CODE (MAKE_HRESULT sev fac code) = code /\
  FAILED (MAKE_HRESULT sev fac code) = (sev =? SEVERITY_ERROR).
Proof.
  intros Hsev Hfac Hcode.
  assert (Hval : MAKE_HRESULT sev fac code = code + fac * 2 ^ 16 + sev * 2 ^ 31 - sev * 2 ^ 32).
  { unfold MAKE_HRESULT, to_DWORD.
    change (2 ^ 15) with 32768 in *. change (2 ^ 16) with 65536 in *.
    rewrite (Z.mod_small sev), (Z.mod_small fac), (Z.mod_small code)
      by (change (2 ^ 32) with 4294967296; lia).
    rewrite !Z.shiftl_mul_pow2 by lia.
    rewrite (Z.mod_small (sev * 2 ^ 31)), (Z.mod_small (fac * 2 ^ 16))
      by (change (2 ^ 32) with 4294967296; change (2 ^ 31) with 2147483648;
          change (2 ^ 16) with 65536; lia).
    rewrite (Z.lor_comm (sev * 2 ^ 31)).
    rewrite lor_high
      by (change (2 ^ 31) with 2147483648; change (2 ^ 16) with 65536; lia).
    rewrite Z.lor_comm.
    replace (fac * 2 ^ 16 + sev * 2 ^ 31) with ((fac + sev * 2 ^ 15) * 2 ^ 16)
      by (change (2 ^ 31) with 2147483648; change (2 ^ 16) with 65536;
          change (2 ^ 15) with 32768; lia).
    rewrite lor_high by (change (2 ^ 16) with 65536; lia).
    change (2 ^ 31) with 2147483648; change (2 ^ 16) with 65536;
      change (2 ^ 15) with 32768; change (2 ^ 32) with 4294967296.
    destruct (to_int_cases (code + (fac + sev * 32768) * 65536)) as [[Hr ->] | [Hr ->]];
      change (2 ^ 31) with 2147483648 in *; change (2 ^ 32) with 4294967296 in *;
      rewrite Z.mod_small in * by lia; lia. }
  rewrite Hval. clear Hval. to_arith.
  assert (Hs : sev = 0 \/ sev = 1) by lia.
  change (2 ^ 15) with 32768 in *.
  repeat split.
  - Z.div_mod_to_equations. lia.
  - Z.div_mod_to_equations. lia.
  - Z.div_mod_to_equations. lia.
  - rewrite to_int_signed
      by (change (2 ^ 31) with 2147483648; destruct Hs as [-> | ->]; lia).
    destruct Hs as [-> | ->]; [apply Z.ltb_ge | apply Z.ltb_lt]; lia.
Qed.

Lemma to_int_range d : - 2 ^ 31 <= to_int d < 2 ^ 31.
Proof.
  destruct (to_int_cases d) as [[Hr ->] | [Hr ->]];
    change (2 ^ 31) with 2147483648 in *; change (2 ^ 32) with 4294967296 in *; lia.
Qed.

Lemma HRESULT_FROM_WIN32_positive x :
  0 < to_int x -> HRESULT_FROM_WIN32 x = x mod 2 ^ 16 - 2147024896.
Proof.
  intros Hx. unfold HRESULT_FROM_WIN32, FACILITY_WIN32.
  destruct (Z.leb_spec (to_int x) 0) as [H | _]; [lia |].
  change 0x0000FFFF with (Z.ones 16). rewrite Z.land_ones by lia.
  pose proof (Z.mod_pos_bound x (2 ^ 16) eq_refl) as Hc.
  change (Z.shiftl 7 16) with (7 * 2 ^ 16).
  rewrite lor_high by lia.
  change 0x80000000 with (1 * 2 ^ 31).
  rewrite lor_high
    by (change (2 ^ 31) with 2147483648; change (2 ^ 16) with 65536 in *; lia).
  set (c := x mod 2 ^ 16) in *. clearbody c.
  destruct (to_int_cases (c + 7 * 2 ^ 16 + 1 * 2 ^ 31)) as [[Hr ->] | [Hr ->]];
    change (2 ^ 31) with 2147483648 in *; change (2 ^ 32) with 4294967296 in *;
    change (2 ^ 16) with 65536 in *;
    rewrite Z.mod_small in Hr |- * by lia; lia.
Qed.

(** X29.  [HRESULT_FROM_WIN32]: a value that is zero or negative as a
    32-bit signed integer is returned as it is; a positive one becomes a
    failed status of facility [FACILITY_WIN32] whose code is the low 16
    bits of the value.  Only zero maps to a status that succeeded, and
    applying the macro twice is applying it once. *)
Theorem HRESULT_FROM_WIN32_spec (x : Z) :
  (to_int x <= 0 -> HRESULT_FROM_WIN32 x = to_int x) /\
  (0 < to_int x ->
   HRESULT_SEVERITY (HRESULT_FROM_WIN32 x) = SEVERITY_ERROR /\
   HRESULT_FACILITY (HRESULT_FROM_WIN32 x) = FACILITY_WIN32 /\
   HRESULT_CODE (HRESULT_FROM_WIN32 x) = x mod 2 ^ 16) /\
  SUCCEEDED (HRESULT_FROM_WIN32 x) = (to_int x =? 0) /\
  HRESULT_FROM_WIN32 (HRESULT_FROM_WIN32 x) = HRESULT_FROM_WIN32 x.
Proof.
  pose proof (to_int_range x) as Hrange.
  assert (Hneg : to_int x <= 0 -> HRESULT_FROM_WIN32 x = to_int x).
  { intros Hx. unfold HRESULT_FROM_WIN32.
    destruct (Z.leb_spec (to_int x) 0); [reflexivity | lia]. }
  split; [exact Hneg |].
  pose proof (Z.mod_pos_bound x (2 ^ 16) eq_refl) as Hc.
  split.
  { intros Hx. rewrite (@HRESULT_FROM_WIN32_positive x Hx). to_arith.
    repeat split; Z.div_mod_to_equations; lia. }
  destruct (Z.lt_ge_cases 0 (to_int x)) as [Hx | Hx].
  - rewrite (@HRESULT_FROM_WIN32_positive x Hx).
    change (2 ^ 16) with 65536 in *. change (2 ^ 31) with 2147483648 in *.
    split.
    + unfold SUCCEEDED. rewrite to_int_signed by (change (2 ^ 31) with 2147483648; lia).
      rewrite Z.geb_leb.
      destruct (Z.leb_spec 0 (x mod 65536 - 2147024896)), (Z.eqb_spec (to_int x) 0);
        try lia; reflexivity.
    + unfold HRESULT_FROM_WIN32 at 1.
      rewrite to_int_signed by (change (2 ^ 31) with 2147483648; lia).
      destruct (Z.leb_spec (x mod 65536 - 2147024896) 0); [reflexivity | lia].
  - rewrite (Hneg Hx).
    split.
    + unfold SUCCEEDED. rewrite to_int_signed by exact Hrange.
      rewrite Z.geb_leb.
      destruct (Z.leb_spec 0 (to_int x)), (Z.eqb_spec (to_int x) 0);
        try lia; reflexivity.
    + unfold HRESULT_FROM_WIN32.
      rewrite to_int_signed by exact Hrange.
      destruct (Z.leb_spec (to_int x) 0); [reflexivity | lia].
Qed.


(** ** The bit scans *)

Section BitScanProofs.

(** The width of [unsigned long], and the two intrinsics as the comment of
    [pal.h] describes them on a non-zero argument. *)
Variable long_bits : Z.
Variables __builtin_clzl __builtin_clzll : Z -> Z.

Hypothesis clzl_spec :
  forall x, 0 < x < 2 ^ long_bits -> __builtin_clzl x = long_bits - 1 - Z.log2 x.
Hypothesis clzll_spec :
  forall x, 0 < x < 2 ^ 64 -> __builtin_clzll x = 63 - Z.log2 x.

(** X30.  On a non-zero 32-bit mask [BitScanReverse] returns 1 and stores
    the index of the highest set bit less [long_bits - 32]: the index
    itself where [unsigned long] has 32 bits, but a value above 31, which
    is no bit position, where it has 64.  [BitScanReverse64] stores the
    index of the highest set bit of the same mask. *)
Theorem BitScanReverse_index qwMask :
  32 <= long_bits ->
  0 < qwMask < 2 ^ 32 ->
  snd (BitScanReverse __builtin_clzl qwMask) = 1 /\
  fst (BitScanReverse __builtin_clzl qwMask) =
    to_DWORD (Z.log2 qwMask - (long_bits - 32)) /\
  (long_bits = 32 -> fst (BitScanReverse __builtin_clzl qwMask) = Z.log2 qwMask) /\
  (long_bits = 64 ->
   fst (BitScanReverse __builtin_clzl qwMask) = 2 ^ 32 - 32 + Z.log2 qwMask /\
   31 < fst (BitScanReverse __builtin_clzl qwMask)) /\
  BitScanReverse64 __builtin_clzll qwMask = (Z.log2 qwMask, 1).
Proof.
  intros Hlong Hmask.
  assert (Hlog : 0 <= Z.log2 qwMask < 32).
  { split; [apply Z.log2_nonneg | apply Z.log2_lt_pow2; lia]. }
  assert (Hx : 0 < qwMask < 2 ^ long_bits).
  { split; [lia |]. apply Z.lt_le_trans with (2 ^ 32); [lia |].
    apply Z.pow_le_mono_r; lia. }
  assert (Hx64 : 0 < qwMask < 2 ^ 64).
  { split; [lia |]. apply Z.lt_trans with (2 ^ 32); [lia | reflexivity]. }
  assert (Hnz : (qwMask =? 0) = false) by (apply Z.eqb_neq; lia).
  unfold BitScanReverse, BitScanReverse64. cbv zeta. cbn [fst snd].
  rewrite clzl_spec by exact Hx. rewrite clzll_spec by exact Hx64.
  rewrite Hnz. cbn [negb].
  split; [reflexivity |].
  split; [f_equal; lia |].
  unfold to_DWORD. change (2 ^ 32) with 4294967296.
  split; [| split].
  - intros E. rewrite E.
    replace (31 - (32 - 1 - Z.log2 qwMask)) with (Z.log2 qwMask) by lia.
    apply Z.mod_small. lia.
  - intros E. rewrite E. clear E.
    assert (E : (31 - (64 - 1 - Z.log2 qwMask)) mod 4294967296 =
                4294967296 - 32 + Z.log2 qwMask).
    { symmetry. apply Z.mod_unique with (q := -1); lia. }
    rewrite E. lia.
  - f_equal.
    replace (63 - (63 - Z.log2 qwMask)) with (Z.log2 qwMask) by lia.
    apply Z.mod_small. lia.
Qed.

End BitScanProofs.

(** * Concrete requests *)

Import Fake.

(** Witness of C1: a wait-all on two signaled objects. *)
Lemma multi_object_wait_not_supported_witness :
  let r := wait_call 2 [7; 8] TRUE 0 FALSE FALSE two_signaled_processes 0 in
  2 > 1 /\
  fst r = WAIT_FAILED /\
  existsb waits (trace (snd r)) = false /\
  lastError (snd r) = ERROR_NOT_SUPPORTED.
Proof.
  assert (H : 2 > 1) by reflexivity.
  destruct (@multi_object_wait_not_supported State _ _ _ _ _ _
              2 [7; 8] TRUE 0 FALSE FALSE two_signaled_processes 0 H)
    as (Hr & Hw & He).
  split; [exact H |].
  split; [exact Hr |].
  split; [exact Hw |].
  apply He. reflexivity.
Defined.

(** Witness of C2: a request for 65 objects. *)
Lemma invalid_count_rejected_witness :
  let r := wait_call 65 [7; 8] FALSE 0 FALSE FALSE two_signaled_processes 0 in
  (65 = 0 \/ 65 > MAXIMUM_WAIT_OBJECTS) /\
  fst r = WAIT_FAILED /\
  lastError (snd r) = ERROR_INVALID_PARAMETER /\
  existsb acquires (trace (snd r)) = false.
Proof.
  assert (H : 65 = 0 \/ 65 > MAXIMUM_WAIT_OBJECTS) by (right; reflexivity).
  split; [exact H |].
  exact (@invalid_count_rejected State _ _ _ _ _ _
           65 [7; 8] FALSE 0 FALSE FALSE two_signaled_processes 0 H).
Defined.

(** C3 on a concrete request: an alertable wait on one signaled process.
    The controller obtained for the object is never released (it is still
    held when the call returns), while the reference on the object is
    released once. *)
Theorem alertable_wait_leaks_controller :
  let r := wait_call 1 [7] FALSE 0 TRUE FALSE (one_process true false no_wake) 0 in
  fst r = WAIT_FAILED /\
  trace (snd r) =
    [EvReferenceMultipleObjectsByHandleArray [7] 1 NO_ERROR [0x700];
     EvGetSynchWaitControllersForObjects [0x700] 1 NO_ERROR [0x1700];
     EvSetLastError ERROR_INTERNAL_ERROR;
     EvReleaseReference 0 0x700] /\
  held_after (trace (snd r)) [] = Some [0x1700] /\
  pinned_after (trace (snd r)) [] = Some [] /\
  map o_controller_held (objects (ext (snd r))) = [true] /\
  map o_refs (objects (ext (snd r))) = [1].
Proof. vm_compute. repeat split. Qed.

(** Counterexample to C4 as stated: on an alertable wait on one process the
    controllers are obtained before the flag is tested; and an alertable
    wait with a count of zero fails with the invalid-parameter error, not
    the internal error. *)
Lemma alertable_rejected_after_controllers_acquired :
  let r := wait_call 1 [7] FALSE 0 TRUE FALSE (one_process true false no_wake) 0 in
  let r0 := wait_call 0 [] FALSE 0 TRUE FALSE (one_process true false no_wake) 0 in
  BOOL_to_bool TRUE = true /\
  lastError (snd r) = ERROR_INTERNAL_ERROR /\
  existsb is_get_controllers (trace (snd r)) = true /\
  lastError (snd r0) = ERROR_INVALID_PARAMETER /\
  ERROR_INVALID_PARAMETER <> ERROR_INTERNAL_ERROR.
Proof. vm_compute. repeat split; easy. Qed.

(** Witness of C4 as amended. *)
Lemma alertable_wait_fails_witness :
  let r := wait_call 1 [7] FALSE 0 TRUE FALSE (one_process true false no_wake) 0 in
  0 <= 1 /\ BOOL_to_bool TRUE = true /\
  fst r = WAIT_FAILED /\
  existsb waits (trace (snd r)) = false /\
  lastError (snd r) = ERROR_INTERNAL_ERROR /\
  existsb is_get_controllers (trace (snd r)) = true.
Proof.
  assert (H0 : 0 <= 1) by discriminate.
  assert (Hal : BOOL_to_bool TRUE = true) by reflexivity.
  destruct (@alertable_wait_fails State _ _ _ _ _ _
              1 [7] FALSE 0 TRUE FALSE (one_process true false no_wake) 0 H0 Hal)
    as (Hr & Hw & He).
  destruct (He eq_refl eq_refl) as [He1 He2].
  split; [exact H0 |].
  split; [exact Hal |].
  split; [exact Hr |].
  split; [exact Hw |].
  split; [exact He1 | exact He2].
Defined.

(** Witness of C5: a poll of one process that is not signaled.  The objects
    are left as they were, and a second poll answers the same. *)
Lemma zero_timeout_never_blocks_witness :
  let st := one_process false false no_wake in
  let r := wait_call 1 [7] FALSE 0 FALSE FALSE st 0 in
  let r' := wait_call 1 [7] FALSE 0 FALSE FALSE (ext (snd r)) 0 in
  (0 <= 1 /\ 0 = 0 /\
   precheck_done (trace (snd r)) = true /\
   blocking_needed (BOOL_to_bool FALSE) 1 (trace (snd r)) = true) /\
  fst r = WAIT_TIMEOUT /\
  existsb is_register (trace (snd r)) = false /\
  existsb is_block (trace (snd r)) = false /\
  existsb is_consume (trace (snd r)) = false /\
  ext (snd r) = st /\
  fst r' = WAIT_TIMEOUT /\ ext (snd r') = st.
Proof.
  assert (H0 : 0 <= 1) by discriminate.
  pose proof (@zero_timeout_never_blocks State _ _ _ _ _ _
                1 [7] FALSE 0 FALSE FALSE (one_process false false no_wake) 0
                H0 eq_refl eq_refl eq_refl) as (Hr & _ & Hreg & Hblk & Hcon & _).
  split; [split; [exact H0 | repeat split] |].
  split; [exact Hr |].
  split; [exact Hreg |].
  split; [exact Hblk |].
  split; [exact Hcon |].
  repeat split.
Defined.

(** C7 on a concrete request: the blocking primitive wakes the thread of a
    wait on one object with index 5.  The asserted condition is false, and
    the index is added to the result. *)
Theorem out_of_range_index_is_added :
  let r := wait_call 1 [7] FALSE 10 FALSE FALSE
             (one_process false false (NO_ERROR, WaitSucceeded, Some 5)) 0 in
  asserted_index_in_range 1 5 = false /\
  In (EvBlockThread 10 false NO_ERROR WaitSucceeded 5) (trace (snd r)) /\
  fst r = WAIT_OBJECT_0 + 5 /\
  fst r <> WAIT_FAILED /\
  lastError (snd r) = 0.
Proof. vm_compute. repeat split; auto 10; easy. Qed.

(** C10 on concrete requests: woken with index 7, a wait on one object
    returns 7, which is in none of the four families for a count of one;
    woken as abandoned with index 130, it returns [WAIT_ABANDONED_0 + 130],
    which is [WAIT_TIMEOUT]. *)
Theorem result_code_not_decodable :
  let r := wait_call 1 [7] FALSE 10 FALSE FALSE
             (one_process false false (NO_ERROR, WaitSucceeded, Some 7)) 0 in
  let r' := wait_call 1 [7] FALSE 10 FALSE FALSE
              (one_process false false (NO_ERROR, MutexAbondoned, Some 130)) 0 in
  fst r = 7 /\ is_result_code 1 (fst r) = false /\
  In (EvBlockThread 10 false NO_ERROR MutexAbondoned 130) (trace (snd r')) /\
  fst r' = WAIT_TIMEOUT.
Proof. vm_compute. repeat split; auto 10; easy. Qed.

(** Witness of C8: one signaled process, waited for with the flag set and
    with the flag clear. *)
Lemma wait_all_flag_ignored_for_single_object_witness :
  1 = 1 /\
  wait_call 1 [7] TRUE 0 FALSE FALSE (one_process true false no_wake) 0 =
  wait_call 1 [7] FALSE 0 FALSE FALSE (one_process true false no_wake) 0.
Proof.
  split; [reflexivity |].
  exact (@wait_all_flag_ignored_for_single_object State _ _ _ _ _ _
           1 [7] TRUE 0 FALSE FALSE (one_process true false no_wake) 0 FALSE eq_refl).
Defined.

(** The code behind the refusal of several objects, run on its own.  For
    a wait-any on two objects where the first is abandoned but not signaled
    and the second is signaled, [precheck_onwards] consumes the second
    object only and answers [WAIT_ABANDONED_0 + 1]: [fAbandoned] collects
    the abandonment of every object the pre-check asked (see
    [precheck_loop_wait_any]).  [InternalWaitForMultipleObjectsEx] never
    runs this code with more than one object. *)
Remark precheck_onwards_two_objects :
  let st := state [process 7 false true; process 8 true false] no_wake in
  let r := precheck_onwards 2 (mkWorkArray StackArray [0x700; 0x800])
             (mkWorkArray StackArray [0x1700; 0x1800])
             0 FALSE FALSE false MultipleObjectsWaitOne WAIT_FAILED
             (mkWorld st 0 []) in
  fst r = WAIT_ABANDONED_0 + 1 /\
  precheck_indices (trace (snd r)) = [0; 1] /\
  consume_calls (trace (snd r)) = [(1, 0x1800)].
Proof. vm_compute. repeat split. Qed.

(** Witness of C6: the pre-check and the fast path of a wait-any on three
    processes, of which the second and the third are signaled.  The
    pre-check asks the first and the second; the second is consumed and
    its index is the result; the third is never asked and stays
    signaled. *)
Lemma wait_any_scans_to_first_satisfied_witness :
  let st := state [process 7 false false; process 8 true false; process 9 true false]
                  no_wake in
  let objs := mkWorkArray StackArray [0x700; 0x800; 0x900] in
  let ctrls := mkWorkArray StackArray [0x1700; 0x1800; 0x1900] in
  let r := precheck_onwards 3 objs ctrls 0 FALSE FALSE false MultipleObjectsWaitOne
             WAIT_FAILED (mkWorld st 0 []) in
  1 <= 3 <= MAXIMUM_WAIT_OBJECTS /\
  precheck_calls (trace (snd r)) = [(0, 0x1700); (1, 0x1800)] /\
  precheck_verdicts (trace (snd r)) = [Some false; Some true] /\
  consume_calls (trace (snd r)) = [(1, 0x1800)] /\
  fst r = WAIT_OBJECT_0 + 1 /\
  map o_signaled (objects (ext (snd r))) = [false; false; true] /\
  exists (k : nat) (v : option bool),
    Z.of_nat k < 3 /\
    precheck_calls (trace (snd r)) =
      map (fun j => (Z.of_nat j, at_index (slots ctrls) (Z.of_nat j)))
          (seq 0 (Datatypes.S k)) /\
    precheck_verdicts (trace (snd r)) = repeat (Some false) k ++ [v] /\
    (existsb is_satisfied_precheck (trace (snd r)) = true -> v = Some true) /\
    (v = Some true ->
     consume_calls (trace (snd r)) =
       [(Z.of_nat k, at_index (slots ctrls) (Z.of_nat k))] /\
     existsb is_register (trace (snd r)) = false /\
     existsb is_block (trace (snd r)) = false /\
     (existsb is_failed_consume (trace (snd r)) = false ->
      fst r = WAIT_OBJECT_0 + Z.of_nat k \/ fst r = WAIT_ABANDONED_0 + Z.of_nat k)) /\
    (v = Some false ->
     Z.of_nat (Datatypes.S k) = 3 /\ consume_calls (trace (snd r)) = []) /\
    (v = None -> consume_calls (trace (snd r)) = []).
Proof.
  intros st objs ctrls r.
  assert (H : 1 <= 3 <= MAXIMUM_WAIT_OBJECTS) by (split; discriminate).
  split; [exact H |].
  split; [reflexivity |]. split; [reflexivity |]. split; [reflexivity |].
  split; [reflexivity |]. split; [reflexivity |].
  exact (@wait_any_scans_to_first_satisfied State _ _ _ _ _
           3 objs ctrls 0 FALSE FALSE MultipleObjectsWaitOne st 0 H).
Defined.



(** * Concrete requests on the error paths *)

Import Stub.

(** Close a closed statement by evaluation. *)
Ltac computed :=
  vm_compute;
  first [ reflexivity
        | intro; discriminate
        | tauto
        | intuition (try discriminate; try reflexivity) ].

(** Witness of X1: a wait on a handle that names no object. *)
Lemma unresolved_handles_fail_witness :
  let r := wait_call 1 [9] FALSE 0 FALSE FALSE (one_process true false no_wake) 77 in
  (0 <= 1 /\
   In (EvReferenceMultipleObjectsByHandleArray [9] 1 ERROR_INVALID_HANDLE [])
      (trace (snd r)) /\
   ERROR_INVALID_HANDLE <> NO_ERROR) /\
  fst r = WAIT_FAILED /\
  lastError (snd r) = ERROR_INVALID_HANDLE /\
  existsb is_get_controllers (trace (snd r)) = false /\
  existsb is_release_reference (trace (snd r)) = false /\
  existsb waits (trace (snd r)) = false.
Proof.
  intros r.
  assert (H0 : 0 <= 1) by computed.
  assert (HIn : In (EvReferenceMultipleObjectsByHandleArray [9] 1 ERROR_INVALID_HANDLE [])
                   (trace (snd r))) by computed.
  assert (He : ERROR_INVALID_HANDLE <> NO_ERROR) by computed.
  split; [repeat split; assumption |].
  exact (@unresolved_handles_fail State _ _ _ _ _ _
           1 [9] FALSE 0 FALSE FALSE (one_process true false no_wake) 77
           [9] 1 ERROR_INVALID_HANDLE [] H0 HIn He).
Defined.

(** Witness of X2: the synchronization manager answers the error 8 and the
    call reports the internal error. *)
Lemma controller_acquisition_failure_witness :
  let r := wait_call 1 [7] FALSE 0 FALSE FALSE (no_controller 8) 77 in
  (0 <= 1 /\
   In (EvGetSynchWaitControllersForObjects [0x700] 1 8 []) (trace (snd r)) /\
   8 <> NO_ERROR) /\
  fst r = WAIT_FAILED /\
  lastError (snd r) = ERROR_INTERNAL_ERROR /\
  existsb waits (trace (snd r)) = false /\
  existsb is_release_controller (trace (snd r)) = false /\
  pinned_after (trace (snd r)) [] = Some [].
Proof.
  intros r.
  assert (H0 : 0 <= 1) by computed.
  assert (HIn : In (EvGetSynchWaitControllersForObjects [0x700] 1 8 []) (trace (snd r)))
    by computed.
  assert (He : 8 <> NO_ERROR) by computed.
  split; [repeat split; assumption |].
  exact (@controller_acquisition_failure Answers _ _ _ _ _ _
           1 [7] FALSE 0 FALSE FALSE (no_controller 8) 77
           [0x700] 1 8 [] H0 HIn He).
Defined.

(** Witness of X3: the pre-check answers the error 5. *)
Lemma precheck_failure_witness :
  let r := wait_call 1 [7] FALSE 0 FALSE FALSE
             (one_object (5, false, false) NO_ERROR NO_ERROR) 77 in
  (0 <= 1 /\
   In (EvCanThreadWaitWithoutBlocking 0 0x1700 5 false false) (trace (snd r)) /\
   5 <> NO_ERROR) /\
  fst r = WAIT_FAILED /\
  lastError (snd r) = ERROR_INTERNAL_ERROR /\
  existsb is_consume (trace (snd r)) = false /\
  existsb is_register (trace (snd r)) = false /\
  existsb is_block (trace (snd r)) = false /\
  held_after (trace (snd r)) [] = Some [] /\
  pinned_after (trace (snd r)) [] = Some [].
Proof.
  intros r.
  assert (H0 : 0 <= 1) by computed.
  assert (HIn : In (EvCanThreadWaitWithoutBlocking 0 0x1700 5 false false)
                   (trace (snd r))) by computed.
  assert (He : 5 <> NO_ERROR) by computed.
  split; [repeat split; assumption |].
  exact (@precheck_failure Answers _ _ _ _ _ _
           1 [7] FALSE 0 FALSE FALSE (one_object (5, false, false) NO_ERROR NO_ERROR) 77
           0 0x1700 5 false false H0 HIn He).
Defined.

(** Witness of X4: the object is satisfied and its consumption answers the
    error 5. *)
Lemma consume_failure_is_propagated_witness :
  let r := wait_call 1 [7] FALSE 0 FALSE FALSE
             (one_object (NO_ERROR, true, false) 5 NO_ERROR) 77 in
  (0 <= 1 /\
   In (EvReleaseWaitingThreadWithoutBlocking 0 0x1700 5) (trace (snd r)) /\
   5 <> NO_ERROR) /\
  fst r = WAIT_FAILED /\
  lastError (snd r) = 5 /\
  existsb is_register (trace (snd r)) = false /\
  existsb is_block (trace (snd r)) = false /\
  held_after (trace (snd r)) [] = Some [] /\
  pinned_after (trace (snd r)) [] = Some [].
Proof.
  intros r.
  assert (H0 : 0 <= 1) by computed.
  assert (HIn : In (EvReleaseWaitingThreadWithoutBlocking 0 0x1700 5) (trace (snd r)))
    by computed.
  assert (He : 5 <> NO_ERROR) by computed.
  split; [repeat split; assumption |].
  exact (@consume_failure_is_propagated Answers _ _ _ _ _ _
           1 [7] FALSE 0 FALSE FALSE (one_object (NO_ERROR, true, false) 5 NO_ERROR) 77
           0 0x1700 5 H0 HIn He).
Defined.

(** Witness of X5: the object is not satisfied and the registration answers
    the error 5. *)
Lemma register_failure_is_propagated_witness :
  let r := wait_call 1 [7] FALSE 10 FALSE FALSE
             (one_object (NO_ERROR, false, false) NO_ERROR 5) 77 in
  (0 <= 1 /\
   In (EvRegisterWaitingThread 0 0x1700 SingleObject false false 5) (trace (snd r)) /\
   5 <> NO_ERROR) /\
  fst r = WAIT_FAILED /\
  lastError (snd r) = 5 /\
  existsb is_block (trace (snd r)) = false /\
  held_after (trace (snd r)) [] = Some [] /\
  pinned_after (trace (snd r)) [] = Some [].
Proof.
  intros r.
  assert (H0 : 0 <= 1) by computed.
  assert (HIn : In (EvRegisterWaitingThread 0 0x1700 SingleObject false false 5)
                   (trace (snd r))) by computed.
  assert (He : 5 <> NO_ERROR) by computed.
  split; [repeat split; assumption |].
  exact (@register_failure_is_propagated Answers _ _ _ _ _ _
           1 [7] FALSE 10 FALSE FALSE (one_object (NO_ERROR, false, false) NO_ERROR 5) 77
           0 0x1700 SingleObject false false 5 H0 HIn He).
Defined.

(** Witness of X6: the blocking primitive answers the error 5 together
    with [WaitSucceeded]. *)
Lemma block_failure_is_propagated_witness :
  let r := wait_call 1 [7] FALSE 10 FALSE FALSE
             (one_process false false (5, WaitSucceeded, Some 0)) 77 in
  (0 <= 1 /\
   In (EvBlockThread 10 false 5 WaitSucceeded 0) (trace (snd r)) /\
   5 <> NO_ERROR) /\
  fst r = WAIT_FAILED /\
  lastError (snd r) = 5 /\
  pinned_after (trace (snd r)) [] = Some [].
Proof.
  intros r.
  assert (H0 : 0 <= 1) by computed.
  assert (HIn : In (EvBlockThread 10 false 5 WaitSucceeded 0) (trace (snd r)))
    by computed.
  assert (He : 5 <> NO_ERROR) by computed.
  split; [repeat split; assumption |].
  exact (@block_failure_is_propagated State _ _ _ _ _ _
           1 [7] FALSE 10 FALSE FALSE
           (one_process false false (5, WaitSucceeded, Some 0)) 77
           10 false 5 WaitSucceeded 0 H0 HIn He).
Defined.

(** Witness of X7: the thread is woken with [WaitFailed]; the call fails
    and the last error still holds the 77 it held on entry. *)
Lemma woken_without_object_witness :
  let r := wait_call 1 [7] FALSE 10 FALSE FALSE
             (one_process false false (NO_ERROR, WaitFailed, Some 0)) 77 in
  (0 <= 1 /\
   In (EvBlockThread 10 false NO_ERROR WaitFailed 0) (trace (snd r)) /\
   WaitFailed <> WaitSucceeded /\ WaitFailed <> MutexAbondoned) /\
  fst r = WAIT_FAILED /\
  lastError (snd r) = 77.
Proof.
  intros r.
  assert (H0 : 0 <= 1) by computed.
  assert (HIn : In (EvBlockThread 10 false NO_ERROR WaitFailed 0) (trace (snd r)))
    by computed.
  assert (Hs : WaitFailed <> WaitSucceeded) by discriminate.
  assert (Ha : WaitFailed <> MutexAbondoned) by discriminate.
  split; [repeat split; assumption |].
  exact (@woken_without_object State _ _ _ _ _ _
           1 [7] FALSE 10 FALSE FALSE
           (one_process false false (NO_ERROR, WaitFailed, Some 0)) 77
           10 false WaitFailed 0 H0 HIn Hs Ha).
Defined.

(** Witness of X8: a satisfied wait keeps the last error 77. *)
Lemma last_error_kept_unless_failed_witness :
  let r := wait_call 1 [7] FALSE 0 FALSE FALSE (one_process true false no_wake) 77 in
  (0 <= 1 /\ fst r <> WAIT_FAILED) /\
  lastError (snd r) = 77.
Proof.
  intros r.
  assert (H0 : 0 <= 1) by computed.
  assert (Hr : fst r <> WAIT_FAILED) by computed.
  split; [split; assumption |].
  exact (@last_error_kept_unless_failed State _ _ _ _ _ _
           1 [7] FALSE 0 FALSE FALSE (one_process true false no_wake) 77 H0 Hr).
Defined.

(** Witness of X9: a poll of a process that is not signaled. *)
Lemma zero_timeout_is_a_poll_witness :
  let r := wait_call 1 [7] FALSE 0 FALSE FALSE (one_process false false no_wake) 77 in
  (0 <= 1 /\ 0 = 0) /\
  existsb is_register (trace (snd r)) = false /\
  existsb is_block (trace (snd r)) = false.
Proof.
  intros r.
  assert (H0 : 0 <= 1) by computed.
  split; [split; [exact H0 | reflexivity] |].
  exact (@zero_timeout_is_a_poll State _ _ _ _ _ _
           1 [7] FALSE 0 FALSE FALSE (one_process false false no_wake) 77 H0 eq_refl).
Defined.

(** Witness of X10: a wait of ten milliseconds on a signaled process. *)
Lemma satisfied_object_never_blocks_witness :
  let r := wait_call 1 [7] FALSE 10 FALSE FALSE (one_process true false no_wake) 77 in
  (0 <= 1 /\ existsb is_satisfied_precheck (trace (snd r)) = true) /\
  existsb is_register (trace (snd r)) = false /\
  existsb is_block (trace (snd r)) = false.
Proof.
  intros r.
  assert (H0 : 0 <= 1) by computed.
  assert (Hs : existsb is_satisfied_precheck (trace (snd r)) = true) by computed.
  split; [split; assumption |].
  exact (@satisfied_object_never_blocks State _ _ _ _ _ _
           1 [7] FALSE 10 FALSE FALSE (one_process true false no_wake) 77 H0 Hs).
Defined.

(** Witness of X11: a prioritized wait of ten milliseconds on a process
    that is not signaled, woken with success. *)
Lemma blocking_protocol_witness :
  let r := wait_call 1 [7] FALSE 10 FALSE TRUE
             (one_process false false (NO_ERROR, WaitSucceeded, Some 0)) 77 in
  (0 <= 1 /\ existsb is_block (trace (snd r)) = true) /\
  10 <> 0 /\
  exists objs ctrls fAb e reason idx rest,
    trace (snd r) =
      [EvReferenceMultipleObjectsByHandleArray [7] 1 NO_ERROR objs;
       EvGetSynchWaitControllersForObjects objs 1 NO_ERROR ctrls;
       EvCanThreadWaitWithoutBlocking 0 (nth 0 ctrls NULL) NO_ERROR false fAb;
       EvRegisterWaitingThread 0 (nth 0 ctrls NULL) SingleObject false
         (negb (TRUE =? FALSE)) NO_ERROR;
       EvReleaseController 0 (nth 0 ctrls NULL);
       EvBlockThread 10 false e reason idx] ++ rest /\
    existsb waits rest = false.
Proof.
  intros r.
  assert (H0 : 0 <= 1) by computed.
  assert (Hb : existsb is_block (trace (snd r)) = true) by computed.
  split; [split; assumption |].
  exact (@blocking_protocol State _ _ _ _ _ _
           1 [7] FALSE 10 FALSE TRUE
           (one_process false false (NO_ERROR, WaitSucceeded, Some 0)) 77 H0 Hb).
Defined.

(** Witness of X12: a request for 17 objects allocates its two working
    arrays and deletes them; a request for one object does neither. *)
Lemma working_arrays_deleted_once_witness :
  let r := wait_call 17 [7; 8] FALSE 10 FALSE FALSE
             (allocating [Some 0x8000; Some 0x9000]) 77 in
  0 <= 17 /\
  allocated (trace (snd r)) = [0x8000; 0x9000] /\
  deleted (trace (snd r)) = allocated (trace (snd r)) /\
  ~ In (EvInternalDeleteArray StackArray) (trace (snd r)) /\
  (17 <= MAXIMUM_STACK_WAITOBJ_ARRAY_SIZE ->
   existsb is_new_array (trace (snd r)) = false /\
   existsb is_delete_array (trace (snd r)) = false).
Proof.
  intros r.
  assert (H0 : 0 <= 17) by computed.
  split; [exact H0 |].
  split; [reflexivity |].
  exact (@working_arrays_deleted_once Answers _ _ _ _ _ _
           17 [7; 8] FALSE 10 FALSE FALSE (allocating [Some 0x8000; Some 0x9000]) 77 H0).
Defined.

(** Witness of X13: the first allocation succeeds and the second answers
    null; the block of the first is given back. *)
Lemma allocation_failure_is_out_of_memory_witness :
  let r := wait_call 17 [7; 8] FALSE 10 FALSE FALSE (allocating [Some 0x8000; None]) 77 in
  (0 <= 17 /\ In (EvInternalNewArray 17 None) (trace (snd r))) /\
  deleted (trace (snd r)) = [0x8000] /\
  fst r = WAIT_FAILED /\
  lastError (snd r) = ERROR_NOT_ENOUGH_MEMORY /\
  exists r1 r2,
    (r1 = None \/ r2 = None) /\
    trace (snd r) =
      [EvInternalNewArray 17 r1; EvInternalNewArray 17 r2;
       EvSetLastError ERROR_NOT_ENOUGH_MEMORY;
       EvInternalDeleteArray (of_alloc r1); EvInternalDeleteArray (of_alloc r2)].
Proof.
  intros r.
  assert (H0 : 0 <= 17) by computed.
  assert (HIn : In (EvInternalNewArray 17 None) (trace (snd r))) by computed.
  split; [split; assumption |].
  split; [reflexivity |].
  exact (@allocation_failure_is_out_of_memory Answers _ _ _ _ _ _
           17 [7; 8] FALSE 10 FALSE FALSE (allocating [Some 0x8000; None]) 77 17 H0 HIn).
Defined.

(** Witness of X14: three slots, the first and the third holding the same
    object. *)
Lemma has_duplicate_iff_not_NoDup_witness :
  1 <= 3 <= MAXIMUM_WAIT_OBJECTS /\
  has_duplicate 3 [0x700; 0x800; 0x700] = true /\
  (has_duplicate 3 [0x700; 0x800; 0x700] = false <->
   NoDup (first_slots 3 [0x700; 0x800; 0x700])).
Proof.
  assert (H : 1 <= 3 <= MAXIMUM_WAIT_OBJECTS) by computed.
  split; [exact H |].
  split; [reflexivity |].
  exact (@has_duplicate_iff_not_NoDup 3 [0x700; 0x800; 0x700] H).
Defined.

(** Witness of X18: a wait on 17 objects of which two resolve. *)
Lemma references_released_exactly_once_witness :
  let r := wait_call 17 [7; 8] TRUE 10 FALSE FALSE two_signaled_processes 77 in
  0 <= 17 /\
  map o_refs (objects (ext (snd r))) = [1; 1] /\
  pinned_after (trace (snd r)) [] = Some [].
Proof.
  intros r.
  assert (H0 : 0 <= 17) by computed.
  split; [exact H0 |].
  split; [reflexivity |].
  exact (@references_released_exactly_once State _ _ _ _ _ _
           17 [7; 8] TRUE 10 FALSE FALSE two_signaled_processes 77 H0).
Defined.

(** Witness of X19: a wait that blocks on one process. *)
Lemma controllers_released_before_blocking_witness :
  let r := wait_call 1 [7] FALSE 10 FALSE FALSE
             (one_process false false (NO_ERROR, WaitSucceeded, Some 0)) 77 in
  (0 <= 1 /\ BOOL_to_bool FALSE = false) /\
  map o_controller_held (objects (ext (snd r))) = [false] /\
  held_after (trace (snd r)) [] = Some [].
Proof.
  intros r.
  assert (H0 : 0 <= 1) by computed.
  split; [split; [exact H0 | reflexivity] |].
  split; [reflexivity |].
  exact (@controllers_released_before_blocking State _ _ _ _ _ _
           1 [7] FALSE 10 FALSE FALSE
           (one_process false false (NO_ERROR, WaitSucceeded, Some 0)) 77 H0 eq_refl).
Defined.

(** Witness of X20: an alertable wait on one signaled process. *)
Lemma alertable_call_keeps_controller_witness :
  let r := wait_call 1 [7] FALSE 0 TRUE FALSE (one_process true false no_wake) 77 in
  (1 = 1 /\ BOOL_to_bool TRUE = true /\
   In (EvGetSynchWaitControllersForObjects [0x700] 1 NO_ERROR [0x1700]) (trace (snd r))) /\
  held_after (trace (snd r)) [] = Some [0x1700].
Proof.
  intros r.
  assert (HIn : In (EvGetSynchWaitControllersForObjects [0x700] 1 NO_ERROR [0x1700])
                   (trace (snd r))) by computed.
  split; [repeat split; exact HIn |].
  exact (@alertable_call_keeps_controller State _ _ _ _ _ _
           1 [7] FALSE 0 TRUE FALSE (one_process true false no_wake) 77
           [0x700] [0x1700] eq_refl eq_refl HIn).
Defined.

(** Witness of X21: the thread is woken with success and the index
    [0xFFFFFFFF], which reads as -1. *)
Lemma negative_index_forces_failure_witness :
  let r := wait_call 1 [7] FALSE 10 FALSE FALSE
             (one_process false false (NO_ERROR, WaitSucceeded, Some 0xFFFFFFFF)) 77 in
  (0 <= 1 /\
   In (EvBlockThread 10 false NO_ERROR WaitSucceeded 0xFFFFFFFF) (trace (snd r)) /\
   (WaitSucceeded = WaitSucceeded \/ WaitSucceeded = MutexAbondoned) /\
   to_int 0xFFFFFFFF < 0) /\
  fst r = WAIT_FAILED /\ lastError (snd r) = ERROR_INTERNAL_ERROR.
Proof.
  intros r.
  assert (H0 : 0 <= 1) by computed.
  assert (HIn : In (EvBlockThread 10 false NO_ERROR WaitSucceeded 0xFFFFFFFF)
                   (trace (snd r))) by computed.
  assert (Hr : WaitSucceeded = WaitSucceeded \/ WaitSucceeded = MutexAbondoned)
    by (left; reflexivity).
  assert (Hneg : to_int 0xFFFFFFFF < 0) by reflexivity.
  split; [repeat split; assumption |].
  exact (@negative_index_forces_failure State _ _ _ _ _ _
           1 [7] FALSE 10 FALSE FALSE
           (one_process false false (NO_ERROR, WaitSucceeded, Some 0xFFFFFFFF)) 77
           10 false WaitSucceeded 0xFFFFFFFF H0 HIn Hr Hneg).
Defined.

(** Witness of X22: the thread is woken as abandoned with the index 0. *)
Lemma result_is_code_when_index_in_range_witness :
  let r := wait_call 1 [7] FALSE 10 FALSE FALSE
             (one_process false false (NO_ERROR, MutexAbondoned, Some 0)) 77 in
  (0 <= 1 /\
   forall ms fAlertable err reason idx,
     In (EvBlockThread ms fAlertable err reason idx) (trace (snd r)) ->
     0 <= to_int idx < 1) /\
  fst r = WAIT_ABANDONED_0 /\
  is_result_code 1 (fst r) = true.
Proof.
  intros r.
  assert (H0 : 0 <= 1) by computed.
  assert (Hidx : forall ms fAlertable err reason idx,
             In (EvBlockThread ms fAlertable err reason idx) (trace (snd r)) ->
             0 <= to_int idx < 1).
  { intros ms fAlertable err reason idx HIn. vm_compute in HIn.
    repeat (destruct HIn as [HIn | HIn]; try discriminate HIn); [| contradiction].
    inversion HIn. split; [discriminate | reflexivity]. }
  split; [split; assumption |].
  split; [reflexivity |].
  exact (@result_is_code_when_index_in_range State _ _ _ _ _ _
           1 [7] FALSE 10 FALSE FALSE
           (one_process false false (NO_ERROR, MutexAbondoned, Some 0)) 77 H0 Hidx).
Defined.

(** Witness of X23: the thread is woken as abandoned with the index 3 on a
    wait for one object. *)
Lemma reported_index_is_added_witness :
  let r := wait_call 1 [7] FALSE 10 FALSE FALSE
             (one_process false false (NO_ERROR, MutexAbondoned, Some 3)) 77 in
  (0 <= 1 /\
   In (EvBlockThread 10 false NO_ERROR MutexAbondoned 3) (trace (snd r)) /\
   (MutexAbondoned = WaitSucceeded \/ MutexAbondoned = MutexAbondoned) /\
   0 <= to_int 3) /\
  fst r = WAIT_ABANDONED_0 + 3.
Proof.
  intros r.
  assert (H0 : 0 <= 1) by computed.
  assert (HIn : In (EvBlockThread 10 false NO_ERROR MutexAbondoned 3) (trace (snd r)))
    by computed.
  assert (Hr : MutexAbondoned = WaitSucceeded \/ MutexAbondoned = MutexAbondoned)
    by (right; reflexivity).
  assert (Hpos : 0 <= to_int 3) by computed.
  split; [repeat split; assumption |].
  exact (@reported_index_is_added State _ _ _ _ _ _
           1 [7] FALSE 10 FALSE FALSE
           (one_process false false (NO_ERROR, MutexAbondoned, Some 3)) 77
           10 false MutexAbondoned 3 H0 HIn Hr Hpos).
Defined.

(** Witness of X24: a count of one and the result [WAIT_ABANDONED_0]. *)
Lemma result_code_families_disjoint_witness :
  0 <= 1 <= MAXIMUM_WAIT_OBJECTS /\
  is_abandoned_code 1 WAIT_ABANDONED_0 = true /\
  Z.b2z (is_satisfied_code 1 WAIT_ABANDONED_0) + Z.b2z (is_abandoned_code 1 WAIT_ABANDONED_0)
  + Z.b2z (WAIT_ABANDONED_0 =? WAIT_TIMEOUT) + Z.b2z (WAIT_ABANDONED_0 =? WAIT_FAILED) <= 1.
Proof.
  assert (H : 0 <= 1 <= MAXIMUM_WAIT_OBJECTS) by computed.
  split; [exact H |].
  split; [reflexivity |].
  exact (@result_code_families_disjoint 1 WAIT_ABANDONED_0 H).
Defined.

(** * Concrete values of the inline functions and macros *)

(** Witness of X25: the value [0x80000001] rotated by one bit. *)
Lemma rotations_spec_witness :
  0 <= 0x80000001 < 2 ^ 32 /\
  _rotl 0x80000001 1 = Some 0x3 /\
  _rotr 0x80000001 1 = Some 0xC0000000 /\
  _rotl 0x80000001 0 = None /\
  (_rotl 0x80000001 1 = None <-> 1 mod 32 = 0) /\
  (_rotr 0x80000001 1 = None <-> 1 mod 32 = 0) /\
  (forall r, _rotl 0x80000001 1 = Some r ->
     0 <= r < 2 ^ 32 /\
     forall i, 0 <= i < 32 -> Z.testbit r i = Z.testbit 0x80000001 ((i - 1) mod 32)) /\
  (forall r, _rotr 0x80000001 1 = Some r ->
     0 <= r < 2 ^ 32 /\
     forall i, 0 <= i < 32 -> Z.testbit r i = Z.testbit 0x80000001 ((i + 1) mod 32)).
Proof.
  assert (H : 0 <= 0x80000001 < 2 ^ 32) by computed.
  split; [exact H |].
  split; [reflexivity |].
  split; [reflexivity |].
  split; [reflexivity |].
  exact (@rotations_spec 0x80000001 1 H).
Defined.

(** Witness of X26: the same value, rotated left by 33 bits and back. *)
Lemma rotations_are_inverse_witness :
  0 <= 0x80000001 < 2 ^ 32 /\
  _rotl 0x80000001 33 = Some 0x3 /\
  (_rotl 0x80000001 33 = Some 0x3 -> _rotr 0x3 33 = Some 0x80000001) /\
  (_rotr 0x80000001 33 = Some 0x3 -> _rotl 0x3 33 = Some 0x80000001).
Proof.
  assert (H : 0 <= 0x80000001 < 2 ^ 32) by computed.
  split; [exact H |].
  split; [reflexivity |].
  exact (@rotations_are_inverse 0x80000001 33 0x3 H).
Defined.

(** Witness of X28: the status [0x80070005], built from the severity
    [SEVERITY_ERROR], the facility [FACILITY_WIN32] and the code 5. *)
Lemma MAKE_HRESULT_fields_witness :
  (0 <= SEVERITY_ERROR <= 1 /\ 0 <= FACILITY_WIN32 < 2 ^ 15 /\ 0 <= 5 < 2 ^ 16) /\
  MAKE_HRESULT SEVERITY_ERROR FACILITY_WIN32 5 = to_int 0x80070005 /\
  MAKE_HRESULT SEVERITY_ERROR FACILITY_WIN32 5 = HRESULT_FROM_WIN32 5 /\
  HRESULT_SEVERITY (MAKE_HRESULT SEVERITY_ERROR FACILITY_WIN32 5) = SEVERITY_ERROR /\
  HRESULT_FACILITY (MAKE_HRESULT SEVERITY_ERROR FACILITY_WIN32 5) =
    FACILITY_WIN32 mod 2 ^ 13 /\
  HRESULT_CODE (MAKE_HRESULT SEVERITY_ERROR FACILITY_WIN32 5) = 5 /\
  FAILED (MAKE_HRESULT SEVERITY_ERROR FACILITY_WIN32 5) =
    (SEVERITY_ERROR =? SEVERITY_ERROR).
Proof.
  assert (Hs : 0 <= SEVERITY_ERROR <= 1) by computed.
  assert (Hf : 0 <= FACILITY_WIN32 < 2 ^ 15) by computed.
  assert (Hc : 0 <= 5 < 2 ^ 16) by computed.
  split; [split; [exact Hs | split; [exact Hf | exact Hc]] |].
  split; [reflexivity |].
  split; [reflexivity |].
  exact (@MAKE_HRESULT_fields SEVERITY_ERROR FACILITY_WIN32 5 Hs Hf Hc).
Defined.

(** Witness of X30: the mask [0x10], whose highest set bit is bit 4, where
    [unsigned long] has 64 bits: [BitScanReverse] stores [0xFFFFFFE4] and
    [BitScanReverse64] stores 4. *)
Lemma BitScanReverse_index_witness :
  ((forall x, 0 < x < 2 ^ 64 -> clz 64 x = 64 - 1 - Z.log2 x) /\
   (forall x, 0 < x < 2 ^ 64 -> clz 64 x = 63 - Z.log2 x) /\
   32 <= 64 /\ 0 < 0x10 < 2 ^ 32) /\
  BitScanReverse (clz 64) 0x10 = (0xFFFFFFE4, 1) /\
  snd (BitScanReverse (clz 64) 0x10) = 1 /\
  fst (BitScanReverse (clz 64) 0x10) = to_DWORD (Z.log2 0x10 - (64 - 32)) /\
  (64 = 32 -> fst (BitScanReverse (clz 64) 0x10) = Z.log2 0x10) /\
  (64 = 64 ->
   fst (BitScanReverse (clz 64) 0x10) = 2 ^ 32 - 32 + Z.log2 0x10 /\
   31 < fst (BitScanReverse (clz 64) 0x10)) /\
  BitScanReverse64 (clz 64) 0x10 = (Z.log2 0x10, 1).
Proof.
  assert (Hl : forall x, 0 < x < 2 ^ 64 -> clz 64 x = 64 - 1 - Z.log2 x)
    by (intros x _; reflexivity).
  assert (Hll : forall x, 0 < x < 2 ^ 64 -> clz 64 x = 63 - Z.log2 x)
    by (intros x _; reflexivity).
  assert (Hlong : 32 <= 64) by computed.
  assert (Hmask : 0 < 0x10 < 2 ^ 32) by computed.
  split; [split; [exact Hl | split; [exact Hll | split; [exact Hlong | exact Hmask]]] |].
  split; [reflexivity |].
  exact (@BitScanReverse_index 64 (clz 64) (clz 64) Hl Hll 0x10 Hlong Hmask).
Defined.
